(** * React file-processor hooks: a shallow embedding

    This development embeds the two hooks of the repository,
    [useFileProcessor] (src/useFileProcessor.ts) and [useReportGenerator]
    (src/useReportGenerator.ts), and proves properties of them.

    Conventions of the embedding.
    - A JavaScript string is a Rocq [string], read as a sequence of code
      units in the range U+0000..U+00FF.  On that range the string
      functions the hooks call ([trim], [split], [toLowerCase],
      [includes], [replace], [join], [slice]) are the functions of the
      first part of this file.
    - A JavaScript value is a [Value]: numbers are integers, and an object
      is the list of its own enumerable properties.  [JSON.stringify] and
      [JSON.parse] are embedded for these values.
    - React state ([useState], [useRef]) is a record that is passed
      explicitly; every setter call is also appended to a log, so that the
      order of the calls can be stated.
    - [try]/[catch]/[finally] is a result type with an exception case, and
      an [async] function is the function of its results: an [await] is a
      place where the host may let [abortProcessing] run.
    - What the browser decides (the outcome of a read, the clock, whether
      the user aborted, the digest, object URLs) is an explicit [Host]
      argument.
    - The callbacks of the caller ([onError], [onSuccess], [onProgress])
      are log entries; they are taken to return normally.
    - In the embedding of [generateReport] the two formatters
      [generateHTML] and [generateText] are fields of the report
      generator's [Host].  The two formatters are embedded on their own
      in the module [Formatters]. *)

From Stdlib Require Import String Ascii List Bool Arith ZArith NArith QArith Lia.
From Stdlib Require Import DecimalString DecimalPos DecimalZ.
Import ListNotations.

Local Close Scope Q_scope.
Local Open Scope string_scope.
Local Open Scope list_scope.
Local Open Scope nat_scope.

(** ** JavaScript strings *)

Definition tab : ascii := "009"%char.
Definition nl : ascii := "010"%char.
Definition dquote : ascii := "034"%char.

(** The white space of [String.prototype.trim] and of the regular
    expression class [\s], restricted to U+0000..U+00FF: TAB, LF, VT, FF,
    CR, SPACE and NO-BREAK SPACE. *)
Definition is_whitespace (c : ascii) : bool :=
  let n := nat_of_ascii c in
  ((9 <=? n) && (n <=? 13)) || (n =? 32) || (n =? 160).

Arguments is_whitespace : simpl never.

Definition is_empty (s : string) : bool :=
  match s with EmptyString => true | String _ _ => false end.

Fixpoint trimStart (s : string) : string :=
  match s with
  | EmptyString => EmptyString
  | String c r => if is_whitespace c then trimStart r else s
  end.

Fixpoint trimEnd (s : string) : string :=
  match s with
  | EmptyString => EmptyString
  | String c r =>
      let r' := trimEnd r in
      if is_whitespace c && is_empty r' then EmptyString else String c r'
  end.

(** [text.trim()] *)
Definition trim (s : string) : string := trimEnd (trimStart s).

Definition starts_with_whitespace (s : string) : bool :=
  match s with
  | EmptyString => false
  | String c _ => is_whitespace c
  end.

(** [text.split(/\s+/)]: the pieces between the maximal runs of white
    space.  A run at the very start or at the very end leaves an empty piece
    there, and the empty string splits into one empty piece. *)
Fixpoint split_whitespace (s : string) : list string :=
  match s with
  | EmptyString => [EmptyString]
  | String c r =>
      let pieces := split_whitespace r in
      if is_whitespace c then
        if starts_with_whitespace r then pieces else EmptyString :: pieces
      else
        match pieces with
        | p :: ps => String c p :: ps
        | [] => [String c EmptyString]
        end
  end.

(** [text.split(sep)] for a separator of one code unit. *)
Fixpoint split_char (sep : ascii) (s : string) : list string :=
  match s with
  | EmptyString => [EmptyString]
  | String c r =>
      let pieces := split_char sep r in
      if Ascii.eqb c sep then EmptyString :: pieces
      else
        match pieces with
        | p :: ps => String c p :: ps
        | [] => [String c EmptyString]
        end
  end.

(** [s.toLowerCase()] on U+0000..U+00FF: the letters A-Z and the
    accented capitals U+00C0..U+00DE (but not the sign U+00D7) move up by
    32; every other code unit stays. *)
Definition lower_char (c : ascii) : ascii :=
  let n := nat_of_ascii c in
  if ((65 <=? n) && (n <=? 90))
     || ((192 <=? n) && (n <=? 222) && negb (n =? 215))
  then ascii_of_nat (n + 32) else c.

Fixpoint toLowerCase (s : string) : string :=
  match s with
  | EmptyString => EmptyString
  | String c r => String (lower_char c) (toLowerCase r)
  end.

(** [array.join(sep)] on an array of strings. *)
Fixpoint join (sep : string) (l : list string) : string :=
  match l with
  | [] => EmptyString
  | [x] => x
  | x :: rest => x ++ sep ++ join sep rest
  end.

(** [array.includes(x)] on an array of strings. *)
Definition includes (l : list string) (x : string) : bool :=
  existsb (String.eqb x) l.

(** [String(n)] for an integer. *)
Definition string_of_Z (z : Z) : string := NilZero.string_of_int (Z.to_int z).
Definition string_of_N (n : N) : string := string_of_Z (Z.of_N n).
Definition string_of_nat (n : nat) : string := string_of_Z (Z.of_nat n).

(** ** Exceptions and numbers *)

(** A thrown value: an instance of [Error] with its message, or anything
    else.  The handlers of both hooks only ask [error instanceof Error]. *)
Inductive Exn : Type :=
| JsError (message : string)
| JsThrown (description : string).

(** The outcome of a block that may throw. *)
Inductive Result (A : Type) : Type :=
| Ok (a : A)
| Throw (e : Exn).
Arguments Ok {A} a.
Arguments Throw {A} e.

(** The numbers that reach [setProgress]: quotients of integers, and the
    two values a division by zero gives. *)
Inductive JsNumber : Type :=
| Num (q : Q)
| Infinity
| NaN.

(** [(a / b) * 100] for non-negative integers [a] and [b]. *)
Definition percent (a b : N) : JsNumber :=
  if (b =? 0)%N then (if (a =? 0)%N then NaN else Infinity)
  else Num ((inject_Z (Z.of_N a) / inject_Z (Z.of_N b)) * inject_Z 100)%Q.

(** [error instanceof Error ? error.message : fallback] *)
Definition message_of (e : Exn) (fallback : string) : string :=
  match e with
  | JsError m => m
  | JsThrown _ => fallback
  end.

(** The digit of a number below 16, in lower case. *)
Definition hex_digit (n : N) : ascii :=
  if (n <? 10)%N then ascii_of_N (48 + n) else ascii_of_N (87 + n).

(** [b.toString(16).padStart(2, '0')] for a byte. *)
Definition hex_byte (b : N) : string :=
  String (hex_digit (b / 16)) (String (hex_digit (b mod 16)) EmptyString).

(** Sequencing of computations that may throw. *)
Definition and_then {A B} (r : Result A) (k : A -> Result B) : Result B :=
  match r with
  | Ok a => k a
  | Throw e => Throw e
  end.

(** [array.map(f)] for an [f] that may throw: the first throw ends it. *)
Fixpoint map_result {A B} (f : A -> Result B) (l : list A) : Result (list B) :=
  match l with
  | [] => Ok []
  | x :: rest =>
      and_then (f x) (fun y =>
      and_then (map_result f rest) (fun ys => Ok (y :: ys)))
  end.

(** [s.includes(c)] for one code unit. *)
Fixpoint contains_char (c : ascii) (s : string) : bool :=
  match s with
  | EmptyString => false
  | String x r => Ascii.eqb x c || contains_char c r
  end.

(** [s.replace(/c/g, by)]: every [c] replaced. *)
Fixpoint replace_char (c : ascii) (by_ : string) (s : string) : string :=
  match s with
  | EmptyString => EmptyString
  | String x r =>
      if Ascii.eqb x c then (by_ ++ replace_char c by_ r)%string
      else String x (replace_char c by_ r)
  end.

(** [s.slice(0, -n)]: all but the last [n] code units. *)
Definition drop_last (n : nat) (s : string) : string :=
  substring 0 (String.length s - n) s.

(** The length in bytes of the UTF-8 encoding of a text of code units below
    U+0100: one byte below U+0080, two from there on. *)
Fixpoint utf8_length (s : string) : nat :=
  match s with
  | EmptyString => 0
  | String c r => (if nat_of_ascii c <? 128 then 1 else 2) + utf8_length r
  end.

(** ** Steps of a hook

    A step reads and writes the hook's state and returns or throws. *)
Definition M (S A : Type) : Type := S -> Result A * S.

Definition ret {S A} (a : A) : M S A := fun st => (Ok a, st).
Definition throw {S A} (e : Exn) : M S A := fun st => (Throw e, st).
Definition bind {S A B} (m : M S A) (k : A -> M S B) : M S B :=
  fun st =>
    match m st with
    | (Ok a, st') => k a st'
    | (Throw e, st') => (Throw e, st')
    end.

(** [try { body } catch (error) { handler }] *)
Definition try_catch {S A} (body : M S A) (handler : Exn -> M S A) : M S A :=
  fun st =>
    match body st with
    | (Ok a, st') => (Ok a, st')
    | (Throw e, st') => handler e st'
    end.

(** [try { body } finally { cleanup }]: the cleanup runs whether the body
    returned or threw, and the body's outcome stands unless the cleanup
    itself throws. *)
Definition try_finally {S A} (body : M S A) (cleanup : M S unit) : M S A :=
  fun st =>
    match body st with
    | (r, st') =>
        match cleanup st' with
        | (Ok _, st'') => (r, st'')
        | (Throw e, st'') => (Throw e, st'')
        end
    end.

(** A pure computation that may throw, run as a step. *)
Definition lift {S A} (r : Result A) : M S A := fun st => (r, st).

(** [array.forEach(f)] *)
Fixpoint forEach {S A} (l : list A) (f : A -> M S unit) : M S unit :=
  match l with
  | [] => ret tt
  | x :: rest => bind (f x) (fun _ => forEach rest f)
  end.

Declare Scope hook_scope.
Delimit Scope hook_scope with hook.
Notation "x <- m ;; k" := (bind m (fun x => k))
  (at level 61, m at next level, right associativity) : hook_scope.
Notation "m ;; k" := (bind m (fun _ => k))
  (at level 61, right associativity) : hook_scope.

(** * The file processor (src/useFileProcessor.ts) *)

Module FileProcessor.

(** The part of a browser [File] the hook looks at. *)
Record File : Type := {
  name : string;
  size : N;
  type : string;
  lastModified : Z
}.

Record ProcessedFile : Type := {
  content : string;
  fileName : string;
  fileSize : N;
  fileType : string;
  pfLastModified : Z;
  characterCount : nat;
  wordCount : nat;
  lineCount : nat;
  encoding : option string;
  checksum : option string
}.

(** The validation rules after the defaults are merged in.  [None] is a key
    that is [undefined].  The custom validator returns a truth value or
    throws (a rejected promise is a throw at the [await]). *)
Record FileValidationOptions : Type := {
  maxSize : option Z;
  allowedTypes : option (list string);
  allowedExtensions : option (list string);
  minSize : option Z;
  customValidator : option (File -> Result bool)
}.

Record FileProcessingOptions : Type := {
  optEncoding : option string;
  includeMetadata : option bool;
  calculateChecksumFlag : option bool;
  chunkSize : option Z;
  onProgress : bool
}.

Record FileProcessorError : Type := {
  code : string;
  message : string;
  file : option File;
  details : option Exn
}.

(** What the caller passes to the hook.  In a partial options object a key
    is absent ([None]), present and [undefined] ([Some None]) or present
    with a value.  A callback is modelled by the log entries of its calls;
    the boolean says whether the caller supplied it, and a supplied callback
    is taken to return normally. *)
Record PartialValidation : Type := {
  pMaxSize : option (option Z);
  pAllowedTypes : option (option (list string));
  pAllowedExtensions : option (option (list string));
  pMinSize : option (option Z);
  pCustomValidator : option (option (File -> Result bool))
}.

Record PartialProcessing : Type := {
  pEncoding : option (option string);
  pIncludeMetadata : option (option bool);
  pCalculateChecksum : option (option bool);
  pChunkSize : option (option Z);
  pOnProgress : bool
}.

Record UseFileProcessorOptions : Type := {
  validation : option PartialValidation;
  processing : option PartialProcessing;
  onError : bool;
  onSuccess : bool
}.

Definition DEFAULT_VALIDATION : FileValidationOptions := {|
  maxSize := Some (10 * 1024 * 1024)%Z;
  allowedTypes :=
    Some ["text/plain"; "text/csv"; "application/json"; "text/html";
          "text/markdown"];
  allowedExtensions :=
    Some [".txt"; ".csv"; ".json"; ".html"; ".md"; ".docx"; ".pdf"];
  minSize := Some 1%Z;
  customValidator := None
|}.

Definition DEFAULT_PROCESSING : FileProcessingOptions := {|
  optEncoding := Some "utf-8";
  includeMetadata := Some true;
  calculateChecksumFlag := Some false;
  chunkSize := Some (64 * 1024)%Z;
  onProgress := false
|}.

(** One key of [{ ...defaults, ...partial }]. *)
Definition spread {T : Type} (default : option T) (given : option (option T))
  : option T :=
  match given with
  | None => default
  | Some v => v
  end.

(** [{ ...DEFAULT_VALIDATION, ...options.validation }] *)
Definition validationOptions (options : UseFileProcessorOptions)
  : FileValidationOptions :=
  match validation options with
  | None => DEFAULT_VALIDATION
  | Some p => {|
      maxSize := spread (maxSize DEFAULT_VALIDATION) (pMaxSize p);
      allowedTypes := spread (allowedTypes DEFAULT_VALIDATION) (pAllowedTypes p);
      allowedExtensions :=
        spread (allowedExtensions DEFAULT_VALIDATION) (pAllowedExtensions p);
      minSize := spread (minSize DEFAULT_VALIDATION) (pMinSize p);
      customValidator :=
        spread (customValidator DEFAULT_VALIDATION) (pCustomValidator p)
    |}
  end.

(** [{ ...DEFAULT_PROCESSING, ...options.processing }] *)
Definition processingOptions (options : UseFileProcessorOptions)
  : FileProcessingOptions :=
  match processing options with
  | None => DEFAULT_PROCESSING
  | Some p => {|
      optEncoding := spread (optEncoding DEFAULT_PROCESSING) (pEncoding p);
      includeMetadata :=
        spread (includeMetadata DEFAULT_PROCESSING) (pIncludeMetadata p);
      calculateChecksumFlag :=
        spread (calculateChecksumFlag DEFAULT_PROCESSING) (pCalculateChecksum p);
      chunkSize := spread (chunkSize DEFAULT_PROCESSING) (pChunkSize p);
      onProgress := pOnProgress p
    |}
  end.

(** *** Hook state *)

(** The calls the hook makes on its setters and on the caller's callbacks,
    in the order it makes them. *)
Inductive Event : Type :=
| SetIsProcessing (b : bool)
| SetProgress (p : JsNumber)
| SetError (e : option FileProcessorError)
| AppendProcessedFile (f : ProcessedFile)
| SetProcessedFiles (l : list ProcessedFile)
| OnError (e : FileProcessorError)
| OnSuccess (f : ProcessedFile)
| OnProgress (p : JsNumber).

(** The four [useState] cells, the [useRef] cell of the abort controller
    ([None] is [null], [Some aborted] a controller and its signal), and the
    log of calls. *)
Record State : Type := {
  isProcessing : bool;
  progress : JsNumber;
  error : option FileProcessorError;
  processedFiles : list ProcessedFile;
  abortControllerRef : option bool;
  log : list Event
}.

Definition initial : State := {|
  isProcessing := false;
  progress := Num 0;
  error := None;
  processedFiles := [];
  abortControllerRef := None;
  log := []
|}.

Definition emit (e : Event) : M State unit :=
  fun st =>
    (Ok tt, {| isProcessing := isProcessing st; progress := progress st;
               error := error st; processedFiles := processedFiles st;
               abortControllerRef := abortControllerRef st;
               log := log st ++ [e] |}).

Definition setIsProcessing (b : bool) : M State unit :=
  fun st =>
    (Ok tt, {| isProcessing := b; progress := progress st;
               error := error st; processedFiles := processedFiles st;
               abortControllerRef := abortControllerRef st;
               log := log st ++ [SetIsProcessing b] |}).

Definition setProgress (p : JsNumber) : M State unit :=
  fun st =>
    (Ok tt, {| isProcessing := isProcessing st; progress := p;
               error := error st; processedFiles := processedFiles st;
               abortControllerRef := abortControllerRef st;
               log := log st ++ [SetProgress p] |}).

Definition setError (e : option FileProcessorError) : M State unit :=
  fun st =>
    (Ok tt, {| isProcessing := isProcessing st; progress := progress st;
               error := e; processedFiles := processedFiles st;
               abortControllerRef := abortControllerRef st;
               log := log st ++ [SetError e] |}).

(** [setProcessedFiles(prev => [...prev, processedFile])] *)
Definition appendProcessedFile (f : ProcessedFile) : M State unit :=
  fun st =>
    (Ok tt, {| isProcessing := isProcessing st; progress := progress st;
               error := error st; processedFiles := processedFiles st ++ [f];
               abortControllerRef := abortControllerRef st;
               log := log st ++ [AppendProcessedFile f] |}).

Definition setProcessedFiles (l : list ProcessedFile) : M State unit :=
  fun st =>
    (Ok tt, {| isProcessing := isProcessing st; progress := progress st;
               error := error st; processedFiles := l;
               abortControllerRef := abortControllerRef st;
               log := log st ++ [SetProcessedFiles l] |}).

Definition setAbortControllerRef (r : option bool) : M State unit :=
  fun st =>
    (Ok tt, {| isProcessing := isProcessing st; progress := progress st;
               error := error st; processedFiles := processedFiles st;
               abortControllerRef := r;
               log := log st |}).

Definition getAbortControllerRef : M State (option bool) :=
  fun st => (Ok (abortControllerRef st), st).

(** [callback?.(x)] *)
Definition call_if (supplied : bool) (e : Event) : M State unit :=
  if supplied then emit e else ret tt.


(** *** The host *)

(** A [progress] event of the [FileReader]. *)
Record ProgressEvent : Type := {
  lengthComputable : bool;
  loaded : N;
  total : N
}.

(** The places where [processFile] is suspended at an [await]. *)
Inductive SuspensionPoint : Type :=
| AtValidation
| AtRead
| AtChecksum.

(** What the browser and the user decide.
    - [readAsText file encoding]: the [progress] events the reader fires,
      then the text it loads ([onload]) or [None] ([onerror]).
    - [abortDuring file point]: the user calls [abortProcessing] while
      [processFile file] is suspended at that point.  This is the only call
      the embedding lets in while [processFile] is suspended.
    - [sha256 content]: the bytes [crypto.subtle.digest] resolves with for
      the encoded text, or the value it rejects with. *)
Record Host : Type := {
  readAsText : File -> option string -> list ProgressEvent * option string;
  abortDuring : File -> SuspensionPoint -> bool;
  sha256 : string -> Result (list N)
}.

Local Open Scope hook_scope.

(** *** [validateFile] (lines 90-133) *)

(** [array.pop()] *)
Definition pop {A} (l : list A) : option A :=
  match rev l with
  | [] => None
  | x :: _ => Some x
  end.

(** ['.' + file.name.split('.').pop()?.toLowerCase()] *)
Definition extension_of (file_name : string) : string :=
  "." ++ match pop (split_char "."%char file_name) with
         | Some s => toLowerCase s
         | None => "undefined"
         end.

(** A number in a condition: [undefined] and [0] are false. *)
Definition truthy_number (o : option Z) : bool :=
  match o with
  | Some z => negb (z =? 0)%Z
  | None => false
  end.

Definition number_or_undefined (o : option Z) : string :=
  match o with
  | Some z => string_of_Z z
  | None => "undefined"
  end.

Definition size_exceeds (f : File) (limit : option Z) : bool :=
  match limit with
  | Some m => (m <? Z.of_N (size f))%Z
  | None => false
  end.

Definition size_below (f : File) (limit : option Z) : bool :=
  match limit with
  | Some m => (Z.of_N (size f) <? m)%Z
  | None => false
  end.

Definition max_size_message (f : File) (v : FileValidationOptions) : string :=
  "File size (" ++ string_of_N (size f)
    ++ " bytes) exceeds maximum allowed size ("
    ++ number_or_undefined (maxSize v) ++ " bytes)".

Definition min_size_message (f : File) (v : FileValidationOptions) : string :=
  "File size (" ++ string_of_N (size f)
    ++ " bytes) is below minimum required size ("
    ++ number_or_undefined (minSize v) ++ " bytes)".

Definition type_message (f : File) : string :=
  "File type '" ++ type f ++ "' is not allowed".

Definition extension_message (f : File) : string :=
  "File extension '" ++ extension_of (name f) ++ "' is not allowed".

Definition custom_message : string := "File failed custom validation".

(** The body of the [try] block. *)
Definition validateFile_try (v : FileValidationOptions) (f : File)
  : M State bool :=
  (if truthy_number (maxSize v) && size_exceeds f (maxSize v)
   then throw (JsError (max_size_message f v)) else ret tt) ;;
  (if truthy_number (minSize v) && size_below f (minSize v)
   then throw (JsError (min_size_message f v)) else ret tt) ;;
  (match allowedTypes v with
   | Some types =>
       if negb (includes types (type f))
       then throw (JsError (type_message f)) else ret tt
   | None => ret tt
   end) ;;
  (match allowedExtensions v with
   | Some extensions =>
       let extension := extension_of (name f) in
       if negb (includes extensions extension)
       then throw (JsError (extension_message f)) else ret tt
   | None => ret tt
   end) ;;
  (match customValidator v with
   | Some validator =>
       isValid <- lift (validator f) ;;
       if negb isValid then throw (JsError custom_message) else ret tt
   | None => ret tt
   end) ;;
  ret true.

Definition validateFile (options : UseFileProcessorOptions) (f : File)
  : M State bool :=
  try_catch
    (validateFile_try (validationOptions options) f)
    (fun error =>
       let fileError := {|
         code := "VALIDATION_ERROR";
         message := message_of error "Validation failed";
         file := Some f;
         details := None
       |} in
       setError (Some fileError) ;;
       call_if (onError options) (OnError fileError) ;;
       ret false).

(** *** [calculateChecksum] (lines 138-144) *)

Definition calculateChecksum (host : Host) (text : string) : M State string :=
  hashArray <- lift (sha256 host text) ;;
  ret (join "" (map hex_byte hashArray)).

(** *** [countWords] and [countLines] (lines 149-158) *)

(** [text.trim().split(/\s+/).filter(word => word.length > 0).length] *)
Definition countWords (text : string) : nat :=
  List.length
    (filter (fun word => 0 <? String.length word)
            (split_whitespace (trim text))).

(** [text.split('\n').length] *)
Definition countLines (text : string) : nat :=
  List.length (split_char nl text).


(** *** [abortProcessing] (lines 275-281) *)

Definition abortProcessing : M State unit :=
  current <- getAbortControllerRef ;;
  match current with
  | Some _ =>
      setAbortControllerRef (Some true) ;;
      setIsProcessing false ;;
      setProgress (Num 0)
  | None => ret tt
  end.

(** An [await]: the place where the user's [abortProcessing] can run. *)
Definition suspended (host : Host) (f : File) (p : SuspensionPoint)
  : M State unit :=
  if abortDuring host f p then abortProcessing else ret tt.

(** *** [processFile] (lines 163-249) *)

(** [reader.onprogress] *)
Definition onprogress (popts : FileProcessingOptions) (event : ProgressEvent)
  : M State unit :=
  if lengthComputable event then
    let progress := percent (loaded event) (total event) in
    setProgress progress ;;
    call_if (onProgress popts) (OnProgress progress)
  else ret tt.

(** The promise around the [FileReader]. *)
Definition readContent (host : Host) (popts : FileProcessingOptions)
  (f : File) : M State string :=
  let (events, result) := readAsText host f (optEncoding popts) in
  forEach events (onprogress popts) ;;
  suspended host f AtRead ;;
  match result with
  | Some text => ret text
  | None => throw (JsError "Failed to read file")
  end.

(** [abortControllerRef.current?.signal.aborted] *)
Definition signal_aborted : M State bool :=
  current <- getAbortControllerRef ;;
  ret (match current with Some aborted => aborted | None => false end).

Definition truthy_bool (o : option bool) : bool :=
  match o with
  | Some b => b
  | None => false
  end.

Definition processFile_try (options : UseFileProcessorOptions) (host : Host)
  (f : File) : M State (option ProcessedFile) :=
  let popts := processingOptions options in
  setAbortControllerRef (Some false) ;;
  isValid <- validateFile options f ;;
  suspended host f AtValidation ;;
  if negb isValid then ret None
  else
    content <- readContent host popts f ;;
    aborted <- signal_aborted ;;
    (if aborted then throw (JsError "Operation was aborted") else ret tt) ;;
    let characterCount := String.length content in
    let wordCount := countWords content in
    let lineCount := countLines content in
    checksum <-
      (if truthy_bool (calculateChecksumFlag popts) then
         digest <- calculateChecksum host content ;;
         suspended host f AtChecksum ;;
         ret (Some digest)
       else ret None) ;;
    let processedFile := {|
      content := content;
      fileName := name f;
      fileSize := size f;
      fileType := type f;
      pfLastModified := lastModified f;
      characterCount := characterCount;
      wordCount := wordCount;
      lineCount := lineCount;
      encoding := optEncoding popts;
      checksum := checksum
    |} in
    setProgress (Num 100) ;;
    appendProcessedFile processedFile ;;
    call_if (onSuccess options) (OnSuccess processedFile) ;;
    ret (Some processedFile).

Definition processFile (options : UseFileProcessorOptions) (host : Host)
  (f : File) : M State (option ProcessedFile) :=
  setIsProcessing true ;;
  setProgress (Num 0) ;;
  setError None ;;
  try_finally
    (try_catch
       (processFile_try options host f)
       (fun error =>
          let fileError := {|
            code := "PROCESSING_ERROR";
            message := message_of error "Processing failed";
            file := Some f;
            details := Some error
          |} in
          setError (Some fileError) ;;
          call_if (onError options) (OnError fileError) ;;
          ret None))
    (setIsProcessing false ;;
     setAbortControllerRef None).

(** *** [processFiles] (lines 254-270) *)

(** The [for] loop from index [i] on, with [results] as pushed so far.
    [steps] bounds the number of turns; [List.length files] turns are
    enough from index 0. *)
Fixpoint processFiles_loop (options : UseFileProcessorOptions) (host : Host)
  (files : list File) (steps i : nat) (results : list ProcessedFile)
  : M State (list ProcessedFile) :=
  match steps with
  | O => ret results
  | S steps' =>
      if i <? List.length files then
        match nth_error files i with
        | Some f =>
            result <- processFile options host f ;;
            let results' :=
              match result with
              | Some r => results ++ [r]
              | None => results
              end in
            let overallProgress :=
              percent (N.of_nat (i + 1)) (N.of_nat (List.length files)) in
            setProgress overallProgress ;;
            processFiles_loop options host files steps' (i + 1) results'
        | None => ret results
        end
      else ret results
  end.

Definition processFiles (options : UseFileProcessorOptions) (host : Host)
  (files : list File) : M State (list ProcessedFile) :=
  processFiles_loop options host files (List.length files) 0 [].

(** *** [clearProcessedFiles] and [getProcessedFile] (lines 286-297) *)

Definition clearProcessedFiles : M State unit :=
  setProcessedFiles [] ;;
  setError None ;;
  setProgress (Num 0).

Definition getProcessedFile (st : State) (wanted : string)
  : option ProcessedFile :=
  find (fun f => String.eqb (fileName f) wanted) (processedFiles st).

End FileProcessor.

(** * Drag and drop, and the file input (src/useFileProcessor.ts)

    Both hooks wrap a file processor of their own: a step of the wrapped
    processor runs on the [fileProcessor] part of their state. *)

(** ** [useFileDrop] (lines 324-355) *)

Module FileDrop.
Import FileProcessor.

(** The part of a drag event the hook looks at:
    [Array.from(event.dataTransfer.files)]. *)
Record DragEvent : Type := {
  dataTransfer_files : list File
}.

(** The calls of the hook on the event and on its own setter. *)
Inductive Call : Type :=
| PreventDefault
| SetIsDragOver (b : bool).

(** The [useState] cell of the hook, the state of the file processor it
    wraps, and the log of the hook's own calls. *)
Record State : Type := {
  isDragOver : bool;
  fileProcessor : FileProcessor.State;
  calls : list Call
}.

Definition initial : State := {|
  isDragOver := false;
  fileProcessor := FileProcessor.initial;
  calls := []
|}.

Local Open Scope hook_scope.

(** [event.preventDefault()] *)
Definition preventDefault : M State unit :=
  fun st =>
    (Ok tt, {| isDragOver := isDragOver st;
               fileProcessor := fileProcessor st;
               calls := calls st ++ [PreventDefault] |}).

Definition setIsDragOver (b : bool) : M State unit :=
  fun st =>
    (Ok tt, {| isDragOver := b;
               fileProcessor := fileProcessor st;
               calls := calls st ++ [SetIsDragOver b] |}).

(** A step of the wrapped file processor. *)
Definition in_processor {A} (m : M FileProcessor.State A) : M State A :=
  fun st =>
    let (r, p) := m (fileProcessor st) in
    (r, {| isDragOver := isDragOver st;
           fileProcessor := p;
           calls := calls st |}).

Definition handleDragOver (event : DragEvent) : M State unit :=
  preventDefault ;;
  setIsDragOver true.

Definition handleDragLeave (event : DragEvent) : M State unit :=
  preventDefault ;;
  setIsDragOver false.

Definition handleDrop (options : UseFileProcessorOptions) (host : Host)
  (event : DragEvent) : M State unit :=
  preventDefault ;;
  setIsDragOver false ;;
  let files := dataTransfer_files event in
  if 0 <? List.length files then
    in_processor (processFiles options host files) ;;
    ret tt
  else ret tt.

End FileDrop.

(** ** [useFileInput] (lines 360-386) *)

Module FileInput.
Import FileProcessor.

(** The part of a change event the hook looks at: [event.target.files],
    [None] when it is [null]. *)
Record ChangeEvent : Type := {
  target_files : option (list File)
}.

(** The calls of the hook on the input element. *)
Inductive Call : Type :=
| Click
| SetValue (value : string).

(** The [useRef] cell of the input element ([None] is [null], [Some value]
    an element and its [value]), the state of the file processor the hook
    wraps, and the log of the hook's own calls. *)
Record State : Type := {
  inputRef : option string;
  fileProcessor : FileProcessor.State;
  calls : list Call
}.

Local Open Scope hook_scope.

(** A step of the wrapped file processor. *)
Definition in_processor {A} (m : M FileProcessor.State A) : M State A :=
  fun st =>
    let (r, p) := m (fileProcessor st) in
    (r, {| inputRef := inputRef st;
           fileProcessor := p;
           calls := calls st |}).

(** [inputRef.current?.click()] *)
Definition openFileDialog : M State unit :=
  fun st =>
    match inputRef st with
    | Some _ =>
        (Ok tt, {| inputRef := inputRef st;
                   fileProcessor := fileProcessor st;
                   calls := calls st ++ [Click] |})
    | None => (Ok tt, st)
    end.

(** [if (inputRef.current) { inputRef.current.value = ''; }] *)
Definition clearInput : M State unit :=
  fun st =>
    match inputRef st with
    | Some _ =>
        (Ok tt, {| inputRef := Some EmptyString;
                   fileProcessor := fileProcessor st;
                   calls := calls st ++ [SetValue EmptyString] |})
    | None => (Ok tt, st)
    end.

Definition handleFileChange (options : UseFileProcessorOptions) (host : Host)
  (event : ChangeEvent) : M State unit :=
  let files :=
    match target_files event with
    | Some list => list
    | None => []
    end in
  (if 0 <? List.length files then
     in_processor (processFiles options host files) ;;
     ret tt
   else ret tt) ;;
  clearInput.

End FileInput.

Set Warnings "-register-all".
(** * JavaScript values

    The data handed to the generator: [undefined], [null], booleans,
    integer numbers, strings, dates (a date is its [toISOString] and its
    [toString] texts), arrays, and plain objects, an object being the list
    of its own enumerable properties in the order [Object.keys] lists
    them.  Property lookup is lookup of own properties: nothing is found
    on a prototype. *)
Inductive Value : Type :=
| VUndefined
| VNull
| VBool (b : bool)
| VNumber (z : Z)
| VString (s : string)
| VDate (iso display : string)
| VArray (items : list Value)
| VObject (props : list (string * Value)).

(** The truth value of a value in a condition. *)
Definition truthy (v : Value) : bool :=
  match v with
  | VUndefined | VNull => false
  | VBool b => b
  | VNumber z => negb (z =? 0)%Z
  | VString s => negb (is_empty s)
  | VDate _ _ | VArray _ | VObject _ => true
  end.

(** [String(value)] *)
Fixpoint String_ (v : Value) : string :=
  match v with
  | VUndefined => "undefined"
  | VNull => "null"
  | VBool b => if b then "true" else "false"
  | VNumber z => string_of_Z z
  | VString s => s
  | VDate _ display => display
  | VArray items =>
      join ","
        (map (fun x =>
                match x with
                | VUndefined | VNull => EmptyString
                | _ => String_ x
                end) items)
  | VObject _ => "[object Object]"
  end.

(** The index keys ["0"], ["1"], ... of an array or a string of [n]
    elements. *)
Definition index_keys (n : nat) : list string := map string_of_nat (seq 0 n).

(** The texts of one code unit of a string, in order. *)
Fixpoint code_units (s : string) : list string :=
  match s with
  | EmptyString => []
  | String c r => String c EmptyString :: code_units r
  end.

(** [Object.keys(value)]; it throws a [TypeError] on [undefined] and
    [null]. *)
Definition Object_keys (v : Value) : Result (list string) :=
  match v with
  | VUndefined | VNull =>
      Throw (JsError "Cannot convert undefined or null to object")
  | VBool _ | VNumber _ | VDate _ _ => Ok []
  | VString s => Ok (index_keys (String.length s))
  | VArray items => Ok (index_keys (List.length items))
  | VObject props => Ok (map fst props)
  end.

(** The first property of that name. *)
Fixpoint lookup (key : string) (props : list (string * Value)) : option Value :=
  match props with
  | [] => None
  | (k, x) :: rest => if String.eqb k key then Some x else lookup key rest
  end.

(** The element at an index key. *)
Definition at_index_key {A} (key : string) (l : list A) : option A :=
  match find (fun i => String.eqb (string_of_nat i) key)
             (seq 0 (List.length l)) with
  | Some i => nth_error l i
  | None => None
  end.

(** [item[key]]; it throws a [TypeError] on [undefined] and [null]. *)
Definition get (item : Value) (key : string) : Result Value :=
  match item with
  | VUndefined | VNull =>
      Throw (JsError "Cannot read properties of undefined or null")
  | VBool _ | VNumber _ | VDate _ _ => Ok VUndefined
  | VString s =>
      if String.eqb key "length" then Ok (VNumber (Z.of_nat (String.length s)))
      else match at_index_key key (code_units s) with
           | Some c => Ok (VString c)
           | None => Ok VUndefined
           end
  | VArray items =>
      if String.eqb key "length"
      then Ok (VNumber (Z.of_nat (List.length items)))
      else match at_index_key key items with
           | Some x => Ok x
           | None => Ok VUndefined
           end
  | VObject props =>
      match lookup key props with
      | Some x => Ok x
      | None => Ok VUndefined
      end
  end.

(** ** [JSON.stringify(value, null, 2)] *)

Definition hex4 (n : nat) : string :=
  ("00" ++ hex_byte (N.of_nat n))%string.

(** One code unit inside a JSON string. *)
Definition escape_char (c : ascii) : string :=
  let n := nat_of_ascii c in
  if n =? 8 then "\b"
  else if n =? 9 then "\t"
  else if n =? 10 then "\n"
  else if n =? 12 then "\f"
  else if n =? 13 then "\r"
  else if n =? 34 then String "\"%char (String dquote EmptyString)
  else if n =? 92 then "\\"
  else if n <? 32 then ("\u" ++ hex4 n)%string
  else String c EmptyString.

Fixpoint escape (s : string) : string :=
  match s with
  | EmptyString => EmptyString
  | String c r => (escape_char c ++ escape r)%string
  end.

(** A string between double quotes, escaped. *)
Definition quote (s : string) : string :=
  String dquote (escape s ++ String dquote EmptyString).

Definition newline : string := String nl EmptyString.

(** The text between the brackets of a non-empty array or object. *)
Definition block (opening closing indent : string) (members : list string)
  : string :=
  let inner := (indent ++ "  ")%string in
  (opening ++ newline ++ inner
     ++ join ("," ++ newline ++ inner) members
     ++ newline ++ indent ++ closing)%string.

(** The serialization of a value at an indentation; [None] is
    [undefined].  A property whose value has no serialization is left out,
    an array element that has none is [null], a date is its ISO text. *)
Fixpoint stringify (indent : string) (v : Value) : option string :=
  match v with
  | VUndefined => None
  | VNull => Some "null"
  | VBool b => Some (if b then "true" else "false")
  | VNumber z => Some (string_of_Z z)
  | VString s => Some (quote s)
  | VDate iso _ => Some (quote iso)
  | VArray items =>
      match items with
      | [] => Some "[]"
      | _ =>
          Some (block "[" "]" indent
                  (map (fun x =>
                          match stringify (indent ++ "  ")%string x with
                          | Some text => text
                          | None => "null"
                          end) items))
      end
  | VObject props =>
      match
        flat_map (fun kx =>
                    match stringify (indent ++ "  ")%string (snd kx) with
                    | Some text => [(quote (fst kx) ++ ": " ++ text)%string]
                    | None => []
                    end) props
      with
      | [] => Some "{}"
      | members => Some (block "{" "}" indent members)
      end
  end.

(** [JSON.stringify(value, null, 2)] *)
Definition JSON_stringify (v : Value) : option string :=
  stringify EmptyString v.

(** ** [JSON.parse(text)]

    The grammar of JSON, with two limits of the embedding: a number must
    be an integer (a fraction or an exponent is refused), and a [\u]
    escape must name a code unit below U+0100. *)

Definition is_json_space (c : ascii) : bool :=
  let n := nat_of_ascii c in
  (n =? 9) || (n =? 10) || (n =? 13) || (n =? 32).

Fixpoint skip_space (s : string) : string :=
  match s with
  | EmptyString => EmptyString
  | String c r => if is_json_space c then skip_space r else s
  end.

Definition is_digit (c : ascii) : bool :=
  let n := nat_of_ascii c in (48 <=? n) && (n <=? 57).

(** The value of a hexadecimal digit. *)
Definition hex_value (c : ascii) : option nat :=
  let n := nat_of_ascii c in
  if (48 <=? n) && (n <=? 57) then Some (n - 48)
  else if (97 <=? n) && (n <=? 102) then Some (n - 87)
  else if (65 <=? n) && (n <=? 70) then Some (n - 55)
  else None.

(** The code unit of the four digits after [\u]. *)
Definition unicode_escape (a b c d : ascii) : option ascii :=
  match hex_value a, hex_value b, hex_value c, hex_value d with
  | Some 0, Some 0, Some x, Some y => Some (ascii_of_nat (16 * x + y))
  | _, _, _, _ => None
  end.

(** The characters of a string literal after its opening quote, up to the
    closing quote; then the rest of the text. *)
Fixpoint parse_chars (s : string) : option (string * string) :=
  match s with
  | EmptyString => None
  | String c r =>
      if Ascii.eqb c dquote then Some (EmptyString, r)
      else if Ascii.eqb c "\"%char then
        match r with
        | String e r1 =>
            let continue_with (x : ascii) (parsed : option (string * string)) :=
              match parsed with
              | None => None
              | Some (chars, after) => Some (String x chars, after)
              end in
            if Ascii.eqb e dquote then continue_with dquote (parse_chars r1)
            else if Ascii.eqb e "\"%char then
              continue_with "\"%char (parse_chars r1)
            else if Ascii.eqb e "/"%char then
              continue_with "/"%char (parse_chars r1)
            else if Ascii.eqb e "b"%char then
              continue_with "008"%char (parse_chars r1)
            else if Ascii.eqb e "f"%char then
              continue_with "012"%char (parse_chars r1)
            else if Ascii.eqb e "n"%char then
              continue_with "010"%char (parse_chars r1)
            else if Ascii.eqb e "r"%char then
              continue_with "013"%char (parse_chars r1)
            else if Ascii.eqb e "t"%char then
              continue_with "009"%char (parse_chars r1)
            else if Ascii.eqb e "u"%char then
              match r1 with
              | String h1 (String h2 (String h3 (String h4 r2))) =>
                  match unicode_escape h1 h2 h3 h4 with
                  | Some x => continue_with x (parse_chars r2)
                  | None => None
                  end
              | _ => None
              end
            else None
        | EmptyString => None
        end
      else if nat_of_ascii c <? 32 then None
      else
        match parse_chars r with
        | Some (chars, after) => Some (String c chars, after)
        | None => None
        end
  end.

(** The longest prefix of digits, and the rest. *)
Fixpoint take_digits (s : string) : string * string :=
  match s with
  | EmptyString => (EmptyString, EmptyString)
  | String c r =>
      if is_digit c then
        let (digits, rest) := take_digits r in (String c digits, rest)
      else (EmptyString, s)
  end.

(** A minus sign, if any, and the digits after it; and the rest. *)
Definition number_token (s : string) : string * string :=
  match s with
  | String c r =>
      if Ascii.eqb c "-"%char then
        let (digits, rest) := take_digits r in (String c digits, rest)
      else take_digits s
  | EmptyString => (EmptyString, EmptyString)
  end.

Definition starts_fraction (s : string) : bool :=
  match s with
  | String c _ =>
      Ascii.eqb c "."%char || Ascii.eqb c "e"%char || Ascii.eqb c "E"%char
  | EmptyString => false
  end.

(** An integer without needless zeros in front. *)
Definition parse_number (s : string) : option (Z * string) :=
  let (token, rest) := number_token s in
  match NilZero.int_of_string token with
  | Some d =>
      let z := Z.of_int d in
      if (String.eqb (string_of_Z z) token || String.eqb token "-0")
         && negb (starts_fraction rest)
      then Some (z, rest) else None
  | None => None
  end.

(** The text [word], then the rest. *)
Fixpoint expect (word s : string) : option string :=
  match word with
  | EmptyString => Some s
  | String w word' =>
      match s with
      | String c r => if Ascii.eqb c w then expect word' r else None
      | EmptyString => None
      end
  end.

(** A value at the head of the text, and the rest of the text.  [fuel]
    bounds the nesting of the calls. *)
Fixpoint parse_value (fuel : nat) (s : string) : option (Value * string) :=
  match fuel with
  | O => None
  | S fuel' =>
      match skip_space s with
      | EmptyString => None
      | String c r =>
          if Ascii.eqb c "n"%char then
            option_map (fun rest => (VNull, rest)) (expect "ull" r)
          else if Ascii.eqb c "t"%char then
            option_map (fun rest => (VBool true, rest)) (expect "rue" r)
          else if Ascii.eqb c "f"%char then
            option_map (fun rest => (VBool false, rest)) (expect "alse" r)
          else if Ascii.eqb c dquote then
            match parse_chars r with
            | Some (chars, rest) => Some (VString chars, rest)
            | None => None
            end
          else if Ascii.eqb c "["%char then
            let elements :=
              match parse_elements fuel' r with
              | Some (items, rest) => Some (VArray items, rest)
              | None => None
              end in
            match skip_space r with
            | String c' rest =>
                if Ascii.eqb c' "]"%char then Some (VArray [], rest)
                else elements
            | EmptyString => elements
            end
          else if Ascii.eqb c "{"%char then
            let props :=
              match parse_members fuel' r with
              | Some (props, rest) => Some (VObject props, rest)
              | None => None
              end in
            match skip_space r with
            | String c' rest =>
                if Ascii.eqb c' "}"%char then Some (VObject [], rest)
                else props
            | EmptyString => props
            end
          else
            match parse_number (String c r) with
            | Some (z, rest) => Some (VNumber z, rest)
            | None => None
            end
      end
  end

with parse_elements (fuel : nat) (s : string)
  : option (list Value * string) :=
  match fuel with
  | O => None
  | S fuel' =>
      match parse_value fuel' s with
      | Some (v, rest) =>
          match skip_space rest with
          | String c rest' =>
              if Ascii.eqb c ","%char then
                match parse_elements fuel' rest' with
                | Some (items, after) => Some (v :: items, after)
                | None => None
                end
              else if Ascii.eqb c "]"%char then Some ([v], rest')
              else None
          | EmptyString => None
          end
      | None => None
      end
  end

with parse_members (fuel : nat) (s : string)
  : option (list (string * Value) * string) :=
  match fuel with
  | O => None
  | S fuel' =>
      match skip_space s with
      | String q r =>
          if Ascii.eqb q dquote then
            match parse_chars r with
            | Some (key, rest) =>
                match skip_space rest with
                | String colon rest1 =>
                    if Ascii.eqb colon ":"%char then
                      match parse_value fuel' rest1 with
                      | Some (v, rest2) =>
                          match skip_space rest2 with
                          | String c rest3 =>
                              if Ascii.eqb c ","%char then
                                match parse_members fuel' rest3 with
                                | Some (props, after) =>
                                    Some ((key, v) :: props, after)
                                | None => None
                                end
                              else if Ascii.eqb c "}"%char
                              then Some ([(key, v)], rest3)
                              else None
                          | EmptyString => None
                          end
                      | None => None
                      end
                    else None
                | EmptyString => None
                end
            | None => None
            end
          else None
      | EmptyString => None
      end
  end.

(** [JSON.parse(text)]: the value of the whole text, or a [SyntaxError]. *)
Definition JSON_parse (text : string) : Result Value :=
  match parse_value (S (String.length text)) text with
  | Some (v, rest) =>
      if is_empty (skip_space rest) then Ok v
      else Throw (JsError "SyntaxError")
  | None => Throw (JsError "SyntaxError")
  end.

(** What [JSON.parse] gives back of a value written by [JSON.stringify]:
    nothing for [undefined]; a date is the text of its ISO form; an array
    element without a serialization is [null]; a property without one is
    gone. *)
Fixpoint json_image (v : Value) : option Value :=
  match v with
  | VUndefined => None
  | VNull => Some VNull
  | VBool b => Some (VBool b)
  | VNumber z => Some (VNumber z)
  | VString s => Some (VString s)
  | VDate iso _ => Some (VString iso)
  | VArray items =>
      Some (VArray
              (map (fun x =>
                      match json_image x with
                      | Some y => y
                      | None => VNull
                      end) items))
  | VObject props =>
      Some (VObject
              (flat_map (fun kx =>
                           match json_image (snd kx) with
                           | Some y => [(fst kx, y)]
                           | None => []
                           end) props))
  end.

(** The values of JSON: no [undefined] and no date, at any depth. *)
Fixpoint is_json (v : Value) : bool :=
  match v with
  | VUndefined | VDate _ _ => false
  | VNull | VBool _ | VNumber _ | VString _ => true
  | VArray items => forallb is_json items
  | VObject props => forallb (fun kx => is_json (snd kx)) props
  end.

(** * The report generator (src/useReportGenerator.ts) *)

Module ReportGenerator.

(** ** Types (lines 15-60) *)

Record ReportStyling : Type := {
  theme : option string;
  primaryColor : option string;
  fontFamily : option string;
  fontSize : option string;
  customCSS : option string
}.

(** The options of a report.  [format] is the tag as it is at run time,
    any string; [metadata] is the value the caller passed, [VUndefined]
    when there is none. *)
Record ReportOptions : Type := {
  filename : option string;
  format : string;
  metadata : Value;
  template : option string;
  styling : option ReportStyling;
  compression : option bool;
  includeTimestamp : option bool
}.

(** A [Blob] of one text part. *)
Record Blob : Type := {
  blobText : string;
  blobType : string
}.

(** [blob.size] *)
Definition blob_size (b : Blob) : nat := utf8_length (blobText b).

Record GeneratedReport : Type := {
  blob : Blob;
  reportFilename : string;
  size : nat;
  reportFormat : string;
  downloadUrl : string
}.

Record ReportGeneratorError : Type := {
  code : string;
  message : string;
  details : option Exn
}.

(** ** Hook state and browser *)

Inductive Event : Type :=
| SetIsGenerating (b : bool)
| SetProgress (p : JsNumber)
| SetError (e : option ReportGeneratorError)
| AppendReport (r : GeneratedReport)
| SetGeneratedReports (l : list GeneratedReport)
| CreateObjectURL (url : string)
| RevokeObjectURL (url : string)
| Click (href download : string)
| SetTimeout (url : string).

(** The four [useState] cells, then the browser: the object URLs that are
    live, the revocations that wait on a timer, the number of dates and of
    object URLs made so far; and the log of calls. *)
Record State : Type := {
  isGenerating : bool;
  progress : JsNumber;
  error : option ReportGeneratorError;
  generatedReports : list GeneratedReport;
  objectUrls : list string;
  timers : list string;
  dates : nat;
  urlsMade : nat;
  log : list Event
}.

Definition initial : State := {|
  isGenerating := false;
  progress := Num 0;
  error := None;
  generatedReports := [];
  objectUrls := [];
  timers := [];
  dates := 0;
  urlsMade := 0;
  log := []
|}.

(** What the browser decides, and the two formatters whose text is not
    embedded.
    - [toISOString n], [toLocaleString n]: the texts of the [n]-th
      [new Date()].
    - [createObjectURL n blob]: the [n]-th object URL, or the error thrown
      instead.
    - [generateHTML] (lines 145-283) and [generateText] (lines 288-321),
      given the data, the options and the text of their [new Date()]: the
      text they return, or the error they throw. *)
Record Host : Type := {
  toISOString : nat -> string;
  toLocaleString : nat -> string;
  createObjectURL : nat -> Blob -> Result string;
  generateHTML : Value -> ReportOptions -> string -> Result string;
  generateText : Value -> ReportOptions -> string -> Result string
}.

Local Open Scope hook_scope.

Definition setIsGenerating (b : bool) : M State unit :=
  fun st =>
    (Ok tt,
     {| isGenerating := b;
        progress := progress st;
        error := error st;
        generatedReports := generatedReports st;
        objectUrls := objectUrls st;
        timers := timers st;
        dates := dates st;
        urlsMade := urlsMade st;
        log := (log st ++ [SetIsGenerating b])%list |}).

Definition setProgress (p : JsNumber) : M State unit :=
  fun st =>
    (Ok tt,
     {| isGenerating := isGenerating st;
        progress := p;
        error := error st;
        generatedReports := generatedReports st;
        objectUrls := objectUrls st;
        timers := timers st;
        dates := dates st;
        urlsMade := urlsMade st;
        log := (log st ++ [SetProgress p])%list |}).

Definition setError (e : option ReportGeneratorError) : M State unit :=
  fun st =>
    (Ok tt,
     {| isGenerating := isGenerating st;
        progress := progress st;
        error := e;
        generatedReports := generatedReports st;
        objectUrls := objectUrls st;
        timers := timers st;
        dates := dates st;
        urlsMade := urlsMade st;
        log := (log st ++ [SetError e])%list |}).

(** [setGeneratedReports(prev => [...prev, generatedReport])] *)
Definition appendReport (r : GeneratedReport) : M State unit :=
  fun st =>
    (Ok tt,
     {| isGenerating := isGenerating st;
        progress := progress st;
        error := error st;
        generatedReports := (generatedReports st ++ [r])%list;
        objectUrls := objectUrls st;
        timers := timers st;
        dates := dates st;
        urlsMade := urlsMade st;
        log := (log st ++ [AppendReport r])%list |}).

Definition setGeneratedReports (l : list GeneratedReport) : M State unit :=
  fun st =>
    (Ok tt,
     {| isGenerating := isGenerating st;
        progress := progress st;
        error := error st;
        generatedReports := l;
        objectUrls := objectUrls st;
        timers := timers st;
        dates := dates st;
        urlsMade := urlsMade st;
        log := (log st ++ [SetGeneratedReports l])%list |}).

(** [new Date()]: the number of the date. *)
Definition newDate : M State nat :=
  fun st =>
    (Ok (dates st),
     {| isGenerating := isGenerating st; progress := progress st;
        error := error st; generatedReports := generatedReports st;
        objectUrls := objectUrls st; timers := timers st;
        dates := S (dates st); urlsMade := urlsMade st; log := log st |}).

(** [URL.createObjectURL(blob)] *)
Definition URL_createObjectURL (host : Host) (b : Blob) : M State string :=
  fun st =>
    match createObjectURL host (urlsMade st) b with
    | Ok url =>
        (Ok url,
         {| isGenerating := isGenerating st; progress := progress st;
            error := error st; generatedReports := generatedReports st;
            objectUrls := (objectUrls st ++ [url])%list; timers := timers st;
            dates := dates st; urlsMade := S (urlsMade st);
            log := (log st ++ [CreateObjectURL url])%list |})
    | Throw e => (Throw e, st)
    end.

(** [URL.revokeObjectURL(url)]: the URL is live no more. *)
Definition URL_revokeObjectURL (url : string) : M State unit :=
  fun st =>
    (Ok tt,
     {| isGenerating := isGenerating st;
        progress := progress st;
        error := error st;
        generatedReports := generatedReports st;
        objectUrls := filter (fun u => negb (String.eqb u url)) (objectUrls st);
        timers := timers st;
        dates := dates st;
        urlsMade := urlsMade st;
        log := (log st ++ [RevokeObjectURL url])%list |}).

(** [link.click()] on a link with that [href] and [download]. *)
Definition click (href download : string) : M State unit :=
  fun st =>
    (Ok tt,
     {| isGenerating := isGenerating st;
        progress := progress st;
        error := error st;
        generatedReports := generatedReports st;
        objectUrls := objectUrls st;
        timers := timers st;
        dates := dates st;
        urlsMade := urlsMade st;
        log := (log st ++ [Click href download])%list |}).

(** [setTimeout(() => URL.revokeObjectURL(url), 1000)] *)
Definition setTimeout_revoke (url : string) : M State unit :=
  fun st =>
    (Ok tt,
     {| isGenerating := isGenerating st;
        progress := progress st;
        error := error st;
        generatedReports := generatedReports st;
        objectUrls := objectUrls st;
        timers := (timers st ++ [url])%list;
        dates := dates st;
        urlsMade := urlsMade st;
        log := (log st ++ [SetTimeout url])%list |}).

(** ** [generateFilename] (lines 82-91) *)

(** [x || fallback] for an optional string. *)
Definition or_string (x : option string) (fallback : string) : string :=
  match x with
  | Some s => if is_empty s then fallback else s
  | None => fallback
  end.

(** [x !== false] for an optional boolean. *)
Definition not_false (x : option bool) : bool :=
  match x with
  | Some false => false
  | _ => true
  end.

(** [iso.replace(/[:.]/g, '-').slice(0, -5)] *)
Definition timestamp_of (iso : string) : string :=
  drop_last 5 (replace_char "."%char "-" (replace_char ":"%char "-" iso)).

Definition generateFilename (host : Host) (options : ReportOptions)
  : M State string :=
  let filename := or_string (filename options) "report" in
  filename <-
    (if not_false (includeTimestamp options) then
       now <- newDate ;;
       let timestamp := timestamp_of (toISOString host now) in
       ret (filename ++ "_" ++ timestamp)%string
     else ret filename) ;;
  ret (filename ++ "." ++ format options)%string.

(** ** [generateJSON] (lines 96-104) *)

(** [`${x}`] for the result of [JSON.stringify]. *)
Definition or_undefined (x : option string) : string :=
  match x with
  | Some s => s
  | None => "undefined"
  end.

Definition generateJSON (host : Host) (data : Value) (options : ReportOptions)
  : M State string :=
  now <- newDate ;;
  let reportContent :=
    VObject [("metadata", metadata options);
             ("data", data);
             ("generatedAt", VString (toISOString host now))] in
  ret (or_undefined (JSON_stringify reportContent)).

(** ** [generateCSV] (lines 109-140) *)

(** [Array.from(new Set(keys))]: the keys in the order they are first met,
    each once. *)
Definition unique (keys : list string) : list string :=
  fold_left (fun seen k => if includes seen k then seen else seen ++ [k])%list
            keys [].

(** [data.flatMap(Object.keys)] *)
Definition flatMap_keys (data : list Value) : Result (list string) :=
  and_then (map_result Object_keys data) (fun ks => Ok (concat ks)).

(** One cell. *)
Definition csv_cell (item : Value) (key : string) : Result string :=
  and_then (get item key) (fun value =>
    match value with
    | VNull | VUndefined => Ok EmptyString
    | _ =>
        let stringValue := String_ value in
        if contains_char ","%char stringValue
           || contains_char dquote stringValue
           || contains_char nl stringValue
        then Ok (String dquote
                   (replace_char dquote (String dquote (String dquote ""))
                      stringValue
                    ++ String dquote ""))%string
        else Ok stringValue
    end).

(** The rows pushed by [data.forEach], after the rows [csvRows]. *)
Fixpoint csv_push_rows (allKeys : list string) (data : list Value)
  (csvRows : list string) : Result (list string) :=
  match data with
  | [] => Ok csvRows
  | item :: rest =>
      and_then (map_result (csv_cell item) allKeys) (fun row =>
      csv_push_rows allKeys rest (csvRows ++ [join "," row])%list)
  end.

Definition generateCSV (data : Value) (options : ReportOptions)
  : Result string :=
  match data with
  | VArray [] => Ok EmptyString
  | VArray items =>
      and_then (flatMap_keys items) (fun keys =>
      let allKeys := unique keys in
      let csvRows := [join "," allKeys] in
      and_then (csv_push_rows allKeys items csvRows) (fun csvRows =>
      Ok (join newline csvRows)))
  | _ => Ok EmptyString
  end.

(** ** [downloadBlob] (lines 326-339) *)

Definition downloadBlob (host : Host) (b : Blob) (filename : string)
  : M State string :=
  url <- URL_createObjectURL host b ;;
  click url filename ;;
  setTimeout_revoke url ;;
  ret url.

(** ** [generateReport] (lines 344-419) *)

(** The [switch] on the format. *)
Definition format_content (host : Host) (data : Value)
  (options : ReportOptions) : M State (string * string) :=
  if String.eqb (format options) "json" then
    content <- generateJSON host data options ;;
    ret (content, "application/json")
  else if String.eqb (format options) "csv" then
    content <- lift (generateCSV data options) ;;
    ret (content, "text/csv")
  else if String.eqb (format options) "html" then
    now <- newDate ;;
    content <- lift (generateHTML host data options (toLocaleString host now)) ;;
    ret (content, "text/html")
  else if String.eqb (format options) "txt" then
    now <- newDate ;;
    content <- lift (generateText host data options (toLocaleString host now)) ;;
    ret (content, "text/plain")
  else throw (JsError ("Unsupported format: " ++ format options)).

Definition generateReport_try (host : Host) (data : Value)
  (options : ReportOptions) : M State (option GeneratedReport) :=
  setProgress (Num 25) ;;
  content_mimeType <- format_content host data options ;;
  let content := fst content_mimeType in
  let mimeType := snd content_mimeType in
  setProgress (Num 75) ;;
  let blob := {| blobText := content; blobType := mimeType |} in
  filename <- generateFilename host options ;;
  setProgress (Num 90) ;;
  downloadUrl <- downloadBlob host blob filename ;;
  let generatedReport := {|
    blob := blob;
    reportFilename := filename;
    size := blob_size blob;
    reportFormat := format options;
    downloadUrl := downloadUrl
  |} in
  setProgress (Num 100) ;;
  appendReport generatedReport ;;
  ret (Some generatedReport).

Definition generateReport (host : Host) (data : Value)
  (options : ReportOptions) : M State (option GeneratedReport) :=
  setIsGenerating true ;;
  setProgress (Num 0) ;;
  setError None ;;
  try_finally
    (try_catch
       (generateReport_try host data options)
       (fun error =>
          let reportError := {|
            code := "GENERATION_ERROR";
            message :=
              message_of error "Report generation failed";
            details := Some error
          |} in
          setError (Some reportError) ;;
          ret None))
    (setIsGenerating false).

(** ** [generateMultipleReports] (lines 424-446) *)

(** [{ ...baseOptions, format }] *)
Definition with_format (baseOptions : ReportOptions) (fmt : string)
  : ReportOptions :=
  {| filename := filename baseOptions;
     format := fmt;
     metadata := metadata baseOptions;
     template := template baseOptions;
     styling := styling baseOptions;
     compression := compression baseOptions;
     includeTimestamp := includeTimestamp baseOptions |}.

Fixpoint generateMultipleReports_loop (host : Host) (data : Value)
  (formats : list string) (baseOptions : ReportOptions)
  (steps i : nat) (reports : list GeneratedReport)
  : M State (list GeneratedReport) :=
  match steps with
  | O => ret reports
  | S steps' =>
      if i <? List.length formats then
        match nth_error formats i with
        | Some fmt =>
            let options := with_format baseOptions fmt in
            report <- generateReport host data options ;;
            let reports' :=
              match report with
              | Some r => (reports ++ [r])%list
              | None => reports
              end in
            let overallProgress :=
              percent (N.of_nat (i + 1)) (N.of_nat (List.length formats)) in
            setProgress overallProgress ;;
            generateMultipleReports_loop host data formats baseOptions
              steps' (i + 1) reports'
        | None => ret reports
        end
      else ret reports
  end.

Definition generateMultipleReports (host : Host) (data : Value)
  (formats : list string) (baseOptions : ReportOptions)
  : M State (list GeneratedReport) :=
  generateMultipleReports_loop host data formats baseOptions
    (List.length formats) 0 [].

(** ** [clearReports] (lines 451-460)

    The callback closes over the [generatedReports] of the render that
    made it: the argument [seen] is that list.  For the callback of the
    current render it is the registry of the state. *)

Definition clearReports (seen : list GeneratedReport) : M State unit :=
  forEach seen (fun report => URL_revokeObjectURL (downloadUrl report)) ;;
  setGeneratedReports [] ;;
  setError None ;;
  setProgress (Num 0).

(** The browser runs the oldest timer. *)
Definition fireTimer : M State unit :=
  fun st =>
    match timers st with
    | [] => (Ok tt, st)
    | url :: rest =>
        URL_revokeObjectURL url
          {| isGenerating := isGenerating st; progress := progress st;
             error := error st; generatedReports := generatedReports st;
             objectUrls := objectUrls st; timers := rest;
             dates := dates st; urlsMade := urlsMade st; log := log st |}
    end.

(** ** [getReportStats] (lines 465-478)

    Like [clearReports], the callback closes over the [generatedReports]
    of the render that made it: the argument [seen].  The object
    [formatCounts] is the list of its properties in the order they were
    added; its keys are format tags. *)

Record ReportStats : Type := {
  totalReports : nat;
  totalSize : nat;
  formatCounts : list (string * nat);
  averageSize : JsNumber
}.

(** [counts[key]] *)
Fixpoint count_of (counts : list (string * nat)) (key : string) : option nat :=
  match counts with
  | [] => None
  | (k, n) :: rest => if String.eqb k key then Some n else count_of rest key
  end.

(** [counts[key] = n]: an existing property keeps its place, a new one
    comes last. *)
Fixpoint set_count (counts : list (string * nat)) (key : string) (n : nat)
  : list (string * nat) :=
  match counts with
  | [] => [(key, n)]
  | (k, m) :: rest =>
      if String.eqb k key then (k, n) :: rest
      else (k, m) :: set_count rest key n
  end.

(** [x || 0] for a count. *)
Definition or_zero (x : option nat) : nat :=
  match x with
  | Some n => n
  | None => 0
  end.

(** [a / b] for non-negative integers. *)
Definition quotient (a b : nat) : JsNumber :=
  if b =? 0 then (if a =? 0 then NaN else Infinity)
  else Num (inject_Z (Z.of_nat a) / inject_Z (Z.of_nat b))%Q.

Definition getReportStats (seen : list GeneratedReport) : ReportStats :=
  let totalSize := fold_left (fun sum report => sum + size report) seen 0 in
  let formatCounts :=
    fold_left
      (fun counts report =>
         set_count counts (reportFormat report)
           (or_zero (count_of counts (reportFormat report)) + 1))
      seen [] in
  {| totalReports := List.length seen;
     totalSize := totalSize;
     formatCounts := formatCounts;
     averageSize :=
       if 0 <? List.length seen then quotient totalSize (List.length seen)
       else Num 0 |}.

End ReportGenerator.

Module RG := ReportGenerator.

(** * The text and the HTML formatters (src/useReportGenerator.ts)

    [generateText] and [generateHTML], with the function
    [renderDataAsTable] that fills the data section of the document, as
    functions of the data, the metadata and the styling.  The metadata is
    here what the interface [ReportMetadata] types it as; the text of
    [new Date().toLocaleString()] is an argument. *)

Module Formatters.

(** The fields of [ReportMetadata] (lines 21-28) that the formatters
    read.  [None] is a key that is absent or [undefined]. *)
Record ReportMetadata : Type := {
  title : string;
  description : option string;
  author : option string;
  version : option string
}.

(** [Object.entries(value)]; it throws a [TypeError] on [undefined] and
    [null]. *)
Definition Object_entries (v : Value) : Result (list (string * Value)) :=
  match v with
  | VUndefined | VNull =>
      Throw (JsError "Cannot convert undefined or null to object")
  | VBool _ | VNumber _ | VDate _ _ => Ok []
  | VString s =>
      Ok (combine (index_keys (String.length s)) (map VString (code_units s)))
  | VArray items => Ok (combine (index_keys (List.length items)) items)
  | VObject props => Ok props
  end.

(** [s.repeat(n)] *)
Fixpoint repeat_string (s : string) (n : nat) : string :=
  match n with
  | O => EmptyString
  | S n' => (s ++ repeat_string s n')%string
  end.

(** An optional string in a condition: [undefined] and the empty string
    are false. *)
Definition truthy_string (x : option string) : bool :=
  match x with
  | Some s => negb (is_empty s)
  | None => false
  end.

(** [`${x}`] for an optional string. *)
Definition string_or_undefined (x : option string) : string :=
  match x with
  | Some s => s
  | None => "undefined"
  end.

(** ** [generateText] (lines 288-321)

    Of the options it reads the metadata only. *)

(** The callback of [Object.entries(item).forEach]. *)
Definition text_entry (content : string) (entry : string * Value) : string :=
  (content ++ "  " ++ fst entry ++ ": " ++ String_ (snd entry) ++ newline)%string.

(** [data.forEach((item, index) => ...)] from the index [index] on, with
    the text [content] as it is so far. *)
Fixpoint text_records (items : list Value) (index : nat) (content : string)
  : Result string :=
  match items with
  | [] => Ok content
  | item :: rest =>
      let content :=
        (content ++ "Record " ++ string_of_nat (index + 1) ++ ":" ++ newline)%string in
      and_then (Object_entries item) (fun entries =>
      let content := fold_left text_entry entries content in
      let content := (content ++ newline)%string in
      text_records rest (index + 1) content)
  end.

Definition generateText (data : Value) (metadata : option ReportMetadata)
  (localeString : string) : Result string :=
  let content := EmptyString in
  let content :=
    match metadata with
    | Some m =>
        if negb (is_empty (title m)) then
          let content := (content ++ title m ++ newline)%string in
          (content ++ repeat_string "=" (String.length (title m))
             ++ newline ++ newline)%string
        else content
    | None => content
    end in
  let content :=
    match metadata with
    | Some m =>
        if truthy_string (description m) then
          (content ++ string_or_undefined (description m)
             ++ newline ++ newline)%string
        else content
    | None => content
    end in
  let content :=
    (content ++ "Generated on: " ++ localeString ++ newline)%string in
  let content :=
    match metadata with
    | Some m =>
        if truthy_string (author m) then
          (content ++ "Author: " ++ string_or_undefined (author m)
             ++ newline)%string
        else content
    | None => content
    end in
  let content := (content ++ newline)%string in
  match data with
  | VArray items => text_records items 0 content
  | _ => Ok (content ++ RG.or_undefined (JSON_stringify data))%string
  end.

(** ** [renderDataAsTable] (lines 232-253) *)

(** [typeof value === 'object'] *)
Definition typeof_object (v : Value) : bool :=
  match v with
  | VNull | VDate _ _ | VArray _ | VObject _ => true
  | VUndefined | VBool _ | VNumber _ | VString _ => false
  end.

Definition spaces (n : nat) : string := repeat_string " " n.

(** A text between double quotes. *)
Definition attribute (s : string) : string :=
  String dquote (s ++ String dquote EmptyString).

(** [`<td>${item[key] || ''}</td>`] *)
Definition table_cell (item : Value) (key : string) : Result string :=
  and_then (get item key) (fun value =>
    Ok ("<td>" ++ (if truthy value then String_ value else EmptyString)
          ++ "</td>")%string).

(** [`<tr>${keys.map(...).join('')}</tr>`] *)
Definition table_row (keys : list string) (item : Value) : Result string :=
  and_then (map_result (table_cell item) keys) (fun cells =>
    Ok ("<tr>" ++ join "" cells ++ "</tr>")%string).

(** The text returned for a table. *)
Definition table_markup (headerRow dataRows : string) : string :=
  (newline ++ spaces 10 ++ "<table class=" ++ attribute "data-table" ++ ">"
   ++ newline ++ spaces 12 ++ "<thead><tr>" ++ headerRow ++ "</tr></thead>"
   ++ newline ++ spaces 12 ++ "<tbody>" ++ dataRows ++ "</tbody>"
   ++ newline ++ spaces 10 ++ "</table>"
   ++ newline ++ spaces 8)%string.

(** The text returned for any other data. *)
Definition json_markup (json : string) : string :=
  (newline ++ spaces 8 ++ "<div class=" ++ attribute "json-container" ++ ">"
   ++ newline ++ spaces 10 ++ "<pre class=" ++ attribute "json-content" ++ ">"
   ++ json ++ "</pre>"
   ++ newline ++ spaces 8 ++ "</div>"
   ++ newline ++ spaces 6)%string.

Definition renderDataAsTable (data : Value) : Result string :=
  match data with
  | VArray (first :: rest) =>
      if typeof_object first then
        and_then (Object_keys first) (fun keys =>
        let headerRow :=
          join "" (map (fun key => "<th>" ++ key ++ "</th>")%string keys) in
        and_then (map_result (table_row keys) (first :: rest)) (fun rows =>
        let dataRows := join "" rows in
        Ok (table_markup headerRow dataRows)))
      else Ok (json_markup (RG.or_undefined (JSON_stringify data)))
  | _ => Ok (json_markup (RG.or_undefined (JSON_stringify data)))
  end.

(** ** [generateHTML] (lines 145-283)

    Of the options it reads the metadata and the styling. *)

(** The object [options.styling]: a key is absent ([None]), present and
    [undefined] ([Some None]) or present with a value. *)
Record PartialStyling : Type := {
  pTheme : option (option string);
  pPrimaryColor : option (option string);
  pFontFamily : option (option string);
  pFontSize : option (option string);
  pCustomCSS : option (option string)
}.

Definition DEFAULT_STYLING : RG.ReportStyling := {|
  RG.theme := Some "light";
  RG.primaryColor := Some "#3b82f6";
  RG.fontFamily := Some "system-ui, -apple-system, sans-serif";
  RG.fontSize := Some "14px";
  RG.customCSS := None
|}.

(** [{ ...DEFAULT_STYLING, ...options.styling }] *)
Definition merged_styling (given : option PartialStyling) : RG.ReportStyling :=
  match given with
  | None => DEFAULT_STYLING
  | Some p => {|
      RG.theme := FileProcessor.spread (RG.theme DEFAULT_STYLING) (pTheme p);
      RG.primaryColor :=
        FileProcessor.spread (RG.primaryColor DEFAULT_STYLING) (pPrimaryColor p);
      RG.fontFamily :=
        FileProcessor.spread (RG.fontFamily DEFAULT_STYLING) (pFontFamily p);
      RG.fontSize :=
        FileProcessor.spread (RG.fontSize DEFAULT_STYLING) (pFontSize p);
      RG.customCSS :=
        FileProcessor.spread (RG.customCSS DEFAULT_STYLING) (pCustomCSS p)
    |}
  end.

(** [styling.theme === 'dark'] *)
Definition is_dark (styling : RG.ReportStyling) : bool :=
  match RG.theme styling with
  | Some theme => String.eqb theme "dark"
  | None => false
  end.

(** [x || ''] for an optional string. *)
Definition or_empty (x : option string) : string :=
  match x with
  | Some s => s
  | None => EmptyString
  end.

(** A double quote. *)
Definition dq : string := String dquote EmptyString.

(** The template literal of the style sheet (lines 149-230), line by
    line. *)
Definition css (styling : RG.ReportStyling) : string :=
  (newline
   ++ "      body {" ++ newline
   ++ "        font-family: " ++ string_or_undefined (RG.fontFamily styling) ++ ";" ++ newline
   ++ "        font-size: " ++ string_or_undefined (RG.fontSize styling) ++ ";" ++ newline
   ++ "        line-height: 1.6;" ++ newline
   ++ "        color: " ++ (if is_dark styling then "#e5e7eb" else "#374151") ++ ";" ++ newline
   ++ "        background-color: " ++ (if is_dark styling then "#1f2937" else "#ffffff") ++ ";" ++ newline
   ++ "        margin: 0;" ++ newline
   ++ "        padding: 20px;" ++ newline
   ++ "      }" ++ newline
   ++ "      " ++ newline
   ++ "      .report-container {" ++ newline
   ++ "        max-width: 1200px;" ++ newline
   ++ "        margin: 0 auto;" ++ newline
   ++ "        background: " ++ (if is_dark styling then "#374151" else "#f9fafb") ++ ";" ++ newline
   ++ "        border-radius: 8px;" ++ newline
   ++ "        padding: 30px;" ++ newline
   ++ "        box-shadow: 0 4px 6px rgba(0, 0, 0, 0.1);" ++ newline
   ++ "      }" ++ newline
   ++ "      " ++ newline
   ++ "      .report-header {" ++ newline
   ++ "        border-bottom: 3px solid " ++ string_or_undefined (RG.primaryColor styling) ++ ";" ++ newline
   ++ "        padding-bottom: 20px;" ++ newline
   ++ "        margin-bottom: 30px;" ++ newline
   ++ "      }" ++ newline
   ++ "      " ++ newline
   ++ "      .report-title {" ++ newline
   ++ "        color: " ++ string_or_undefined (RG.primaryColor styling) ++ ";" ++ newline
   ++ "        font-size: 2.5em;" ++ newline
   ++ "        margin: 0 0 10px 0;" ++ newline
   ++ "        font-weight: bold;" ++ newline
   ++ "      }" ++ newline
   ++ "      " ++ newline
   ++ "      .report-meta {" ++ newline
   ++ "        color: " ++ (if is_dark styling then "#9ca3af" else "#6b7280") ++ ";" ++ newline
   ++ "        font-size: 0.9em;" ++ newline
   ++ "      }" ++ newline
   ++ "      " ++ newline
   ++ "      .data-section {" ++ newline
   ++ "        margin: 20px 0;" ++ newline
   ++ "      }" ++ newline
   ++ "      " ++ newline
   ++ "      .data-table {" ++ newline
   ++ "        width: 100%;" ++ newline
   ++ "        border-collapse: collapse;" ++ newline
   ++ "        margin: 20px 0;" ++ newline
   ++ "      }" ++ newline
   ++ "      " ++ newline
   ++ "      .data-table th," ++ newline
   ++ "      .data-table td {" ++ newline
   ++ "        border: 1px solid " ++ (if is_dark styling then "#4b5563" else "#d1d5db") ++ ";" ++ newline
   ++ "        padding: 12px;" ++ newline
   ++ "        text-align: left;" ++ newline
   ++ "      }" ++ newline
   ++ "      " ++ newline
   ++ "      .data-table th {" ++ newline
   ++ "        background-color: " ++ string_or_undefined (RG.primaryColor styling) ++ ";" ++ newline
   ++ "        color: white;" ++ newline
   ++ "        font-weight: bold;" ++ newline
   ++ "      }" ++ newline
   ++ "      " ++ newline
   ++ "      .data-table tr:nth-child(even) {" ++ newline
   ++ "        background-color: " ++ (if is_dark styling then "#4b5563" else "#f3f4f6") ++ ";" ++ newline
   ++ "      }" ++ newline
   ++ "      " ++ newline
   ++ "      .json-container {" ++ newline
   ++ "        background-color: " ++ (if is_dark styling then "#1f2937" else "#f8f9fa") ++ ";" ++ newline
   ++ "        border: 1px solid " ++ (if is_dark styling then "#4b5563" else "#e5e7eb") ++ ";" ++ newline
   ++ "        border-radius: 4px;" ++ newline
   ++ "        padding: 15px;" ++ newline
   ++ "        overflow-x: auto;" ++ newline
   ++ "      }" ++ newline
   ++ "      " ++ newline
   ++ "      .json-content {" ++ newline
   ++ "        font-family: 'Monaco', 'Menlo', 'Ubuntu Mono', monospace;" ++ newline
   ++ "        font-size: 0.9em;" ++ newline
   ++ "        white-space: pre-wrap;" ++ newline
   ++ "        margin: 0;" ++ newline
   ++ "      }" ++ newline
   ++ "      " ++ newline
   ++ "      " ++ or_empty (RG.customCSS styling) ++ newline
   ++ "    ")%string.

(** [metadata?.title || 'Report'] *)
Definition title_or_report (metadata : option ReportMetadata) : string :=
  match metadata with
  | Some m => if is_empty (title m) then "Report" else title m
  | None => "Report"
  end.

(** [metadata?.description ? `<p>${metadata.description}</p>` : ''] *)
Definition description_paragraph (metadata : option ReportMetadata) : string :=
  match metadata with
  | Some m =>
      if truthy_string (description m)
      then ("<p>" ++ string_or_undefined (description m) ++ "</p>")%string
      else EmptyString
  | None => EmptyString
  end.

(** [metadata?.author ? `<p>Author: ${metadata.author}</p>` : ''] *)
Definition author_paragraph (metadata : option ReportMetadata) : string :=
  match metadata with
  | Some m =>
      if truthy_string (author m)
      then ("<p>Author: " ++ string_or_undefined (author m) ++ "</p>")%string
      else EmptyString
  | None => EmptyString
  end.

(** [metadata?.version ? `<p>Version: ${metadata.version}</p>` : ''] *)
Definition version_paragraph (metadata : option ReportMetadata) : string :=
  match metadata with
  | Some m =>
      if truthy_string (version m)
      then ("<p>Version: " ++ string_or_undefined (version m) ++ "</p>")%string
      else EmptyString
  | None => EmptyString
  end.

(** The template literal of the document (lines 255-282), line by line,
    around the text [table] of [renderDataAsTable(data)]. *)
Definition document (metadata : option ReportMetadata)
  (styling : RG.ReportStyling) (localeString table : string) : string :=
  (newline
   ++ "      <!DOCTYPE html>" ++ newline
   ++ "      <html lang=" ++ dq ++ "en" ++ dq ++ ">" ++ newline
   ++ "      <head>" ++ newline
   ++ "        <meta charset=" ++ dq ++ "UTF-8" ++ dq ++ ">" ++ newline
   ++ "        <meta name=" ++ dq ++ "viewport" ++ dq ++ " content=" ++ dq ++ "width=device-width, initial-scale=1.0" ++ dq ++ ">" ++ newline
   ++ "        <title>" ++ title_or_report metadata ++ "</title>" ++ newline
   ++ "        <style>" ++ css styling ++ "</style>" ++ newline
   ++ "      </head>" ++ newline
   ++ "      <body>" ++ newline
   ++ "        <div class=" ++ dq ++ "report-container" ++ dq ++ ">" ++ newline
   ++ "          <div class=" ++ dq ++ "report-header" ++ dq ++ ">" ++ newline
   ++ "            <h1 class=" ++ dq ++ "report-title" ++ dq ++ ">" ++ title_or_report metadata ++ "</h1>" ++ newline
   ++ "            <div class=" ++ dq ++ "report-meta" ++ dq ++ ">" ++ newline
   ++ "              " ++ description_paragraph metadata ++ newline
   ++ "              <p>Generated on: " ++ localeString ++ "</p>" ++ newline
   ++ "              " ++ author_paragraph metadata ++ newline
   ++ "              " ++ version_paragraph metadata ++ newline
   ++ "            </div>" ++ newline
   ++ "          </div>" ++ newline
   ++ "          " ++ newline
   ++ "          <div class=" ++ dq ++ "data-section" ++ dq ++ ">" ++ newline
   ++ "            " ++ table ++ newline
   ++ "          </div>" ++ newline
   ++ "        </div>" ++ newline
   ++ "      </body>" ++ newline
   ++ "      </html>" ++ newline
   ++ "    ")%string.

Definition generateHTML (data : Value) (metadata : option ReportMetadata)
  (given : option PartialStyling) (localeString : string) : Result string :=
  let styling := merged_styling given in
  and_then (renderDataAsTable data) (fun table =>
    Ok (document metadata styling localeString table)).

End Formatters.

(** * Definitions used to state the properties *)

(** The claim's words for [countWords]: split on runs of white space (no
    trimming), drop the empty pieces, count. *)
Definition count_nonempty_tokens (text : string) : nat :=
  List.length
    (filter (fun word => negb (is_empty word)) (split_whitespace text)).

(** The number of newline code units of a text. *)
Fixpoint count_newlines (text : string) : nat :=
  match text with
  | EmptyString => 0
  | String c r => (if Ascii.eqb c nl then 1 else 0) + count_newlines r
  end.

(** The number of places where a word starts: a code unit that is not white
    space and that is first in the text or follows white space. *)
Fixpoint word_starts (after_space : bool) (text : string) : nat :=
  match text with
  | EmptyString => 0
  | String c r =>
      if is_whitespace c then word_starts true r
      else (if after_space then 1 else 0) + word_starts false r
  end.


(** *** Validation, rule by rule *)

Import FileProcessor.

(** The five rules of [validateFile], in the order of the claim. *)
Inductive Rule : Type :=
| MaxSizeRule
| MinSizeRule
| TypeRule
| ExtensionRule
| CustomRule.

Definition rule_order : list Rule :=
  [MaxSizeRule; MinSizeRule; TypeRule; ExtensionRule; CustomRule].

(** A size rule is applied when its limit is a number other than 0, a list
    rule when its list is given, the custom rule when a validator is given. *)
Definition rule_applies (v : FileValidationOptions) (r : Rule) : bool :=
  match r with
  | MaxSizeRule => truthy_number (maxSize v)
  | MinSizeRule => truthy_number (minSize v)
  | TypeRule => match allowedTypes v with Some _ => true | None => false end
  | ExtensionRule =>
      match allowedExtensions v with Some _ => true | None => false end
  | CustomRule =>
      match customValidator v with Some _ => true | None => false end
  end.

(** What one rule has against a file: [None] when the file satisfies it,
    the message of the error otherwise.  A custom validator that throws has
    the thrown error's message against the file. *)
Definition rule_objection (v : FileValidationOptions) (f : File) (r : Rule)
  : option string :=
  match r with
  | MaxSizeRule =>
      if size_exceeds f (maxSize v) then Some (max_size_message f v) else None
  | MinSizeRule =>
      if size_below f (minSize v) then Some (min_size_message f v) else None
  | TypeRule =>
      match allowedTypes v with
      | Some types =>
          if includes types (type f) then None else Some (type_message f)
      | None => None
      end
  | ExtensionRule =>
      match allowedExtensions v with
      | Some extensions =>
          if includes extensions (extension_of (name f)) then None
          else Some (extension_message f)
      | None => None
      end
  | CustomRule =>
      match customValidator v with
      | Some validator =>
          match validator f with
          | Ok true => None
          | Ok false => Some custom_message
          | Throw e => Some (message_of e "Validation failed")
          end
      | None => None
      end
  end.

(** The objection of the first rule, in the given order, that applies and
    that the file violates. *)
Fixpoint first_objection (v : FileValidationOptions) (f : File)
  (rules : list Rule) : option (Rule * string) :=
  match rules with
  | [] => None
  | r :: rest =>
      if rule_applies v r then
        match rule_objection v f r with
        | Some msg => Some (r, msg)
        | None => first_objection v f rest
        end
      else first_objection v f rest
  end.

Definition validation_error (f : File) (msg : string) : FileProcessorError :=
  {| code := "VALIDATION_ERROR"; message := msg; file := Some f;
     details := None |}.

(** The state after a failed validation: the error is stored, then handed
    to [onError] when there is one. *)
Definition report_error (options : UseFileProcessorOptions)
  (e : FileProcessorError) (st : State) : State :=
  {| isProcessing := isProcessing st;
     progress := progress st;
     error := Some e;
     processedFiles := processedFiles st;
     abortControllerRef := abortControllerRef st;
     log := log st ++ SetError (Some e)
                      :: (if onError options then [OnError e] else []) |}.

(** A text without the code unit [c]. *)
Fixpoint free_of (c : ascii) (s : string) : bool :=
  match s with
  | EmptyString => true
  | String x r => negb (Ascii.eqb x c) && free_of c r
  end.

(** *** One file, from validation to the list *)

(** How [processFile] ends for a file: validation objects, a later step
    throws, or the file is processed. *)
Inductive Verdict : Type :=
| Invalid (msg : string)
| Failed (e : Exn)
| Processed (pf : ProcessedFile).

Definition entry_of (popts : FileProcessingOptions) (f : File)
  (text : string) (digest : option string) : ProcessedFile :=
  {| content := text;
     fileName := name f;
     fileSize := size f;
     fileType := type f;
     pfLastModified := lastModified f;
     characterCount := String.length text;
     wordCount := countWords text;
     lineCount := countLines text;
     encoding := optEncoding popts;
     checksum := digest |}.

(** Validation first; then the read, which fails or loads the text; then
    the abort signal, raised by an [abortProcessing] during validation or
    during the read; then the metrics and, when asked for, the digest. *)
Definition verdict (options : UseFileProcessorOptions) (host : Host)
  (f : File) : Verdict :=
  let popts := processingOptions options in
  match first_objection (validationOptions options) f rule_order with
  | Some (_, msg) => Invalid msg
  | None =>
      match snd (readAsText host f (optEncoding popts)) with
      | None => Failed (JsError "Failed to read file")
      | Some text =>
          if abortDuring host f AtValidation || abortDuring host f AtRead
          then Failed (JsError "Operation was aborted")
          else if truthy_bool (calculateChecksumFlag popts) then
            match sha256 host text with
            | Ok bytes =>
                Processed
                  (entry_of popts f text (Some (join "" (map hex_byte bytes))))
            | Throw e => Failed e
            end
          else Processed (entry_of popts f text None)
      end
  end.

Definition processing_error (f : File) (e : Exn) : FileProcessorError :=
  {| code := "PROCESSING_ERROR";
     message := message_of e "Processing failed";
     file := Some f;
     details := Some e |}.

Definition result_of (v : Verdict) : option ProcessedFile :=
  match v with
  | Processed pf => Some pf
  | Invalid _ | Failed _ => None
  end.

Definition error_of (f : File) (v : Verdict) : option FileProcessorError :=
  match v with
  | Invalid msg => Some (validation_error f msg)
  | Failed e => Some (processing_error f e)
  | Processed _ => None
  end.

Definition entries_of (v : Verdict) : list ProcessedFile :=
  match v with
  | Processed pf => [pf]
  | Invalid _ | Failed _ => []
  end.

(** The calls [processFile] makes for a file, read off a run from the
    initial state. *)
Definition events_of (options : UseFileProcessorOptions) (host : Host)
  (f : File) : list Event :=
  log (snd (processFile options host f initial)).

(** The state the reader's [progress] events leave. *)
Definition after_progress (popts : FileProcessingOptions)
  (events : list ProgressEvent) (st : State) : State :=
  snd (forEach events (onprogress popts) st).

(** The calls one [progress] event makes. *)
Definition progress_calls (popts : FileProcessingOptions) (ev : ProgressEvent)
  : list Event :=
  if lengthComputable ev then
    SetProgress (percent (loaded ev) (total ev))
      :: (if onProgress popts
          then [OnProgress (percent (loaded ev) (total ev))] else [])
  else [].

(** The value of [progress] after the reader's events. *)
Definition progress_after (events : list ProgressEvent) (p0 : JsNumber)
  : JsNumber :=
  fold_left
    (fun p ev =>
       if lengthComputable ev then percent (loaded ev) (total ev) else p)
    events p0.

(** *** A batch, file by file *)

(** The entries of the files of a batch that are processed, in the order
    of the batch. *)
Definition batch_entries (options : UseFileProcessorOptions) (host : Host)
  (files : list File) : list ProcessedFile :=
  flat_map (fun f => entries_of (verdict options host f)) files.

(** [((i + 1) / total) * 100] *)
Definition overall_progress (i total : nat) : JsNumber :=
  percent (N.of_nat (i + 1)) (N.of_nat total).

(** The calls of a batch whose first file has index [i]: for each file in
    turn all the calls of [processFile], then the overall progress. *)
Fixpoint batch_calls (options : UseFileProcessorOptions) (host : Host)
  (total i : nat) (files : list File) : list Event :=
  match files with
  | [] => []
  | f :: rest =>
      events_of options host f
        ++ SetProgress (overall_progress i total)
        :: batch_calls options host total (i + 1) rest
  end.

(** Order on the numbers that are quotients. *)
Definition js_lt (a b : JsNumber) : Prop :=
  match a, b with
  | Num x, Num y => (x < y)%Q
  | _, _ => False
  end.

Definition js_eq (a b : JsNumber) : Prop :=
  match a, b with
  | Num x, Num y => (x == y)%Q
  | Infinity, Infinity => True
  | _, _ => False
  end.

(** The place of a rule in the order of the checks. *)
Definition rule_index (r : Rule) : nat :=
  match r with
  | MaxSizeRule => 0
  | MinSizeRule => 1
  | TypeRule => 2
  | ExtensionRule => 3
  | CustomRule => 4
  end.

(** The custom validator, when there is one, returns for the file. *)
Definition validator_returns (v : FileValidationOptions) (f : File) : Prop :=
  forall validator e, customValidator v = Some validator -> validator f <> Throw e.

(** The message of each rule. *)
Definition rule_message (v : FileValidationOptions) (f : File) (r : Rule) : string :=
  match r with
  | MaxSizeRule => max_size_message f v
  | MinSizeRule => min_size_message f v
  | TypeRule => type_message f
  | ExtensionRule => extension_message f
  | CustomRule => custom_message
  end.

(** *** Sample inputs *)

Definition space : ascii := " "%char.

(** The text of two spaces, [a], two spaces, [b], a tab, [c], a newline. *)
Definition sample_words : string :=
  String space (String space
    ("a" ++ String space (String space ("b" ++ String tab ("c" ++ String nl ""))))).

(** [a], newline, [b], newline, [c]; and the same with a final newline. *)
Definition sample_lines : string :=
  "a" ++ String nl ("b" ++ String nl "c").
Definition sample_lines_newline : string :=
  sample_lines ++ String nl "".

Definition default_options : UseFileProcessorOptions :=
  {| validation := None; processing := None; onError := true;
     onSuccess := true |}.

(** A host whose reads load the same eleven code units, on which nobody
    aborts, and with a two-byte digest. *)
Definition sample_host : Host :=
  {| readAsText := fun _ _ =>
       ([{| lengthComputable := true; loaded := 11; total := 11 |}],
        Some "hello world");
     abortDuring := fun _ _ => false;
     sha256 := fun _ => Ok [1%N; 255%N] |}.

Definition notes_txt : File :=
  {| name := "notes.txt"; size := 11; type := "text/plain";
     lastModified := 0 |}.

Definition setup_exe : File :=
  {| name := "setup.exe"; size := 11; type := "text/plain";
     lastModified := 0 |}.

(** The caller sets the size limit to 0 and leaves the rest alone. *)
Definition zero_limit_options : UseFileProcessorOptions :=
  {| validation :=
       Some {| pMaxSize := Some (Some 0%Z);
               pAllowedTypes := None;
               pAllowedExtensions := None;
               pMinSize := None;
               pCustomValidator := None |};
     processing := None;
     onError := true;
     onSuccess := true |}.

(** ** Reports *)

(** A record: the properties of a plain object. *)
Definition Record_ : Type := list (string * Value).

(** [record[key]] *)
Definition property (r : Record_) (key : string) : Value :=
  match lookup key r with
  | Some x => x
  | None => VUndefined
  end.

(** The keys of a list in the order they are first seen. *)
Fixpoint first_seen (keys : list string) : list string :=
  match keys with
  | [] => []
  | k :: rest =>
      k :: filter (fun x => negb (String.eqb x k)) (first_seen rest)
  end.

(** The columns of a table: the union of the keys of its records. *)
Definition columns (records : list Record_) : list string :=
  first_seen (flat_map (map fst) records).

Definition needs_quotes (text : string) : bool :=
  contains_char ","%char text || contains_char dquote text
  || contains_char nl text.

(** The text between double quotes, its own double quotes doubled. *)
Definition quoted (text : string) : string :=
  String dquote
    (replace_char dquote (String dquote (String dquote "")) text
     ++ String dquote "").

(** The text of a cell. *)
Definition csv_field (v : Value) : string :=
  match v with
  | VNull | VUndefined => EmptyString
  | _ => if needs_quotes (String_ v) then quoted (String_ v) else String_ v
  end.

Definition csv_row (cols : list string) (r : Record_) : string :=
  join "," (map (fun k => csv_field (property r k)) cols).

(** The header, then one row for each record, one per line. *)
Definition csv_text (records : list Record_) : string :=
  join newline
    (join "," (columns records) :: map (csv_row (columns records)) records).

(** Whether [generateCSV] sees rows: the data is an array and not empty. *)
Definition has_rows (data : Value) : bool :=
  match data with
  | VArray (_ :: _) => true
  | _ => false
  end.

Definition plain_options (fmt : string) : RG.ReportOptions :=
  {| RG.filename := None; RG.format := fmt; RG.metadata := VUndefined;
     RG.template := None; RG.styling := None; RG.compression := None;
     RG.includeTimestamp := None |}.

(** The sample of the claim: [{a: 1, b: "x,y"}, {a: 2}]. *)
Definition sample_records : list Record_ :=
  [[("a", VNumber 1); ("b", VString "x,y")]; [("a", VNumber 2)]].

(** Its three lines: [a,b], then [1,"x,y"], then [2,]. *)
Definition sample_csv : string :=
  "a,b" ++ newline
    ++ "1," ++ String dquote ("x,y" ++ String dquote "") ++ newline
    ++ "2,".

(** *** One report, from formatting to the registry *)

Definition generation_error (x : Exn) : RG.ReportGeneratorError :=
  {| RG.code := "GENERATION_ERROR";
     RG.message := message_of x "Report generation failed";
     RG.details := Some x |}.

Definition supported (fmt : string) : bool :=
  String.eqb fmt "json" || String.eqb fmt "csv" || String.eqb fmt "html"
  || String.eqb fmt "txt".

(** The formats whose formatter makes a date. *)
Definition reads_clock (fmt : string) : bool :=
  String.eqb fmt "json" || String.eqb fmt "html" || String.eqb fmt "txt".

Definition at_date (n : nat) : RG.State :=
  {| RG.isGenerating := false; RG.progress := Num 0; RG.error := None;
     RG.generatedReports := []; RG.objectUrls := []; RG.timers := [];
     RG.dates := n; RG.urlsMade := 0; RG.log := [] |}.

(** The text and the MIME type the formatter of the format gives when the
    next date is the [n]-th, or what it throws. *)
Definition format_outcome (host : RG.Host) (data : Value)
  (options : RG.ReportOptions) (n : nat) : Result (string * string) :=
  fst (RG.format_content host data options (at_date n)).

Definition tick (st : RG.State) : RG.State := snd (RG.newDate st).

Definition is_state_setter (e : RG.Event) : bool :=
  match e with
  | RG.SetIsGenerating _ | RG.SetProgress _ | RG.SetError _
  | RG.AppendReport _ | RG.SetGeneratedReports _ => true
  | _ => false
  end.

(** A report that went through formatting and packaging. *)
Definition packaged (host : RG.Host) (r : RG.GeneratedReport) : Prop :=
  exists data options n k,
    format_outcome host data options n
      = Ok (RG.blobText (RG.blob r), RG.blobType (RG.blob r)) /\
    RG.createObjectURL host k (RG.blob r) = Ok (RG.downloadUrl r) /\
    RG.size r = RG.blob_size (RG.blob r) /\
    RG.reportFormat r = RG.format options /\
    supported (RG.format options) = true.

(** *** The states the hooks can be in *)

(** One call of the file processor's interface. *)
Inductive fp_step (options : UseFileProcessorOptions) (host : Host)
  : State -> State -> Prop :=
| step_processFile f st :
    fp_step options host st (snd (processFile options host f st))
| step_processFiles files st :
    fp_step options host st (snd (processFiles options host files st))
| step_validateFile f st :
    fp_step options host st (snd (validateFile options f st))
| step_abortProcessing st :
    fp_step options host st (snd (abortProcessing st))
| step_clearProcessedFiles st :
    fp_step options host st (snd (clearProcessedFiles st)).

Inductive fp_reachable (options : UseFileProcessorOptions) (host : Host)
  : State -> Prop :=
| fp_reach_initial : fp_reachable options host initial
| fp_reach_step st st' :
    fp_reachable options host st -> fp_step options host st st' ->
    fp_reachable options host st'.

(** One call of the report generator's interface, [clearReports] through
    the callback of any render, or a timer that runs. *)
Inductive rg_step (host : RG.Host) : RG.State -> RG.State -> Prop :=
| step_generateReport data options st :
    rg_step host st (snd (RG.generateReport host data options st))
| step_generateMultipleReports data formats baseOptions st :
    rg_step host st
      (snd (RG.generateMultipleReports host data formats baseOptions st))
| step_clearReports seen st :
    rg_step host st (snd (RG.clearReports seen st))
| step_fireTimer st :
    rg_step host st (snd (RG.fireTimer st)).

Inductive rg_reachable (host : RG.Host) : RG.State -> Prop :=
| rg_reach_initial : rg_reachable host RG.initial
| rg_reach_step st st' :
    rg_reachable host st -> rg_step host st st' -> rg_reachable host st'.

(** An entry that some file earned: it passed validation, its read loaded
    the content, nobody aborted before the read settled, the metrics are
    those of the content and the digest, when asked for, was computed. *)
Definition vetted (options : UseFileProcessorOptions) (host : Host)
  (pf : ProcessedFile) : Prop :=
  exists f text,
    first_objection (validationOptions options) f rule_order = None /\
    snd (readAsText host f (optEncoding (processingOptions options)))
      = Some text /\
    abortDuring host f AtValidation = false /\
    abortDuring host f AtRead = false /\
    content pf = text /\
    fileName pf = name f /\
    fileSize pf = size f /\
    fileType pf = type f /\
    characterCount pf = String.length text /\
    wordCount pf = countWords text /\
    lineCount pf = countLines text /\
    (truthy_bool (calculateChecksumFlag (processingOptions options)) = true ->
     exists bytes,
       sha256 host text = Ok bytes /\
       checksum pf = Some (join "" (map hex_byte bytes))).

(** A browser for the samples: the clock stands still, the [n]-th object
    URL is [blob:n], and the two formatters return fixed texts. *)
Definition sample_browser : RG.Host :=
  {| RG.toISOString := fun _ => "2024-01-02T03:04:05.678Z";
     RG.toLocaleString := fun _ => "1/2/2024, 3:04:05 AM";
     RG.createObjectURL := fun n _ => Ok ("blob:" ++ string_of_nat n)%string;
     RG.generateHTML := fun _ _ _ => Ok "<html></html>";
     RG.generateText := fun _ _ _ => Ok "Report" |}.

(** The state after two CSV reports of the sample records. *)
Definition two_reports : RG.State :=
  snd (RG.generateReport sample_browser
         (VArray (map VObject sample_records)) (plain_options "csv")
         (snd (RG.generateReport sample_browser
                 (VArray (map VObject sample_records)) (plain_options "csv")
                 RG.initial))).

(** *** JSON, written and read back *)

(** The rest after a number: not a digit, and not the start of a fraction
    or of an exponent. *)
Definition number_end (s : string) : bool :=
  match s with
  | EmptyString => true
  | String c _ => negb (is_digit c) && negb (starts_fraction s)
  end.

Fixpoint all_digits (s : string) : bool :=
  match s with
  | EmptyString => true
  | String c r => is_digit c && all_digits r
  end.

Fixpoint spaces_only (s : string) : bool :=
  match s with
  | EmptyString => true
  | String c r => is_json_space c && spaces_only r
  end.

(** The first code unit of the text of a value: not white space, and
    neither of the closing brackets. *)
Definition value_head (t : string) : bool :=
  match t with
  | String c _ =>
      negb (is_json_space c) && negb (Ascii.eqb c "]"%char)
      && negb (Ascii.eqb c "}"%char)
  | EmptyString => false
  end.

Definition or_null (x : option string) : string :=
  match x with
  | Some text => text
  | None => "null"
  end.

Definition image_or_null (v : Value) : Value :=
  match json_image v with
  | Some y => y
  | None => VNull
  end.

(** The separator between two members at the indentation [inner]. *)
Definition separator (inner : string) : string := ("," ++ newline ++ inner)%string.

(** The members of an object at the indentation [inner]. *)
Definition members (inner : string) (props : list (string * Value))
  : list string :=
  flat_map (fun kx =>
              match stringify inner (snd kx) with
              | Some text => [(quote (fst kx) ++ ": " ++ text)%string]
              | None => []
              end) props.

Definition image_props (props : list (string * Value))
  : list (string * Value) :=
  flat_map (fun kx =>
              match json_image (snd kx) with
              | Some y => [(fst kx, y)]
              | None => []
              end) props.

(** Reading back what [stringify] wrote gives the image of the value. *)
Definition round_trips (v : Value) : Prop :=
  forall ind t rest fuel,
    stringify ind v = Some t ->
    spaces_only ind = true ->
    String.length t < fuel ->
    number_end rest = true ->
    parse_value fuel (t ++ rest) = Some (image_or_null v, rest).

Definition is_number_start (c : ascii) : bool :=
  is_digit c || Ascii.eqb c "-"%char.

(** A metadata block as the type [ReportMetadata] has it: a title and a
    date of creation. *)
Definition sample_metadata : Value :=
  VObject [("title", VString "Sales");
           ("createdAt",
            VDate "2024-01-02T03:04:05.678Z"
                  "Tue Jan 02 2024 03:04:05 GMT+0000")].

(** That block after a trip through JSON: the date is a string. *)
Definition sample_metadata_image : Value :=
  VObject [("title", VString "Sales");
           ("createdAt", VString "2024-01-02T03:04:05.678Z")].

Definition json_options (meta : Value) : RG.ReportOptions :=
  {| RG.filename := None; RG.format := "json"; RG.metadata := meta;
     RG.template := None; RG.styling := None; RG.compression := None;
     RG.includeTimestamp := None |}.

(** The object [generateJSON] serializes. *)
Definition reportContent (host : RG.Host) (data : Value)
  (options : RG.ReportOptions) (st : RG.State) : Value :=
  VObject [("metadata", RG.metadata options);
           ("data", data);
           ("generatedAt", VString (RG.toISOString host (RG.dates st)))].

(** The properties of a parsed object. *)
Definition props_of (v : Result Value) : list (string * Value) :=
  match v with
  | Ok (VObject props) => props
  | _ => []
  end.

(** ** Further properties: the file processor *)

(** A digit of a checksum: [0-9] or [a-f]. *)
Definition is_hex_digit (c : ascii) : bool :=
  let n := nat_of_ascii c in
  ((48 <=? n) && (n <=? 57)) || ((97 <=? n) && (n <=? 102)).

Fixpoint all_hex (s : string) : bool :=
  match s with
  | EmptyString => true
  | String c r => is_hex_digit c && all_hex r
  end.

(** The bytes a text of hexadecimal digits stands for, two digits a byte. *)
Fixpoint unhex (s : string) : option (list N) :=
  match s with
  | EmptyString => Some []
  | String a (String b r) =>
      match hex_value a, hex_value b, unhex r with
      | Some x, Some y, Some l => Some (N.of_nat (16 * x + y) :: l)
      | _, _, _ => None
      end
  | String _ EmptyString => None
  end.

Definition sample_digest : list N := [0; 10; 171; 255]%N.

(** The sample host with a digest of its own. *)
Definition digest_host (bytes : list N) : Host :=
  {| readAsText := readAsText sample_host;
     abortDuring := abortDuring sample_host;
     sha256 := fun _ => Ok bytes |}.

(** The calls of [onSuccess] and of [onError] among the calls of a run. *)
Definition is_outcome (e : Event) : bool :=
  match e with
  | OnError _ | OnSuccess _ => true
  | _ => false
  end.

Definition outcome_calls (calls : list Event) : list Event :=
  filter is_outcome calls.

(** The same host with a user who never aborts. *)
Definition without_abort (host : Host) : Host :=
  {| readAsText := readAsText host;
     abortDuring := fun _ _ => false;
     sha256 := sha256 host |}.

(** The error of an aborted run. *)
Definition aborted_error (f : File) : FileProcessorError :=
  {| code := "PROCESSING_ERROR";
     message := "Operation was aborted";
     file := Some f;
     details := Some (JsError "Operation was aborted") |}.

(** The cells a caller sees: all of the state but the log. *)
Definition same_cells (a b : State) : Prop :=
  isProcessing a = isProcessing b /\
  progress a = progress b /\
  error a = error b /\
  processedFiles a = processedFiles b /\
  abortControllerRef a = abortControllerRef b.

(** The sample host with a user who aborts at one suspension point. *)
Definition abort_host (p : SuspensionPoint) : Host :=
  {| readAsText := readAsText sample_host;
     abortDuring := fun _ q =>
       match p, q with
       | AtValidation, AtValidation | AtRead, AtRead
       | AtChecksum, AtChecksum => true
       | _, _ => false
       end;
     sha256 := sha256 sample_host |}.

Definition todo_txt : File :=
  {| name := "todo.txt"; size := 11; type := "text/plain";
     lastModified := 0 |}.

(** The sample host with a user who aborts at one suspension point while
    the file of one name is processed, and at no other time. *)
Definition abort_file_host (wanted : string) (p : SuspensionPoint) : Host :=
  {| readAsText := readAsText sample_host;
     abortDuring := fun f q =>
       String.eqb (name f) wanted && abortDuring (abort_host p) f q;
     sha256 := sha256 sample_host |}.

(** The options with the keys [includeMetadata] and [chunkSize] of the
    processing options set, to a value or to [undefined], or left out. *)
Definition with_unused_processing (im : option (option bool))
  (cs : option (option Z)) (options : UseFileProcessorOptions)
  : UseFileProcessorOptions :=
  {| validation := validation options;
     processing :=
       Some {| pEncoding :=
                 match processing options with
                 | Some p => pEncoding p
                 | None => None
                 end;
               pIncludeMetadata := im;
               pCalculateChecksum :=
                 match processing options with
                 | Some p => pCalculateChecksum p
                 | None => None
                 end;
               pChunkSize := cs;
               pOnProgress :=
                 match processing options with
                 | Some p => pOnProgress p
                 | None => false
                 end |};
     onError := onError options;
     onSuccess := onSuccess options |}.

(** The caller asks for the checksum and leaves the rest alone. *)
Definition checksum_options : UseFileProcessorOptions :=
  {| validation := None;
     processing :=
       Some {| pEncoding := None; pIncludeMetadata := None;
               pCalculateChecksum := Some (Some true);
               pChunkSize := None; pOnProgress := false |};
     onError := true;
     onSuccess := true |}.

(** The MIME types and the extensions of [DEFAULT_VALIDATION]. *)
Definition default_types : list string :=
  ["text/plain"; "text/csv"; "application/json"; "text/html"; "text/markdown"].
Definition default_extensions : list string :=
  [".txt"; ".csv"; ".json"; ".html"; ".md"; ".docx"; ".pdf"].

Definition report_pdf : File :=
  {| name := "report.pdf"; size := 2048; type := "application/pdf";
     lastModified := 0 |}.

(** The caller allows no MIME type at all. *)
Definition no_type_options : UseFileProcessorOptions :=
  {| validation :=
       Some {| pMaxSize := None;
               pAllowedTypes := Some (Some []);
               pAllowedExtensions := None;
               pMinSize := None;
               pCustomValidator := None |};
     processing := None;
     onError := true;
     onSuccess := true |}.

(** The caller writes the one allowed extension in capitals. *)
Definition upper_options : UseFileProcessorOptions :=
  {| validation :=
       Some {| pMaxSize := None;
               pAllowedTypes := None;
               pAllowedExtensions := Some (Some [".TXT"]);
               pMinSize := None;
               pCustomValidator := None |};
     processing := None;
     onError := true;
     onSuccess := true |}.

(** A drop of three files, the second of which fails validation. *)
Definition some_files : FileDrop.DragEvent :=
  {| FileDrop.dataTransfer_files := [notes_txt; setup_exe; notes_txt] |}.

(** An input element that shows the file the user chose. *)
Definition attached_input : FileInput.State :=
  {| FileInput.inputRef := Some "setup.exe";
     FileInput.fileProcessor := initial;
     FileInput.calls := [] |}.

(** ** Further properties: the report generator *)

(** The file name [generateFilename] gives when the next date is the
    [n]-th. *)
Definition filename_at (host : RG.Host) (options : RG.ReportOptions) (n : nat)
  : string :=
  (RG.or_string (RG.filename options) "report"
   ++ (if RG.not_false (RG.includeTimestamp options)
       then "_" ++ RG.timestamp_of (RG.toISOString host n) else "")
   ++ "." ++ RG.format options)%string.

(** An ISO text of the form [date T hh : mm : ss . mmm Z]. *)
Definition iso_text (date hh mm ss ms : string) : string :=
  (date ++ "T" ++ hh ++ ":" ++ mm ++ ":" ++ ss ++ "." ++ ms ++ "Z")%string.

Definition stamped_options : RG.ReportOptions :=
  {| RG.filename := Some "sales"; RG.format := "csv"; RG.metadata := VUndefined;
     RG.template := None; RG.styling := None; RG.compression := None;
     RG.includeTimestamp := None |}.

(** The caller passes an empty file name and wants no time stamp. *)
Definition unstamped_options : RG.ReportOptions :=
  {| RG.filename := Some ""; RG.format := "json"; RG.metadata := VUndefined;
     RG.template := None; RG.styling := None; RG.compression := None;
     RG.includeTimestamp := Some false |}.

(** The MIME type of the blob of each format. *)
Definition mime_of (fmt : string) : string :=
  if String.eqb fmt "json" then "application/json"
  else if String.eqb fmt "csv" then "text/csv"
  else if String.eqb fmt "html" then "text/html"
  else "text/plain".

(** The number of the date [generateFilename] reads in a run of
    [generateReport] that starts in [st]: the formatter of every format but
    [csv] has read one before. *)
Definition filename_date (options : RG.ReportOptions) (st : RG.State) : nat :=
  RG.dates st + (if reads_clock (RG.format options) then 1 else 0).

(** The report a run of [generateReport] that starts in [st] makes of a
    text, its MIME type and the object URL. *)
Definition report_of (host : RG.Host) (options : RG.ReportOptions)
  (st : RG.State) (content mime url : string) : RG.GeneratedReport :=
  {| RG.blob := {| RG.blobText := content; RG.blobType := mime |};
     RG.reportFilename := filename_at host options (filename_date options st);
     RG.size := utf8_length content;
     RG.reportFormat := RG.format options;
     RG.downloadUrl := url |}.

(** The browser runs its [n] oldest timers. *)
Fixpoint fire_timers (n : nat) (st : RG.State) : RG.State :=
  match n with
  | O => st
  | S n' => fire_timers n' (snd (RG.fireTimer st))
  end.

(** Nothing the host does fails: every supported format of these options
    has its text, and every blob gets its object URL. *)
Definition never_fails (host : RG.Host) (data : Value)
  (baseOptions : RG.ReportOptions) : Prop :=
  (forall fmt n, supported fmt = true ->
     exists content mime,
       format_outcome host data (RG.with_format baseOptions fmt) n
       = Ok (content, mime)) /\
  (forall k b, exists url, RG.createObjectURL host k b = Ok url).

(** [undefined] or [null]. *)
Definition nullish (v : Value) : bool :=
  match v with
  | VUndefined | VNull => true
  | _ => false
  end.

(** A value without keys: [Object.keys] gives the empty array. *)
Definition keyless (v : Value) : bool :=
  match Object_keys v with
  | Ok [] => true
  | _ => false
  end.

(** *** Reading CSV

    A reader of CSV text (RFC 4180): outside quotes a comma ends the cell
    and a newline ends the row; a quote opens a quoted cell, in which a
    doubled quote is a quote and a single one ends the quoted part. *)
Inductive CsvMode : Type :=
| Plain
| Quoted
| AfterQuote.

Definition add_char (cell : string) (c : ascii) : string :=
  (cell ++ String c EmptyString)%string.

(** The rows of the text [s], read in the mode [mode], after the rows
    [rows], the cells [row] of the current row and the code units [cell]
    of the current cell. *)
Fixpoint read_csv_from (s : string) (mode : CsvMode) (cell : string)
  (row : list string) (rows : list (list string)) : list (list string) :=
  match s with
  | EmptyString => rows ++ [row ++ [cell]]
  | String c r =>
      match mode with
      | Quoted =>
          if Ascii.eqb c dquote then read_csv_from r AfterQuote cell row rows
          else read_csv_from r Quoted (add_char cell c) row rows
      | Plain | AfterQuote =>
          if Ascii.eqb c ","%char
          then read_csv_from r Plain EmptyString (row ++ [cell]) rows
          else if Ascii.eqb c nl
          then read_csv_from r Plain EmptyString [] (rows ++ [row ++ [cell]])
          else if Ascii.eqb c dquote then
            match mode with
            | AfterQuote => read_csv_from r Quoted (add_char cell c) row rows
            | _ => read_csv_from r Quoted cell row rows
            end
          else read_csv_from r Plain (add_char cell c) row rows
      end
  end.

Definition read_csv (text : string) : list (list string) :=
  read_csv_from text Plain EmptyString [] [].

(** The text a value stands for in a CSV cell. *)
Definition value_text (v : Value) : string :=
  match v with
  | VUndefined | VNull => EmptyString
  | _ => String_ v
  end.

(** The texts of a table: the columns, then for each record the texts of
    its values for the columns. *)
Definition table_texts (records : list Record_) : list (list string) :=
  columns records
    :: map (fun r => map (fun k => value_text (property r k)) (columns records))
           records.

(** A text as [generateCSV] writes it into a cell. *)
Definition csv_encode (t : string) : string :=
  if needs_quotes t then quoted t else t.

(** A line of cells. *)
Definition csv_line (cells : list string) : string :=
  join "," (map csv_encode cells).

(** What may follow a cell: nothing, a comma or a newline. *)
Definition ends_cell (rest : string) : bool :=
  match rest with
  | EmptyString => true
  | String c _ => Ascii.eqb c ","%char || Ascii.eqb c nl
  end.

(** Records whose texts hold a comma, quotes and a newline. *)
Definition tricky_records : list Record_ :=
  [[("name", VString "Doe, Jane");
    ("note", VString (String dquote "hi" ++ String dquote ""))];
   [("name", VString ("two" ++ newline ++ "lines")); ("note", VNull)]].

(** The number of reports of a format. *)
Definition reports_of_format (fmt : string) (reports : list RG.GeneratedReport)
  : nat :=
  List.length (filter (fun r => String.eqb (RG.reportFormat r) fmt) reports).

(** The sum of the sizes of the reports. *)
Definition sum_of_sizes (reports : list RG.GeneratedReport) : nat :=
  list_sum (map RG.size reports).

(** The state after a CSV report, a JSON report and a second CSV report of
    the sample records. *)
Definition three_reports : RG.State :=
  snd (RG.generateReport sample_browser
         (VArray (map VObject sample_records)) (plain_options "csv")
         (snd (RG.generateReport sample_browser
                 (VArray (map VObject sample_records)) (plain_options "json")
                 (snd (RG.generateReport sample_browser
                         (VArray (map VObject sample_records))
                         (plain_options "csv") RG.initial))))).

(** One line of a record of the text report. *)
Definition text_line (entry : string * Value) : string :=
  ("  " ++ fst entry ++ ": " ++ String_ (snd entry) ++ newline)%string.

(** The block of the record of number [index]. *)
Definition text_block (index : nat) (r : Record_) : string :=
  ("Record " ++ string_of_nat index ++ ":" ++ newline
   ++ String.concat "" (map text_line r) ++ newline)%string.

(** The blocks of the records, numbered from [index] on. *)
Fixpoint text_blocks (index : nat) (records : list Record_) : string :=
  match records with
  | [] => EmptyString
  | r :: rest => (text_block index r ++ text_blocks (S index) rest)%string
  end.

Definition sales_metadata : Formatters.ReportMetadata :=
  {| Formatters.title := "Sales";
     Formatters.description := None;
     Formatters.author := Some "Ann";
     Formatters.version := None |}.

(** The text of a cell of the HTML table: nothing for a value that is
    false in a condition. *)
Definition cell_text (v : Value) : string :=
  if truthy v then String_ v else EmptyString.

Definition html_header (cols : list string) : string :=
  String.concat "" (map (fun k => "<th>" ++ k ++ "</th>")%string cols).

Definition html_row (cols : list string) (r : Record_) : string :=
  ("<tr>"
   ++ String.concat ""
        (map (fun k => "<td>" ++ cell_text (property r k) ++ "</td>")%string cols)
   ++ "</tr>")%string.

(** The table of the records: the columns are the keys of the first
    record. *)
Definition html_table (first : Record_) (rest : list Record_) : string :=
  Formatters.table_markup
    (html_header (map fst first))
    (String.concat "" (map (html_row (map fst first)) (first :: rest))).

(** Stock records: the first has markup in a text, the second a quantity
    of 0 and a key the first has not. *)
Definition stock_records : list Record_ :=
  [[("item", VString "<b>pen</b>"); ("qty", VNumber 3)];
   [("item", VString "ink"); ("qty", VNumber 0); ("note", VString "new")]].

(** The styling [p] with the key [theme] set, to a theme or to
    [undefined]. *)
Definition themed (theme : option string) (p : Formatters.PartialStyling)
  : Formatters.PartialStyling :=
  {| Formatters.pTheme := Some theme;
     Formatters.pPrimaryColor := Formatters.pPrimaryColor p;
     Formatters.pFontFamily := Formatters.pFontFamily p;
     Formatters.pFontSize := Formatters.pFontSize p;
     Formatters.pCustomCSS := Formatters.pCustomCSS p |}.

(** The metadata [m] with another title. *)
Definition retitled (title : string) (m : Formatters.ReportMetadata)
  : Formatters.ReportMetadata :=
  {| Formatters.title := title;
     Formatters.description := Formatters.description m;
     Formatters.author := Formatters.author m;
     Formatters.version := Formatters.version m |}.

Definition untitled : Formatters.ReportMetadata :=
  {| Formatters.title := EmptyString;
     Formatters.description := None;
     Formatters.author := None;
     Formatters.version := None |}.

Definition plain_styling : Formatters.PartialStyling :=
  {| Formatters.pTheme := None;
     Formatters.pPrimaryColor := None;
     Formatters.pFontFamily := None;
     Formatters.pFontSize := None;
     Formatters.pCustomCSS := None |}.

(** The report options with other values for [template], [compression]
    and [styling]. *)
Definition with_unused_report (t : option string) (c : option bool)
  (s : option RG.ReportStyling) (options : RG.ReportOptions)
  : RG.ReportOptions :=
  {| RG.filename := RG.filename options;
     RG.format := RG.format options;
     RG.metadata := RG.metadata options;
     RG.template := t;
     RG.styling := s;
     RG.compression := c;
     RG.includeTimestamp := RG.includeTimestamp options |}.

(* ================================================================== *)
(** * Properties *)

(** ** Text metrics *)

Lemma split_whitespace_nonempty s : split_whitespace s <> [].
Proof.
  induction s as [|c r IH]; simpl; [discriminate|].
  destruct (is_whitespace c).
  - destruct (starts_with_whitespace r); [assumption|discriminate].
  - destruct (split_whitespace r); discriminate.
Qed.

Lemma split_whitespace_head s :
  exists p ps, split_whitespace s = p :: ps /\
               is_empty p = is_empty s || starts_with_whitespace s.
Proof.
  induction s as [|c r IH].
  - exists EmptyString, []. split; reflexivity.
  - destruct IH as (p & ps & E & Hp).
    cbn [split_whitespace starts_with_whitespace is_empty]. rewrite E.
    destruct (is_whitespace c) eqn:W.
    + destruct (starts_with_whitespace r) eqn:Sr.
      * exists p, ps. split; [reflexivity|].
        rewrite Hp. apply orb_true_r.
      * exists EmptyString, (p :: ps). split; reflexivity.
    + exists (String c p), ps. split; reflexivity.
Qed.

Lemma word_starts_false s :
  word_starts true s =
  (if is_empty s || starts_with_whitespace s then 0 else 1) + word_starts false s.
Proof.
  destruct s as [|c r]; [reflexivity|].
  cbn [word_starts is_empty starts_with_whitespace orb].
  destruct (is_whitespace c); reflexivity.
Qed.

Lemma count_nonempty_tokens_word_starts s :
  count_nonempty_tokens s = word_starts true s.
Proof.
  unfold count_nonempty_tokens.
  induction s as [|c r IH]; [reflexivity|].
  cbn [split_whitespace word_starts].
  destruct (split_whitespace_head r) as (p & ps & E & Hp).
  rewrite E in *. cbn [filter List.length] in IH.
  destruct (is_whitespace c) eqn:W.
  - destruct (starts_with_whitespace r) eqn:Sr.
    + cbn [filter]. exact IH.
    + cbn [filter is_empty negb]. exact IH.
  - cbn [filter is_empty negb List.length].
    rewrite (word_starts_false r) in IH. rewrite <- Hp in IH.
    destruct (is_empty p); cbn [negb] in IH; cbn [List.length] in IH; lia.
Qed.

Lemma word_starts_trimStart s : word_starts true (trimStart s) = word_starts true s.
Proof.
  induction s as [|c r IH]; [reflexivity|].
  cbn [trimStart]. destruct (is_whitespace c) eqn:W.
  - rewrite IH. cbn [word_starts]. rewrite W. reflexivity.
  - reflexivity.
Qed.

Lemma word_starts_trimEnd b s : word_starts b (trimEnd s) = word_starts b s.
Proof.
  revert b. induction s as [|c r IH]; intro b; [reflexivity|].
  cbn [trimEnd word_starts].
  destruct (is_whitespace c) eqn:W; cbn [andb].
  - destruct (is_empty (trimEnd r)) eqn:E.
    + rewrite <- IH. destruct (trimEnd r); [reflexivity|discriminate].
    + cbn [word_starts]. rewrite W. apply IH.
  - cbn [word_starts]. rewrite W, IH. reflexivity.
Qed.

Lemma filter_length_positive_is_nonempty l :
  filter (fun word => 0 <? String.length word) l =
  filter (fun word => negb (is_empty word)) l.
Proof.
  apply filter_ext. intros [|c r]; reflexivity.
Qed.

Lemma countWords_word_starts text : countWords text = word_starts true text.
Proof.
  unfold countWords. rewrite filter_length_positive_is_nonempty.
  fold (count_nonempty_tokens (trim text)).
  rewrite count_nonempty_tokens_word_starts. unfold trim.
  rewrite word_starts_trimEnd. apply word_starts_trimStart.
Qed.

Lemma countLines_newlines text : countLines text = S (count_newlines text).
Proof.
  unfold countLines.
  induction text as [|c r IH]; [reflexivity|].
  cbn [split_char count_newlines].
  destruct (Ascii.eqb c nl).
  - cbn [List.length]. rewrite IH. reflexivity.
  - destruct (split_char nl r); [discriminate|]. cbn [List.length] in *. lia.
Qed.

(** ** Validation *)

Lemma app_cons_assoc {A} (l : list A) (x : A) (l' : list A) :
  (l ++ [x]) ++ l' = l ++ x :: l'.
Proof. rewrite <- app_assoc. reflexivity. Qed.

Lemma validateFile_first_objection options f st :
  validateFile options f st =
  match first_objection (validationOptions options) f rule_order with
  | None => (Ok true, st)
  | Some (_, msg) => (Ok false, report_error options (validation_error f msg) st)
  end.
Proof.
  unfold validateFile, validateFile_try, try_catch, bind, rule_order.
  set (v := validationOptions options).
  cbn [first_objection rule_applies rule_objection].
  destruct (truthy_number (maxSize v)); cbn [andb];
    [destruct (size_exceeds f (maxSize v))|].
  all: cbn [throw ret lift].
  all: try (unfold report_error, setError, call_if, emit, ret, validation_error;
            cbn [message_of]; destruct (onError options); cbn;
            rewrite ?app_cons_assoc, ?app_nil_r; reflexivity).
  all: destruct (truthy_number (minSize v)); cbn [andb];
    [destruct (size_below f (minSize v))|].
  all: cbn [throw ret lift].
  all: try (unfold report_error, setError, call_if, emit, ret, validation_error;
            cbn [message_of]; destruct (onError options); cbn;
            rewrite ?app_cons_assoc, ?app_nil_r; reflexivity).
  all: destruct (allowedTypes v) as [types|];
    [destruct (includes types (type f))|]; cbn [negb throw ret lift].
  all: try (unfold report_error, setError, call_if, emit, ret, validation_error;
            cbn [message_of]; destruct (onError options); cbn;
            rewrite ?app_cons_assoc, ?app_nil_r; reflexivity).
  all: destruct (allowedExtensions v) as [extensions|];
    [destruct (includes extensions (extension_of (name f)))|];
    cbn [negb throw ret lift].
  all: try (unfold report_error, setError, call_if, emit, ret, validation_error;
            cbn [message_of]; destruct (onError options); cbn;
            rewrite ?app_cons_assoc, ?app_nil_r; reflexivity).
  all: destruct (customValidator v) as [validator|];
    [destruct (validator f) as [[|]|e]|]; cbn [negb throw ret lift].
  all: try reflexivity.
  all: unfold report_error, setError, call_if, emit, ret, validation_error;
       cbn [message_of]; destruct (onError options); cbn;
       rewrite ?app_cons_assoc, ?app_nil_r; reflexivity.
Qed.

(** ** One file *)

Lemma onprogress_frame popts ev st :
  exists st1,
    onprogress popts ev st = (Ok tt, st1) /\
    isProcessing st1 = isProcessing st /\
    error st1 = error st /\
    processedFiles st1 = processedFiles st /\
    abortControllerRef st1 = abortControllerRef st /\
    log st1 = log st ++ progress_calls popts ev.
Proof.
  unfold onprogress, progress_calls, call_if.
  destruct (lengthComputable ev); [destruct (onProgress popts)|];
    eexists; (split; [reflexivity|]); cbn;
    rewrite <- ?app_assoc, ?app_nil_r; repeat split; reflexivity.
Qed.

Lemma forEach_onprogress popts events st :
  forEach events (onprogress popts) st = (Ok tt, after_progress popts events st).
Proof.
  unfold after_progress. revert st.
  induction events as [|ev rest IH]; intro st; [reflexivity|].
  cbn [forEach]. unfold bind at 1 2.
  destruct (onprogress_frame popts ev st) as (st1 & E & _).
  rewrite E. cbn [snd]. rewrite IH. reflexivity.
Qed.

Lemma onprogress_eq popts ev st :
  onprogress popts ev st =
  (Ok tt,
   {| isProcessing := isProcessing st;
      progress := progress_after [ev] (progress st);
      error := error st;
      processedFiles := processedFiles st;
      abortControllerRef := abortControllerRef st;
      log := log st ++ progress_calls popts ev |}).
Proof.
  destruct st.
  unfold onprogress, progress_calls, call_if, progress_after, bind.
  cbn [fold_left].
  destruct (lengthComputable ev); [destruct (onProgress popts)|];
    unfold setProgress, emit, ret; cbn;
    rewrite <- ?app_assoc, ?app_nil_r; reflexivity.
Qed.

Lemma after_progress_eq popts events st :
  after_progress popts events st =
  {| isProcessing := isProcessing st;
     progress := progress_after events (progress st);
     error := error st;
     processedFiles := processedFiles st;
     abortControllerRef := abortControllerRef st;
     log := log st ++ flat_map (progress_calls popts) events |}.
Proof.
  unfold after_progress. revert st.
  induction events as [|ev rest IH]; intro st.
  - cbn. rewrite app_nil_r. destruct st; reflexivity.
  - cbn [forEach flat_map]. unfold bind. rewrite onprogress_eq, IH.
    cbn. rewrite <- app_assoc. reflexivity.
Qed.

Ltac hook_cbn := cbn -[processingOptions validationOptions progress_after].

Ltac find_in :=
  repeat match goal with
    | |- _ \/ _ => first [left; reflexivity | right]
    | |- In _ (_ :: _) => first [left; reflexivity | right]
    | |- In _ (_ ++ _) => apply in_or_app; right
    end.

Ltac run_leaf :=
  eexists; (split; [reflexivity|]); hook_cbn;
  rewrite <- ?app_assoc, ?app_nil_r; hook_cbn; repeat split;
  try reflexivity;
  try (let H := fresh in let e := fresh in let He := fresh in
       intros H e He; try discriminate H; try discriminate He;
       injection He as <-; find_in).

Lemma processFile_spec options host f st :
  exists st',
    processFile options host f st =
      (Ok (result_of (verdict options host f)), st') /\
    isProcessing st' = false /\
    abortControllerRef st' = None /\
    error st' = error_of f (verdict options host f) /\
    processedFiles st' =
      processedFiles st ++ entries_of (verdict options host f) /\
    log st' = log st ++ events_of options host f /\
    (onError options = true ->
     forall e, error_of f (verdict options host f) = Some e ->
               In (OnError e) (events_of options host f)).
Proof.
  unfold events_of, verdict, processFile, processFile_try, readContent,
    suspended, abortProcessing, signal_aborted, calculateChecksum,
    getAbortControllerRef.
  unfold try_finally, try_catch, bind.
  cbn [setIsProcessing setProgress setError setAbortControllerRef ret fst snd].
  rewrite !validateFile_first_objection.
  destruct (first_objection (validationOptions options) f rule_order)
    as [[r msg]|].
  - unfold report_error.
    destruct (abortDuring host f AtValidation), (onError options); hook_cbn; run_leaf.
  - destruct (readAsText host f (optEncoding (processingOptions options)))
      as [events result].
    cbn [snd].
    destruct (abortDuring host f AtValidation);
      hook_cbn;
      rewrite !forEach_onprogress;
      rewrite !(after_progress_eq _ events);
      hook_cbn;
      destruct (abortDuring host f AtRead), result as [text|];
      hook_cbn;
      try (destruct (onError options); run_leaf);
      destruct (truthy_bool (calculateChecksumFlag (processingOptions options)));
      hook_cbn;
      try (destruct (sha256 host text) as [bytes|e];
           hook_cbn;
           try destruct (abortDuring host f AtChecksum);
           hook_cbn);
      destruct (onError options), (onSuccess options); run_leaf.
Qed.

(** ** A batch *)

Lemma processFiles_loop_spec options host pre rest :
  forall steps results st,
    List.length rest <= steps ->
    exists st',
      processFiles_loop options host (pre ++ rest) steps (List.length pre)
        results st
      = (Ok (results ++ batch_entries options host rest), st') /\
      processedFiles st' =
        processedFiles st ++ batch_entries options host rest /\
      log st' =
        log st ++ batch_calls options host (List.length (pre ++ rest))
                    (List.length pre) rest.
Proof.
  revert pre.
  induction rest as [|f rest IH]; intros pre steps results st Hsteps.
  - exists st. unfold batch_entries. cbn [flat_map batch_calls].
    rewrite !app_nil_r. repeat split; try reflexivity.
    destruct steps as [|steps]; [reflexivity|].
    cbn [processFiles_loop]. rewrite Nat.ltb_irrefl. reflexivity.
  - destruct steps as [|steps]; [cbn in Hsteps; lia|].
    cbn [processFiles_loop].
    assert (Hlt : (List.length pre <? List.length (pre ++ f :: rest)) = true).
    { apply Nat.ltb_lt. rewrite length_app. cbn. lia. }
    rewrite Hlt.
    assert (Hnth : nth_error (pre ++ f :: rest) (List.length pre) = Some f).
    { rewrite nth_error_app2 by lia. rewrite Nat.sub_diag. reflexivity. }
    rewrite Hnth. unfold bind at 1.
    destruct (processFile_spec options host f st)
      as (st1 & E1 & _ & _ & _ & F1 & L1 & _).
    rewrite E1. unfold bind at 1. unfold setProgress at 1.
    set (st2 := {| isProcessing := isProcessing st1;
                   progress := _; error := error st1;
                   processedFiles := processedFiles st1;
                   abortControllerRef := abortControllerRef st1;
                   log := _ |}).
    assert (Hpre : pre ++ f :: rest = (pre ++ [f]) ++ rest)
      by (rewrite <- app_assoc; reflexivity).
    assert (Hlen : List.length pre + 1 = List.length (pre ++ [f]))
      by (rewrite length_app; reflexivity).
    rewrite Hpre, Hlen.
    destruct (IH (pre ++ [f]) steps
                (match result_of (verdict options host f) with
                 | Some r => results ++ [r]
                 | None => results
                 end) st2) as (st' & E & F & L).
    { cbn in Hsteps. lia. }
    clear IH. exists st'. split; [|split].
    + rewrite E. unfold batch_entries. cbn [flat_map].
      destruct (verdict options host f); cbn [result_of entries_of];
        rewrite <- ?app_assoc; reflexivity.
    + rewrite F. subst st2. cbn [processedFiles]. rewrite F1.
      unfold batch_entries. cbn [flat_map]. rewrite <- app_assoc. reflexivity.
    + rewrite L. subst st2. cbn [log batch_calls]. rewrite L1.
      rewrite <- Hlen, <- Hpre, <- !app_assoc. reflexivity.
Qed.
Lemma overall_progress_value i total :
  0 < total ->
  overall_progress i total =
  Num ((inject_Z (Z.of_nat (i + 1)) / inject_Z (Z.of_nat total)) * inject_Z 100)%Q.
Proof.
  intro H. unfold overall_progress, percent.
  destruct (N.eqb_spec (N.of_nat total) 0) as [E|_]; [lia|].
  rewrite !nat_N_Z. reflexivity.
Qed.

Lemma overall_progress_increasing i j total :
  i < j -> j < total ->
  js_lt (overall_progress i total) (overall_progress j total).
Proof.
  intros Hij Hj.
  rewrite !overall_progress_value by lia. unfold js_lt.
  apply Qmult_lt_compat_r; [reflexivity|].
  unfold Qdiv. apply Qmult_lt_compat_r.
  - apply Qinv_lt_0_compat. rewrite <- (Zlt_Qlt 0). lia.
  - rewrite <- Zlt_Qlt. lia.
Qed.

Lemma overall_progress_last total :
  0 < total -> js_eq (overall_progress (total - 1) total) (Num (inject_Z 100)).
Proof.
  intro H. rewrite overall_progress_value by lia. unfold js_eq.
  replace (total - 1 + 1) with total by lia.
  unfold Qdiv. rewrite Qmult_inv_r.
  - apply Qmult_1_l.
  - intro E. assert (K : (inject_Z 0 < inject_Z (Z.of_nat total))%Q)
      by (rewrite <- Zlt_Qlt; lia).
    rewrite E in K. discriminate K.
Qed.

Lemma verdict_Processed options host f pf :
  verdict options host f = Processed pf ->
  first_objection (validationOptions options) f rule_order = None /\
  abortDuring host f AtValidation = false /\
  abortDuring host f AtRead = false /\
  exists text digest,
    snd (readAsText host f (optEncoding (processingOptions options)))
      = Some text /\
    pf = entry_of (processingOptions options) f text digest /\
    digest =
      (if truthy_bool (calculateChecksumFlag (processingOptions options)) then
         match sha256 host text with
         | Ok bytes => Some (join "" (map hex_byte bytes))
         | Throw _ => None
         end
       else None) /\
    (truthy_bool (calculateChecksumFlag (processingOptions options)) = true ->
     exists bytes, sha256 host text = Ok bytes).
Proof.
  unfold verdict.
  destruct (first_objection _ f rule_order) as [[r msg]|]; [discriminate|].
  destruct (snd (readAsText host f _)) as [text|]; [|discriminate].
  destruct (abortDuring host f AtValidation); [discriminate|].
  destruct (abortDuring host f AtRead); [discriminate|]. cbn [orb].
  destruct (truthy_bool _).
  - destruct (sha256 host text) as [bytes|e] eqn:D; [|discriminate].
    intro H. injection H as <-.
    split; [reflexivity|]. split; [reflexivity|]. split; [reflexivity|].
    exists text, (Some (join "" (map hex_byte bytes))).
    split; [reflexivity|]. split; [reflexivity|].
    split; [rewrite D; reflexivity|].
    intros _. exists bytes. exact D.
  - intro H. injection H as <-.
    split; [reflexivity|]. split; [reflexivity|]. split; [reflexivity|].
    exists text, None.
    split; [reflexivity|]. split; [reflexivity|]. split; [reflexivity|].
    discriminate.
Qed.

(** ** The claims about the file processor *)

Lemma append_cancel_l (p a b : string) : (p ++ a = p ++ b)%string -> a = b.
Proof.
  induction p as [|c p IH]; cbn; intro H; [exact H|].
  injection H as H. exact (IH H).
Qed.

Lemma first_objection_sound v f rules r msg :
  first_objection v f rules = Some (r, msg) ->
  In r rules /\ rule_applies v r = true /\ rule_objection v f r = Some msg.
Proof.
  induction rules as [|r0 rest IH]; cbn [first_objection]; [discriminate|].
  destruct (rule_applies v r0) eqn:A.
  - destruct (rule_objection v f r0) as [m|] eqn:O.
    + intro H. injection H as <- <-. repeat split; trivial. left; reflexivity.
    + intro H. destruct (IH H) as (I & ? & ?). repeat split; trivial.
      right; exact I.
  - intro H. destruct (IH H) as (I & ? & ?). repeat split; trivial.
    right; exact I.
Qed.

Lemma first_objection_none v f rules :
  first_objection v f rules = None <->
  (forall r, In r rules -> rule_applies v r = true ->
             rule_objection v f r = None).
Proof.
  induction rules as [|r0 rest IH]; cbn [first_objection].
  - split; [intros _ r []|reflexivity].
  - destruct (rule_applies v r0) eqn:A.
    + destruct (rule_objection v f r0) as [m|] eqn:O.
      * split; [discriminate|]. intro H.
        rewrite (H r0 (or_introl eq_refl) A) in O. discriminate.
      * rewrite IH. split.
        -- intros H r [<-|I] Hr; [exact O|exact (H r I Hr)].
        -- intros H r I. apply H. right; exact I.
    + rewrite IH. split.
      * intros H r [<-|I] Hr; [congruence|exact (H r I Hr)].
      * intros H r I. apply H. right; exact I.
Qed.

Lemma first_objection_earlier v f r msg :
  first_objection v f rule_order = Some (r, msg) ->
  forall r', rule_index r' < rule_index r ->
             rule_applies v r' = true -> rule_objection v f r' = None.
Proof.
  unfold rule_order. cbn [first_objection].
  intros H r' Hlt Hr'.
  destruct (rule_objection v f r') as [m|] eqn:O; [|reflexivity].
  exfalso.
  destruct (rule_applies v MaxSizeRule) eqn:A0;
    [destruct (rule_objection v f MaxSizeRule) eqn:O0|];
    try (injection H as <- <-; destruct r'; cbn in Hlt; lia);
    (destruct (rule_applies v MinSizeRule) eqn:A1;
       [destruct (rule_objection v f MinSizeRule) eqn:O1|]);
    try (injection H as <- <-; destruct r'; cbn in Hlt; try lia; congruence);
    (destruct (rule_applies v TypeRule) eqn:A2;
       [destruct (rule_objection v f TypeRule) eqn:O2|]);
    try (injection H as <- <-; destruct r'; cbn in Hlt; try lia; congruence);
    (destruct (rule_applies v ExtensionRule) eqn:A3;
       [destruct (rule_objection v f ExtensionRule) eqn:O3|]);
    try (injection H as <- <-; destruct r'; cbn in Hlt; try lia; congruence);
    (destruct (rule_applies v CustomRule) eqn:A4;
       [destruct (rule_objection v f CustomRule) eqn:O4|]);
    try (injection H as <- <-; destruct r'; cbn in Hlt; try lia; congruence);
    discriminate.
Qed.

Lemma rule_in_order r : In r rule_order.
Proof. destruct r; cbn; tauto. Qed.

Lemma rule_objection_message v f r msg :
  validator_returns v f ->
  rule_objection v f r = Some msg ->
  msg = rule_message v f r.
Proof.
  intros Hret. destruct r; cbn [rule_objection rule_message].
  - destruct (size_exceeds f (maxSize v)); [|discriminate].
    intro H; injection H as <-; reflexivity.
  - destruct (size_below f (minSize v)); [|discriminate].
    intro H; injection H as <-; reflexivity.
  - destruct (allowedTypes v) as [types|]; [|discriminate].
    destruct (includes types (type f)); [discriminate|].
    intro H; injection H as <-; reflexivity.
  - destruct (allowedExtensions v) as [extensions|]; [|discriminate].
    destruct (includes extensions (extension_of (name f))); [discriminate|].
    intro H; injection H as <-; reflexivity.
  - destruct (customValidator v) as [validator|] eqn:C; [|discriminate].
    destruct (validator f) as [[|]|e] eqn:V; [discriminate| |].
    + intro H; injection H as <-; reflexivity.
    + exfalso. exact (Hret validator e C V).
Qed.

Lemma rule_message_injective v f r1 r2 :
  rule_message v f r1 = rule_message v f r2 -> r1 = r2.
Proof.
  destruct r1, r2; try reflexivity; intro H; exfalso;
    unfold rule_message, max_size_message, min_size_message, type_message,
      extension_message, custom_message in H;
    cbn in H; try discriminate H.
  all: repeat (injection H as H); try discriminate H.
  all: apply append_cancel_l in H; discriminate H.
Qed.

Lemma objection_names_rule v f r1 r2 msg :
  validator_returns v f ->
  rule_objection v f r1 = Some msg ->
  rule_objection v f r2 = Some msg ->
  r1 = r2.
Proof.
  intros Hret H1 H2.
  apply (rule_message_injective v f).
  rewrite <- (rule_objection_message v f r1 msg Hret H1).
  exact (rule_objection_message v f r2 msg Hret H2).
Qed.

Lemma split_char_free sep suffix :
  free_of sep suffix = true -> split_char sep suffix = [suffix].
Proof.
  induction suffix as [|c r IH]; [reflexivity|].
  cbn [free_of]. intro Hfree. apply andb_prop in Hfree as [Hc Hr].
  cbn [split_char]. apply negb_true_iff in Hc. rewrite Hc, (IH Hr).
  reflexivity.
Qed.

Lemma split_char_append_sep sep stem suffix :
  free_of sep suffix = true ->
  exists p ps,
    split_char sep (stem ++ String sep suffix) = (p :: ps) ++ [suffix].
Proof.
  intro Hfree.
  induction stem as [|c stem IH].
  - exists EmptyString, []. cbn [append split_char].
    rewrite Ascii.eqb_refl, (split_char_free sep suffix Hfree). reflexivity.
  - destruct IH as (p & ps & E). cbn [append split_char]. rewrite E.
    destruct (Ascii.eqb c sep).
    + exists EmptyString, (p :: ps). reflexivity.
    + exists (String c p), ps. reflexivity.
Qed.

Lemma pop_last {A} (l : list A) (x : A) : pop (l ++ [x]) = Some x.
Proof. unfold pop. rewrite rev_app_distr. reflexivity. Qed.

Lemma extension_of_dotted stem suffix :
  free_of "."%char suffix = true ->
  extension_of (stem ++ String "."%char suffix) = ("." ++ toLowerCase suffix)%string.
Proof.
  intro Hfree. unfold extension_of.
  destruct (split_char_append_sep "."%char stem suffix Hfree) as (p & ps & E).
  rewrite E, pop_last. reflexivity.
Qed.

Lemma extension_of_undotted file_name :
  free_of "."%char file_name = true ->
  extension_of file_name = ("." ++ toLowerCase file_name)%string.
Proof.
  intro Hfree. unfold extension_of.
  rewrite (split_char_free _ _ Hfree). reflexivity.
Qed.

(** C1 (as amended).  [validateFile] checks the rules in the order max-size,
    min-size, MIME type, extension, custom validator, and stops at the first
    rule that applies and that the file violates; a size rule applies when
    its limit is a number other than 0.  A file that satisfies every rule
    that applies validates, and the state is untouched.  A file that
    violates a rule that applies fails: the result is [false] and the stored
    error has code [VALIDATION_ERROR], the file, and the message of the
    first violated rule; no two rules share a message.  The extension is the
    lower-cased text after the last ['.'] of the name, after a ['.']. *)
Theorem C1_validateFile_rules options f st :
  let v := validationOptions options in
  (validateFile options f st =
     match first_objection v f rule_order with
     | None => (Ok true, st)
     | Some (_, msg) =>
         (Ok false, report_error options (validation_error f msg) st)
     end) /\
  ((forall r, rule_applies v r = true -> rule_objection v f r = None) ->
   validateFile options f st = (Ok true, st)) /\
  (forall r msg,
      rule_applies v r = true -> rule_objection v f r = Some msg ->
      exists r1 msg1 st1,
        validateFile options f st = (Ok false, st1) /\
        error st1 = Some {| code := "VALIDATION_ERROR"; message := msg1;
                            file := Some f; details := None |} /\
        (onError options = true ->
         In (OnError {| code := "VALIDATION_ERROR"; message := msg1;
                        file := Some f; details := None |}) (log st1)) /\
        rule_applies v r1 = true /\
        rule_objection v f r1 = Some msg1 /\
        rule_index r1 <= rule_index r /\
        (forall r0, rule_index r0 < rule_index r1 ->
                    rule_applies v r0 = true -> rule_objection v f r0 = None)) /\
  (forall r1 r2 msg,
      validator_returns v f ->
      rule_objection v f r1 = Some msg -> rule_objection v f r2 = Some msg ->
      r1 = r2) /\
  (forall stem suffix,
      free_of "."%char suffix = true ->
      extension_of (stem ++ String "."%char suffix)
      = ("." ++ toLowerCase suffix)%string).
Proof.
  intro v. split; [|split; [|split; [|split]]].
  - apply validateFile_first_objection.
  - intro Hall. rewrite validateFile_first_objection. fold v.
    assert (E : first_objection v f rule_order = None).
    { apply first_objection_none. intros r _. apply Hall. }
    rewrite E. reflexivity.
  - intros r msg Hr Ho.
    destruct (first_objection v f rule_order) as [[r1 msg1]|] eqn:E.
    + destruct (first_objection_sound v f rule_order r1 msg1 E)
        as (_ & Hr1 & Ho1).
      exists r1, msg1, (report_error options (validation_error f msg1) st).
      rewrite validateFile_first_objection. fold v. rewrite E.
      split; [reflexivity|]. split; [reflexivity|]. split.
      { intro Hcb. unfold report_error. cbn [log]. rewrite Hcb.
        apply in_or_app. right. right. left. reflexivity. }
      split; [exact Hr1|]. split; [exact Ho1|]. split.
      * destruct (Nat.le_gt_cases (rule_index r1) (rule_index r))
          as [Hle|Hgt]; [exact Hle|].
        rewrite (first_objection_earlier v f r1 msg1 E r Hgt Hr) in Ho.
        discriminate.
      * exact (first_objection_earlier v f r1 msg1 E).
    + rewrite first_objection_none in E.
      rewrite (E r (rule_in_order r) Hr) in Ho. discriminate.
  - intros r1 r2 msg. apply objection_names_rule.
  - apply extension_of_dotted.
Qed.

(** The file [notes.txt] passes the default rules, and [setup.exe] fails on
    its extension. *)
Lemma C1_validateFile_rules_witness :
  validateFile default_options notes_txt initial = (Ok true, initial) /\
  exists r1 msg1 st1,
    validateFile default_options setup_exe initial = (Ok false, st1) /\
    error st1 = Some {| code := "VALIDATION_ERROR"; message := msg1;
                        file := Some setup_exe; details := None |} /\
    rule_objection (validationOptions default_options) setup_exe r1 = Some msg1.
Proof.
  split.
  - apply (proj1 (proj2 (C1_validateFile_rules default_options notes_txt initial))).
    intros [] _; reflexivity.
  - destruct (proj1 (proj2 (proj2
        (C1_validateFile_rules default_options setup_exe initial)))
        ExtensionRule "File extension '.exe' is not allowed"
        eq_refl eq_refl) as (r1 & msg1 & st1 & E & He & _ & _ & Ho & _).
    exists r1, msg1, st1. auto.
Defined.

(** C1, as the claim states it, fails: with the size limit set to 0 the
    max-size rule is configured and a file of 11 bytes exceeds it, yet the
    file validates. *)
Lemma C1_zero_limit_counterexample :
  maxSize (validationOptions zero_limit_options) = Some 0%Z /\
  size_exceeds notes_txt (maxSize (validationOptions zero_limit_options))
    = true /\
  validateFile zero_limit_options notes_txt initial = (Ok true, initial).
Proof. repeat split. Qed.

Lemma count_nonempty_tokens_countWords text :
  countWords text = count_nonempty_tokens text.
Proof.
  rewrite countWords_word_starts, count_nonempty_tokens_word_starts.
  reflexivity.
Qed.

Lemma processFile_result options host f st :
  fst (processFile options host f st)
  = Ok (result_of (verdict options host f)).
Proof.
  destruct (processFile_spec options host f st) as (st' & E & _).
  rewrite E. reflexivity.
Qed.

Lemma processFile_Some_entry options host f st pf st' :
  processFile options host f st = (Ok (Some pf), st') ->
  verdict options host f = Processed pf.
Proof.
  intro H. pose proof (processFile_result options host f st) as R.
  rewrite H in R. cbn [fst] in R. injection R as R.
  destruct (verdict options host f); cbn [result_of] in R;
    [discriminate|discriminate|]. injection R as <-. reflexivity.
Qed.

(** C3.  [countWords] is the number of non-empty pieces between the runs of
    white space of the text, 3 on the sample; [countLines] is the number of
    pieces between the newlines, one more than the newlines, so that a final
    newline adds an empty last line: 3 and 4 on the samples; and the
    character count of a processed file is the length of its content. *)
Theorem C3_text_metrics :
  (forall text, countWords text = count_nonempty_tokens text) /\
  countWords sample_words = 3 /\
  (forall text, countLines text = List.length (split_char nl text)) /\
  (forall text, countLines text = S (count_newlines text)) /\
  countLines sample_lines = 3 /\
  countLines sample_lines_newline = 4 /\
  (forall options host f st pf st',
      processFile options host f st = (Ok (Some pf), st') ->
      characterCount pf = String.length (content pf)).
Proof.
  split; [exact count_nonempty_tokens_countWords|].
  split; [reflexivity|].
  split; [reflexivity|].
  split; [exact countLines_newlines|].
  split; [reflexivity|].
  split; [reflexivity|].
  intros options host f st pf st' H.
  apply processFile_Some_entry in H.
  destruct (verdict_Processed options host f pf H)
    as (_ & _ & _ & text & digest & _ & -> & _).
  reflexivity.
Qed.

(** On the sample host the file [notes.txt] is processed, and its character
    count is the length of its content. *)
Lemma C3_text_metrics_witness :
  let pf := entry_of (processingOptions default_options) notes_txt
              "hello world" None in
  processFile default_options sample_host notes_txt initial
  = (Ok (Some pf),
     snd (processFile default_options sample_host notes_txt initial)) /\
  characterCount pf = String.length (content pf).
Proof.
  intro pf.
  assert (E : processFile default_options sample_host notes_txt initial
              = (Ok (Some pf),
                 snd (processFile default_options sample_host notes_txt
                        initial)))
    by (vm_compute; reflexivity).
  split; [exact E|].
  exact (proj2 (proj2 (proj2 (proj2 (proj2 (proj2 C3_text_metrics)))))
           default_options sample_host notes_txt initial pf _ E).
Defined.



(** ** CSV *)

Lemma includes_app l1 l2 x : includes (l1 ++ l2) x = includes l1 x || includes l2 x.
Proof. unfold includes. apply existsb_app. Qed.

Lemma filter_filter {A} (p q : A -> bool) l :
  filter p (filter q l) = filter (fun x => q x && p x) l.
Proof.
  induction l as [|x l IH]; [reflexivity|].
  cbn [filter]. destruct (q x); cbn [filter andb]; rewrite IH; reflexivity.
Qed.

Lemma unique_from seen keys :
  fold_left (fun seen k => if includes seen k then seen else seen ++ [k])
            keys seen
  = seen ++ filter (fun k => negb (includes seen k)) (first_seen keys).
Proof.
  revert seen. induction keys as [|k rest IH]; intro seen.
  - cbn. rewrite app_nil_r. reflexivity.
  - cbn [fold_left first_seen filter].
    destruct (includes seen k) eqn:I; cbn [negb].
    + rewrite IH, filter_filter. f_equal. apply filter_ext_in. intros x _.
      destruct (String.eqb_spec x k) as [->|_]; [rewrite I|]; reflexivity.
    + rewrite IH, filter_filter, <- app_assoc. cbn [app]. do 2 f_equal.
      apply filter_ext. intro x. rewrite includes_app.
      unfold includes at 2. cbn [existsb]. rewrite orb_false_r, negb_orb.
      rewrite (String.eqb_sym x k). apply andb_comm.
Qed.

Lemma unique_first_seen keys : RG.unique keys = first_seen keys.
Proof.
  unfold RG.unique. rewrite unique_from. cbn [app].
  rewrite <- (filter_ext (fun _ => true)) by reflexivity.
  induction (first_seen keys) as [|x l IH]; [reflexivity|].
  cbn [filter]. rewrite IH. reflexivity.
Qed.

Lemma first_seen_In keys k : In k (first_seen keys) <-> In k keys.
Proof.
  induction keys as [|k0 rest IH]; [reflexivity|].
  cbn [first_seen In]. rewrite filter_In, IH.
  destruct (String.eqb_spec k k0) as [->|N]; cbn [negb]; intuition congruence.
Qed.

Lemma first_seen_NoDup keys : NoDup (first_seen keys).
Proof.
  induction keys as [|k rest IH]; [constructor|].
  cbn [first_seen]. constructor.
  - rewrite filter_In, String.eqb_refl. intros [_ H]. discriminate H.
  - apply NoDup_filter. exact IH.
Qed.

Lemma flatMap_keys_records (records : list Record_) :
  RG.flatMap_keys (map VObject records) = Ok (flat_map (map fst) records).
Proof.
  unfold RG.flatMap_keys.
  assert (E : map_result Object_keys (map VObject records)
              = Ok (map (map fst) records)).
  { induction records as [|r rest IH]; [reflexivity|].
    cbn [map map_result Object_keys and_then]. rewrite IH. reflexivity. }
  rewrite E. cbn [and_then]. rewrite flat_map_concat_map. reflexivity.
Qed.

Lemma csv_cell_record (r : Record_) key :
  RG.csv_cell (VObject r) key = Ok (csv_field (property r key)).
Proof.
  unfold RG.csv_cell, property, csv_field, needs_quotes, quoted. cbn [get].
  destruct (lookup key r) as [[]|]; cbn [and_then]; try reflexivity;
    match goal with
    | |- (if ?c then _ else _) = _ => destruct c; reflexivity
    end.
Qed.

Lemma csv_cells_record (r : Record_) cols :
  map_result (RG.csv_cell (VObject r)) cols
  = Ok (map (fun k => csv_field (property r k)) cols).
Proof.
  induction cols as [|k rest IH]; [reflexivity|].
  cbn [map_result map]. rewrite csv_cell_record, IH. reflexivity.
Qed.

Lemma csv_push_rows_records cols (records : list Record_) rows :
  RG.csv_push_rows cols (map VObject records) rows
  = Ok (rows ++ map (csv_row cols) records).
Proof.
  revert rows. induction records as [|r rest IH]; intro rows.
  - cbn. rewrite app_nil_r. reflexivity.
  - cbn [map RG.csv_push_rows]. rewrite csv_cells_record. cbn [and_then].
    rewrite IH, <- app_assoc. reflexivity.
Qed.

Lemma generateCSV_records (records : list Record_) options :
  records <> [] ->
  RG.generateCSV (VArray (map VObject records)) options = Ok (csv_text records).
Proof.
  intro Hne. unfold RG.generateCSV.
  destruct records as [|r rest]; [contradiction|].
  change (VObject r :: map VObject rest) with (map VObject (r :: rest)).
  rewrite flatMap_keys_records. cbn [and_then].
  rewrite unique_first_seen, csv_push_rows_records. reflexivity.
Qed.



(** C10.  On a value that is not an array and on the empty array
    [RG.generateCSV] returns the empty text, without a header; and a CSV
    report of such data, when the browser hands out the object URL, is a
    report of 0 bytes and no error. *)
Theorem C10_generateCSV_empty (data : Value) options :
  has_rows data = false ->
  RG.generateCSV data options = Ok EmptyString /\
  (forall host st,
      RG.format options = "csv" ->
      (exists url,
          RG.createObjectURL host (RG.urlsMade st)
            {| RG.blobText := EmptyString; RG.blobType := "text/csv" |} = Ok url) ->
      exists r st',
        RG.generateReport host data options st = (Ok (Some r), st') /\
        RG.blobText (RG.blob r) = EmptyString /\
        RG.size r = 0 /\
        RG.error st' = None /\
        RG.generatedReports st' = RG.generatedReports st ++ [r]).
Proof.
  intro Hrows.
  assert (Hcsv : RG.generateCSV data options = Ok EmptyString).
  { destruct data as [| | | | | |[|x items]|]; try reflexivity.
    discriminate Hrows. }
  split; [exact Hcsv|].
  intros host st Hfmt [url Hurl].
  unfold RG.generateReport, RG.generateReport_try, RG.format_content, RG.downloadBlob,
    RG.generateFilename, RG.URL_createObjectURL.
  rewrite Hfmt, Hcsv. cbn [String.eqb Ascii.eqb Bool.eqb].
  unfold try_finally, try_catch, bind, lift.
  cbn -[RG.timestamp_of].
  destruct (RG.not_false (RG.includeTimestamp options)); cbn -[RG.timestamp_of];
    rewrite Hurl; cbn -[RG.timestamp_of];
    eexists; eexists; (split; [reflexivity|]); cbn;
    repeat split; reflexivity.
Qed.

(** The number 7, which is not an array, gives the empty text, and the
    report made of it is empty. *)
Lemma C10_generateCSV_empty_witness :
  RG.generateCSV (VNumber 7) (plain_options "csv") = Ok EmptyString.
Proof.
  exact (proj1 (C10_generateCSV_empty (VNumber 7) (plain_options "csv")
                  eq_refl)).
Defined.

(** ** One report *)

Lemma format_content_eq host data options st :
  RG.format_content host data options st
  = (format_outcome host data options (RG.dates st),
     if reads_clock (RG.format options) then tick st else st).
Proof.
  unfold format_outcome, RG.format_content, reads_clock, tick.
  destruct (String.eqb_spec (RG.format options) "json") as [E|_].
  { rewrite E. destruct st; reflexivity. }
  destruct (String.eqb_spec (RG.format options) "csv") as [E|_].
  { rewrite E. cbn [orb String.eqb Ascii.eqb Bool.eqb]. unfold bind, lift.
    destruct (RG.generateCSV data options); reflexivity. }
  destruct (String.eqb_spec (RG.format options) "html") as [E|_].
  { cbn [orb]. unfold bind, lift, RG.newDate. cbn.
    destruct (RG.generateHTML host data options _); destruct st; reflexivity. }
  destruct (String.eqb_spec (RG.format options) "txt") as [E|_].
  { cbn [orb]. unfold bind, lift, RG.newDate. cbn.
    destruct (RG.generateText host data options _); destruct st; reflexivity. }
  reflexivity.
Qed.

Lemma format_outcome_unsupported host data options n :
  supported (RG.format options) = false ->
  format_outcome host data options n
  = Throw (JsError ("Unsupported format: " ++ RG.format options)).
Proof.
  unfold supported, format_outcome, RG.format_content.
  destruct (String.eqb (RG.format options) "json"); [discriminate|].
  destruct (String.eqb (RG.format options) "csv"); [discriminate|].
  destruct (String.eqb (RG.format options) "html"); [discriminate|].
  destruct (String.eqb (RG.format options) "txt"); [discriminate|].
  reflexivity.
Qed.

Lemma format_outcome_supported host data options n content mime :
  format_outcome host data options n = Ok (content, mime) ->
  supported (RG.format options) = true.
Proof.
  destruct (supported (RG.format options)) eqn:S; [reflexivity|].
  rewrite (format_outcome_unsupported host data options n S). discriminate.
Qed.

Ltac report_cbn := cbn -[RG.timestamp_of format_outcome reads_clock].

Lemma generateReport_spec host data options st :
  exists r st' calls,
    RG.generateReport host data options st = (Ok r, st') /\
    RG.isGenerating st' = false /\
    RG.log st' = RG.log st ++ calls /\
    match r with
    | Some rep =>
        RG.generatedReports st' = RG.generatedReports st ++ [rep] /\
        RG.error st' = None /\
        packaged host rep
    | None =>
        RG.generatedReports st' = RG.generatedReports st /\
        forallb is_state_setter calls = true /\
        exists x,
          RG.error st' = Some (generation_error x) /\
          (format_outcome host data options (RG.dates st) = Throw x \/
           exists content mime k,
             format_outcome host data options (RG.dates st)
               = Ok (content, mime) /\
             RG.createObjectURL host k
               {| RG.blobText := content; RG.blobType := mime |} = Throw x)
    end.
Proof.
  unfold RG.generateReport, RG.generateReport_try, RG.downloadBlob,
    RG.generateFilename, RG.URL_createObjectURL.
  unfold try_finally, try_catch, bind.
  report_cbn.
  rewrite format_content_eq. report_cbn.
  destruct (format_outcome host data options (RG.dates st))
    as [[content mime]|x] eqn:F.
  - pose proof (format_outcome_supported _ _ _ _ _ _ F) as Hs.
    destruct (reads_clock (RG.format options)); unfold tick; report_cbn;
      destruct (RG.not_false (RG.includeTimestamp options)); report_cbn;
      match goal with
      | |- context [RG.createObjectURL host ?k ?b] =>
          destruct (RG.createObjectURL host k b) as [url|x] eqn:U
      end; report_cbn.
    all: eexists; eexists; eexists; (split; [reflexivity|]); report_cbn;
      (split; [reflexivity|]);
      (split; [rewrite <- ?app_assoc; report_cbn; reflexivity|]).
    all: try (split; [reflexivity|]; split; [reflexivity|];
              exists data, options, (RG.dates st); eexists;
              report_cbn; rewrite F; repeat split; eauto).
    all: split; [reflexivity|]; split; [reflexivity|];
      exists x; split; [reflexivity|]; right; eauto.
  - destruct (reads_clock (RG.format options)); unfold tick; report_cbn.
    all: eexists; eexists; eexists; (split; [reflexivity|]); report_cbn;
      (split; [reflexivity|]);
      (split; [rewrite <- ?app_assoc; report_cbn; reflexivity|]).
    all: split; [reflexivity|]; split; [reflexivity|];
      exists x; split; [reflexivity|]; left; reflexivity.
Qed.
Lemma supported_false fmt :
  ~ In fmt ["json"; "csv"; "html"; "txt"] -> supported fmt = false.
Proof.
  intro H. unfold supported.
  destruct (String.eqb_spec fmt "json") as [->|_]; [exfalso; apply H; cbn; tauto|].
  destruct (String.eqb_spec fmt "csv") as [->|_]; [exfalso; apply H; cbn; tauto|].
  destruct (String.eqb_spec fmt "html") as [->|_]; [exfalso; apply H; cbn; tauto|].
  destruct (String.eqb_spec fmt "txt") as [->|_]; [exfalso; apply H; cbn; tauto|].
  reflexivity.
Qed.

Lemma reads_clock_unsupported fmt : supported fmt = false -> reads_clock fmt = false.
Proof.
  unfold supported, reads_clock.
  destruct (String.eqb fmt "json"), (String.eqb fmt "csv"),
    (String.eqb fmt "html"), (String.eqb fmt "txt"); cbn; congruence.
Qed.

(** C7.  For a format tag other than [json], [csv], [html] and [txt], such
    as [pdf] or [xlsx], [generateReport] returns [null]; the error slot
    holds an error of code [GENERATION_ERROR] whose message is
    [Unsupported format: ] followed by the tag; and the registry is as it
    was: the calls made are setter calls of the busy flag, the progress and
    the error only. *)
Theorem C7_unsupported_format host data options st :
  ~ In (RG.format options) ["json"; "csv"; "html"; "txt"] ->
  let e := {| RG.code := "GENERATION_ERROR";
              RG.message := "Unsupported format: " ++ RG.format options;
              RG.details :=
                Some (JsError ("Unsupported format: " ++ RG.format options)) |} in
  exists st',
    RG.generateReport host data options st = (Ok None, st') /\
    RG.error st' = Some e /\
    RG.generatedReports st' = RG.generatedReports st /\
    RG.objectUrls st' = RG.objectUrls st /\
    RG.isGenerating st' = false /\
    RG.log st' =
      RG.log st ++ [RG.SetIsGenerating true; RG.SetProgress (Num 0);
                    RG.SetError None; RG.SetProgress (Num 25);
                    RG.SetError (Some e); RG.SetIsGenerating false].
Proof.
  intros H e. apply supported_false in H.
  unfold RG.generateReport, RG.generateReport_try.
  unfold try_finally, try_catch, bind.
  report_cbn. rewrite format_content_eq. report_cbn.
  rewrite (format_outcome_unsupported host data options _ H).
  rewrite (reads_clock_unsupported _ H). report_cbn.
  eexists. split; [reflexivity|]. report_cbn.
  rewrite <- !app_assoc. repeat split; reflexivity.
Qed.

Lemma filter_true {A} (l : list A) : filter (fun _ => true) l = l.
Proof. induction l as [|x l IH]; [reflexivity|]. cbn. rewrite IH. reflexivity. Qed.

Lemma revoke_all l st :
  forEach l (fun report => RG.URL_revokeObjectURL (RG.downloadUrl report)) st
  = (Ok tt,
     {| RG.isGenerating := RG.isGenerating st;
        RG.progress := RG.progress st;
        RG.error := RG.error st;
        RG.generatedReports := RG.generatedReports st;
        RG.objectUrls :=
          filter (fun u => negb (includes (map RG.downloadUrl l) u))
                 (RG.objectUrls st);
        RG.timers := RG.timers st;
        RG.dates := RG.dates st;
        RG.urlsMade := RG.urlsMade st;
        RG.log :=
          RG.log st
            ++ map (fun r => RG.RevokeObjectURL (RG.downloadUrl r)) l |}).
Proof.
  revert st. induction l as [|r rest IH]; intro st.
  - unfold includes. cbn. rewrite app_nil_r, filter_true.
    destruct st; reflexivity.
  - cbn [forEach]. unfold bind at 1.
    unfold RG.URL_revokeObjectURL at 1. rewrite IH.
    cbn. rewrite filter_filter, <- app_assoc. cbn.
    f_equal. f_equal. apply filter_ext. intro u.
    unfold includes. cbn [existsb]. rewrite negb_orb. reflexivity.
Qed.

Lemma includes_In l x : includes l x = true <-> In x l.
Proof.
  unfold includes. rewrite existsb_exists. split.
  - intros (y & Hy & E). apply String.eqb_eq in E. subst y. exact Hy.
  - intro H. exists x. split; [exact H|apply String.eqb_refl].
Qed.

Lemma clearReports_eq seen st :
  RG.clearReports seen st =
  (Ok tt,
   {| RG.isGenerating := RG.isGenerating st;
      RG.progress := Num 0;
      RG.error := None;
      RG.generatedReports := [];
      RG.objectUrls :=
        filter (fun u => negb (includes (map RG.downloadUrl seen) u))
               (RG.objectUrls st);
      RG.timers := RG.timers st;
      RG.dates := RG.dates st;
      RG.urlsMade := RG.urlsMade st;
      RG.log :=
        RG.log st
          ++ map (fun r => RG.RevokeObjectURL (RG.downloadUrl r)) seen
          ++ [RG.SetGeneratedReports []; RG.SetError None;
              RG.SetProgress (Num 0)] |}).
Proof.
  unfold RG.clearReports. unfold bind at 1. rewrite revoke_all.
  unfold bind, RG.setGeneratedReports, RG.setError, RG.setProgress.
  cbn [RG.isGenerating RG.progress RG.error RG.generatedReports RG.objectUrls
       RG.timers RG.dates RG.urlsMade RG.log].
  rewrite <- !app_assoc. reflexivity.
Qed.



(** The tag [pdf] is not supported. *)
Lemma C7_unsupported_format_witness :
  exists st',
    RG.generateReport sample_browser (VArray []) (plain_options "pdf")
      RG.initial = (Ok None, st') /\
    RG.generatedReports st' = [].
Proof.
  assert (H : ~ In (RG.format (plain_options "pdf"))
                   ["json"; "csv"; "html"; "txt"]).
  { cbn. intros [H|[H|[H|[H|[]]]]]; discriminate H. }
  destruct (C7_unsupported_format sample_browser (VArray [])
              (plain_options "pdf") RG.initial H)
    as (st' & E & _ & G & _).
  exists st'. split; [exact E|exact G].
Defined.

(** ** Failures *)

Lemma error_of_shape f v e :
  error_of f v = Some e ->
  file e = Some f /\
  (code e = "VALIDATION_ERROR" /\ details e = None \/
   code e = "PROCESSING_ERROR" /\
   exists x, details e = Some x /\ message e = message_of x "Processing failed").
Proof.
  destruct v as [msg|x|pf]; cbn [error_of]; intro H;
    [injection H as <-|injection H as <-|discriminate].
  - split; [reflexivity|]. left. split; reflexivity.
  - split; [reflexivity|]. right. split; [reflexivity|].
    exists x. split; reflexivity.
Qed.




(** ** The lists hold successes only *)

Lemma verdict_vetted options host f pf :
  verdict options host f = Processed pf -> vetted options host pf.
Proof.
  intro H.
  destruct (verdict_Processed options host f pf H)
    as (Hv & Ha & Hr & text & digest & Ht & -> & Hd & Hs).
  exists f, text. cbn [content fileName fileSize fileType characterCount
                       wordCount lineCount checksum entry_of].
  repeat (split; [first [assumption | reflexivity]|]).
  intro Hflag. destruct (Hs Hflag) as [bytes Hb]. exists bytes.
  split; [exact Hb|]. rewrite Hd, Hflag, Hb. reflexivity.
Qed.

Lemma entries_vetted options host f :
  Forall (vetted options host) (entries_of (verdict options host f)).
Proof.
  destruct (verdict options host f) as [msg|x|pf] eqn:V; cbn [entries_of];
    constructor; [|constructor].
  exact (verdict_vetted options host f pf V).
Qed.

Lemma batch_entries_vetted options host files :
  Forall (vetted options host) (batch_entries options host files).
Proof.
  unfold batch_entries. induction files as [|f rest IH]; [constructor|].
  cbn [flat_map]. apply Forall_app. split; [apply entries_vetted|exact IH].
Qed.

Lemma fp_step_vetted options host st st' :
  fp_step options host st st' ->
  Forall (vetted options host) (processedFiles st) ->
  Forall (vetted options host) (processedFiles st').
Proof.
  intros Hstep Hinv. destruct Hstep as [f st|files st|f st|st|st].
  - destruct (processFile_spec options host f st)
      as (st' & E & _ & _ & _ & Hf & _).
    rewrite E. cbn [snd]. rewrite Hf. apply Forall_app.
    split; [exact Hinv|apply entries_vetted].
  - destruct (processFiles_loop_spec options host [] files
                (List.length files) [] st (le_n _)) as (st' & E & Hf & _).
    unfold processFiles. cbn [app List.length] in E. rewrite E. cbn [snd].
    rewrite Hf. apply Forall_app.
    split; [exact Hinv|apply batch_entries_vetted].
  - rewrite validateFile_first_objection.
    destruct (first_objection _ f rule_order) as [[r msg]|]; exact Hinv.
  - unfold abortProcessing, getAbortControllerRef, bind.
    destruct (abortControllerRef st); exact Hinv.
  - constructor.
Qed.

Lemma fp_reachable_vetted options host st :
  fp_reachable options host st ->
  Forall (vetted options host) (processedFiles st).
Proof.
  induction 1 as [|st st' _ IH Hstep]; [constructor|].
  exact (fp_step_vetted options host st st' Hstep IH).
Qed.

Lemma generateReport_packaged host data options st :
  Forall (packaged host) (RG.generatedReports st) ->
  Forall (packaged host)
    (RG.generatedReports (snd (RG.generateReport host data options st))).
Proof.
  intro Hinv.
  destruct (generateReport_spec host data options st)
    as (r & st' & calls & E & _ & _ & Hr).
  rewrite E. cbn [snd]. destruct r as [rep|].
  - destruct Hr as (Hg & _ & Hp). rewrite Hg. apply Forall_app.
    split; [exact Hinv|]. constructor; [exact Hp|constructor].
  - destruct Hr as (Hg & _). rewrite Hg. exact Hinv.
Qed.

Lemma generateMultipleReports_loop_packaged host data formats baseOptions :
  forall steps i reports st,
    Forall (packaged host) (RG.generatedReports st) ->
    Forall (packaged host)
      (RG.generatedReports
         (snd (RG.generateMultipleReports_loop host data formats baseOptions
                 steps i reports st))).
Proof.
  induction steps as [|steps IH]; intros i reports st Hinv; [exact Hinv|].
  cbn [RG.generateMultipleReports_loop].
  destruct (i <? List.length formats); [|exact Hinv].
  destruct (nth_error formats i) as [fmt|]; [|exact Hinv].
  unfold bind at 1.
  pose proof (generateReport_packaged host data
                (RG.with_format baseOptions fmt) st Hinv) as H1.
  destruct (generateReport_spec host data (RG.with_format baseOptions fmt) st)
    as (r & st1 & calls & E & _).
  rewrite E in *. cbn [snd] in H1. unfold bind at 1.
  unfold RG.setProgress at 1. apply IH. exact H1.
Qed.

Lemma rg_step_packaged host st st' :
  rg_step host st st' ->
  Forall (packaged host) (RG.generatedReports st) ->
  Forall (packaged host) (RG.generatedReports st').
Proof.
  intros Hstep Hinv.
  destruct Hstep as [data options st|data formats baseOptions st|seen st|st].
  - exact (generateReport_packaged host data options st Hinv).
  - apply generateMultipleReports_loop_packaged. exact Hinv.
  - rewrite clearReports_eq. constructor.
  - unfold RG.fireTimer. destruct (RG.timers st); exact Hinv.
Qed.

Lemma rg_reachable_packaged host st :
  rg_reachable host st -> Forall (packaged host) (RG.generatedReports st).
Proof.
  induction 1 as [|st st' _ IH Hstep]; [constructor|].
  exact (rg_step_packaged host st st' Hstep IH).
Qed.



(** ** JSON, written and read back *)

Lemma append_assoc (a b c : string) : ((a ++ b) ++ c = a ++ (b ++ c))%string.
Proof. induction a as [|x a IH]; cbn; [reflexivity|]. rewrite IH. reflexivity. Qed.

Lemma append_empty_r (a : string) : (a ++ "")%string = a.
Proof. induction a as [|x a IH]; cbn; [reflexivity|]. rewrite IH. reflexivity. Qed.

Lemma length_append (a b : string) :
  String.length (a ++ b) = String.length a + String.length b.
Proof. induction a as [|x a IH]; cbn; [reflexivity|]. rewrite IH. reflexivity. Qed.

Lemma take_digits_all ds rest :
  all_digits ds = true -> number_end rest = true ->
  take_digits (ds ++ rest) = (ds, rest).
Proof.
  intros Hd Hr. induction ds as [|c ds IH].
  - destruct rest as [|c r]; [reflexivity|]. cbn [append take_digits].
    cbn [number_end] in Hr. apply andb_prop in Hr as [Hc _].
    apply negb_true_iff in Hc. rewrite Hc. reflexivity.
  - cbn [all_digits] in Hd. apply andb_prop in Hd as [Hc Hds].
    cbn [append take_digits]. rewrite Hc, (IH Hds). reflexivity.
Qed.

Lemma uint_all_digits d : all_digits (NilEmpty.string_of_uint d) = true.
Proof. induction d; cbn; auto. Qed.

Lemma string_of_Z_shape z :
  exists ds,
    all_digits ds = true /\ ds <> EmptyString /\
    (string_of_Z z = ds \/ string_of_Z z = String "-" ds).
Proof.
  unfold string_of_Z, NilZero.string_of_int.
  assert (H : forall d, d <> Decimal.Nil ->
              all_digits (NilZero.string_of_uint d) = true /\
              NilZero.string_of_uint d <> EmptyString).
  { intros d Hd. unfold NilZero.string_of_uint.
    destruct d; try contradiction;
      (split; [apply (uint_all_digits (_ d))|cbn; discriminate]). }
  destruct z as [|p|p]; cbn [Z.to_int].
  - exists "0". repeat split; [discriminate|left; reflexivity].
  - destruct (H (Pos.to_uint p) (Unsigned.to_uint_nonnil p)) as [H1 H2].
    eexists. split; [exact H1|]. split; [exact H2|]. left. reflexivity.
  - destruct (H (Pos.to_uint p) (Unsigned.to_uint_nonnil p)) as [H1 H2].
    eexists. split; [exact H1|]. split; [exact H2|]. right. reflexivity.
Qed.

Lemma number_token_string_of_Z z rest :
  number_end rest = true ->
  number_token (string_of_Z z ++ rest) = (string_of_Z z, rest).
Proof.
  intro Hr. destruct (string_of_Z_shape z) as (ds & Hd & Hne & [E|E]);
    rewrite E.
  - destruct ds as [|c ds]; [contradiction|].
    cbn [append number_token].
    destruct (Ascii.eqb_spec c "-"%char) as [->|_].
    + cbn in Hd. discriminate.
    + exact (take_digits_all (String c ds) rest Hd Hr).
  - cbn [append number_token]. rewrite Ascii.eqb_refl.
    rewrite (take_digits_all ds rest Hd Hr). reflexivity.
Qed.

Lemma int_of_string_of_Z z :
  NilZero.int_of_string (string_of_Z z) = Some (Z.to_int z).
Proof.
  unfold string_of_Z. apply NilZero.isi.
  - destruct z as [|p|p]; cbn; try discriminate.
    intro H. injection H as H. exact (Unsigned.to_uint_nonnil p H).
  - destruct z as [|p|p]; cbn; try discriminate.
    intro H. injection H as H. exact (Unsigned.to_uint_nonnil p H).
Qed.

Lemma parse_number_string_of_Z z rest :
  number_end rest = true ->
  parse_number (string_of_Z z ++ rest) = Some (z, rest).
Proof.
  intro Hr. unfold parse_number.
  rewrite (number_token_string_of_Z z rest Hr), int_of_string_of_Z.
  rewrite DecimalZ.of_to, String.eqb_refl. cbn [orb andb].
  assert (F : starts_fraction rest = false).
  { destruct rest as [|c r]; [reflexivity|].
    cbn [number_end] in Hr. apply andb_prop in Hr as [_ Hf].
    apply negb_true_iff in Hf. exact Hf. }
  rewrite F. reflexivity.
Qed.

Lemma parse_chars_escape_char c r :
  parse_chars (escape_char c ++ r) =
  match parse_chars r with
  | Some (chars, after) => Some (String c chars, after)
  | None => None
  end.
Proof.
  destruct c as [[|] [|] [|] [|] [|] [|] [|] [|]]; reflexivity.
Qed.

Lemma parse_chars_escape s rest :
  parse_chars (escape s ++ String dquote rest) = Some (s, rest).
Proof.
  induction s as [|c s IH].
  - cbn. reflexivity.
  - cbn [escape]. rewrite append_assoc, parse_chars_escape_char, IH.
    reflexivity.
Qed.

Lemma Value_induction (P : Value -> Prop) :
  P VUndefined -> P VNull -> (forall b, P (VBool b)) ->
  (forall z, P (VNumber z)) -> (forall s, P (VString s)) ->
  (forall iso display, P (VDate iso display)) ->
  (forall items, Forall P items -> P (VArray items)) ->
  (forall props, Forall (fun kx => P (snd kx)) props -> P (VObject props)) ->
  forall v, P v.
Proof.
  intros Hu Hn Hb Hz Hs Hd Ha Ho.
  fix IH 1. intros [ | |b|z|s|iso display|items|props].
  - exact Hu.
  - exact Hn.
  - apply Hb.
  - apply Hz.
  - apply Hs.
  - apply Hd.
  - apply Ha. induction items as [|x xs IHxs]; constructor;
      [apply IH|exact IHxs].
  - apply Ho. induction props as [|[k x] ps IHps]; constructor;
      [apply IH|exact IHps].
Qed.

Lemma skip_space_spaces w s :
  spaces_only w = true -> skip_space (w ++ s) = skip_space s.
Proof.
  induction w as [|c w IH]; [reflexivity|].
  cbn [spaces_only append skip_space]. intro H.
  apply andb_prop in H as [Hc Hw]. rewrite Hc. exact (IH Hw).
Qed.

Lemma skip_space_head t :
  value_head t = true -> skip_space t = t.
Proof.
  destruct t as [|c t]; [reflexivity|]. cbn [value_head skip_space].
  destruct (is_json_space c); [discriminate|reflexivity].
Qed.

Lemma parse_value_spaces fuel w s :
  spaces_only w = true -> parse_value fuel (w ++ s) = parse_value fuel s.
Proof.
  intro H. destruct fuel as [|fuel]; [reflexivity|].
  cbn [parse_value]. rewrite (skip_space_spaces w s H). reflexivity.
Qed.

Lemma parse_members_spaces fuel w s :
  spaces_only w = true -> parse_members fuel (w ++ s) = parse_members fuel s.
Proof.
  intro H. destruct fuel as [|fuel]; [reflexivity|].
  cbn [parse_members]. rewrite (skip_space_spaces w s H). reflexivity.
Qed.

Lemma stringify_None ind v : stringify ind v = None -> v = VUndefined.
Proof.
  destruct v as [ | |b|z|s|iso display|items|props]; cbn [stringify];
    try discriminate; [reflexivity| |].
  - destruct items; discriminate.
  - destruct (flat_map _ props); discriminate.
Qed.

Lemma number_start_dispatch c :
  is_number_start c = true ->
  is_json_space c = false /\
  Ascii.eqb c "n"%char = false /\ Ascii.eqb c "t"%char = false /\
  Ascii.eqb c "f"%char = false /\ Ascii.eqb c dquote = false /\
  Ascii.eqb c "["%char = false /\ Ascii.eqb c "{"%char = false /\
  Ascii.eqb c "]"%char = false /\ Ascii.eqb c "}"%char = false.
Proof.
  destruct c as [[|] [|] [|] [|] [|] [|] [|] [|]]; cbn; intro H;
    try discriminate H; repeat split.
Qed.

Lemma string_of_Z_head z :
  exists c t, string_of_Z z = String c t /\ is_number_start c = true.
Proof.
  destruct (string_of_Z_shape z) as (ds & Hd & Hne & [E|E]); rewrite E.
  - destruct ds as [|c ds]; [contradiction|]. exists c, ds.
    split; [reflexivity|]. cbn [all_digits] in Hd.
    apply andb_prop in Hd as [Hc _]. unfold is_number_start. rewrite Hc.
    reflexivity.
  - exists "-"%char, ds. split; reflexivity.
Qed.

Lemma stringify_head ind v t : stringify ind v = Some t -> value_head t = true.
Proof.
  destruct v as [ | |b|z|s|iso display|items|props]; cbn [stringify];
    intro H.
  - discriminate H.
  - injection H as <-. reflexivity.
  - injection H as <-. destruct b; reflexivity.
  - injection H as <-.
    destruct (string_of_Z_head z) as (c & t & E & Hc). rewrite E.
    destruct (number_start_dispatch c Hc)
      as (H1 & _ & _ & _ & _ & _ & _ & H2 & H3).
    cbn [value_head]. rewrite H1, H2, H3. reflexivity.
  - injection H as <-. reflexivity.
  - injection H as <-. reflexivity.
  - destruct items; injection H as <-; reflexivity.
  - destruct (flat_map _ props); injection H as <-; reflexivity.
Qed.

Lemma or_null_head ind v : value_head (or_null (stringify ind v)) = true.
Proof.
  destruct (stringify ind v) as [t|] eqn:E; [|reflexivity].
  exact (stringify_head ind v t E).
Qed.

Lemma parse_value_number fuel z rest :
  number_end rest = true ->
  parse_value (S fuel) (string_of_Z z ++ rest) = Some (VNumber z, rest).
Proof.
  intro Hr. pose proof (parse_number_string_of_Z z rest Hr) as Hp.
  destruct (string_of_Z_head z) as (c & t & E & Hc). rewrite E in *.
  destruct (number_start_dispatch c Hc)
    as (H0 & H1 & H2 & H3 & H4 & H5 & H6 & _).
  cbn [parse_value append skip_space]. rewrite H0, H1, H2, H3, H4, H5, H6.
  cbn [append] in Hp. rewrite Hp. reflexivity.
Qed.

Lemma parse_value_quote fuel s rest :
  parse_value (S fuel) (quote s ++ rest) = Some (VString s, rest).
Proof.
  unfold quote. cbn [append parse_value skip_space].
  change (is_json_space dquote) with false. cbv iota.
  change (Ascii.eqb dquote "n"%char) with false.
  change (Ascii.eqb dquote "t"%char) with false.
  change (Ascii.eqb dquote "f"%char) with false.
  rewrite Ascii.eqb_refl. cbv iota.
  rewrite append_assoc. cbn [append]. rewrite parse_chars_escape.
  reflexivity.
Qed.

Lemma parse_value_null fuel rest :
  parse_value (S fuel) ("null" ++ rest) = Some (VNull, rest).
Proof. reflexivity. Qed.

Lemma join_cons sep m ms :
  join sep (m :: ms)
  = (m ++ match ms with [] => "" | _ => sep ++ join sep ms end)%string.
Proof.
  destruct ms as [|m' ms]; cbn [join]; [rewrite append_empty_r|]; reflexivity.
Qed.

Lemma number_end_newline s : number_end (newline ++ s) = true.
Proof. reflexivity. Qed.

Lemma number_end_comma s : number_end (String ","%char s) = true.
Proof. reflexivity. Qed.

(** The elements of a non-empty array, after the opening bracket. *)
Lemma parse_elements_block inner ind rest items :
  Forall round_trips items ->
  spaces_only inner = true -> spaces_only ind = true ->
  items <> [] ->
  forall fuel,
    String.length
      (join (separator inner)
            (map (fun x => or_null (stringify inner x)) items)) + 1 < fuel ->
    parse_elements fuel
      (newline ++ inner
         ++ join (separator inner)
              (map (fun x => or_null (stringify inner x)) items)
         ++ newline ++ ind ++ String "]" rest)
    = Some (map image_or_null items, rest).
Proof.
  intros Hall Hinner Hind.
  induction Hall as [|x xs Hx Hxs IH]; intros Hne fuel Hfuel;
    [contradiction|].
  destruct fuel as [|fuel]; [lia|].
  cbn [map] in *. rewrite join_cons in *. rewrite length_append in Hfuel.
  cbn [parse_elements].
  assert (Hws : spaces_only (newline ++ inner) = true) by exact Hinner.
  rewrite <- (append_assoc newline inner).
  rewrite (parse_value_spaces fuel (newline ++ inner)%string _ Hws).
  rewrite append_assoc.
  set (tail := (match map (fun x0 => or_null (stringify inner x0)) xs with
                | [] => ""
                | _ :: _ => separator inner ++ join (separator inner)
                     (map (fun x0 => or_null (stringify inner x0)) xs)
                end ++ newline ++ ind ++ String "]" rest)%string).
  assert (Htail : number_end tail = true).
  { subst tail. destruct (map _ xs); reflexivity. }
  assert (Hparse : parse_value fuel (or_null (stringify inner x) ++ tail)
                   = Some (image_or_null x, tail)).
  { destruct (stringify inner x) as [t|] eqn:E.
    - cbn [or_null] in *. apply (Hx inner t tail fuel E Hinner); [lia|exact Htail].
    - apply stringify_None in E. subst x. cbn [or_null] in *.
      destruct fuel as [|fuel]; [cbn in Hfuel; lia|]. reflexivity. }
  rewrite Hparse. subst tail.
  destruct xs as [|x' xs'].
  - cbn [map append].
    rewrite <- (append_assoc newline ind).
    rewrite (skip_space_spaces (newline ++ ind)%string _ Hind).
    reflexivity.
  - set (ms := map (fun x0 => or_null (stringify inner x0)) (x' :: xs')) in *.
    assert (Hms : exists m0 ms0, ms = m0 :: ms0) by (cbn; eauto).
    destruct Hms as (m0 & ms0 & Hms). rewrite Hms. rewrite <- Hms.
    unfold separator at 1. rewrite !append_assoc. cbn [append skip_space].
    change (is_json_space ","%char) with false. cbv iota.
    rewrite Ascii.eqb_refl.
    rewrite Hms in Hfuel. rewrite <- Hms in Hfuel.
    rewrite length_append in Hfuel. unfold separator at 1 in Hfuel.
    cbn [append String.length] in Hfuel.
    specialize (IH ltac:(discriminate) fuel).
    cbn [map] in IH. fold ms in IH.
    rewrite IH; [reflexivity|]. rewrite length_append in Hfuel.
    cbn [String.length newline] in Hfuel. lia.
Qed.

Lemma members_empty inner props :
  members inner props = [] -> image_props props = [].
Proof.
  unfold members, image_props.
  induction props as [|[k x] ps IH]; [reflexivity|].
  cbn [flat_map fst snd].
  destruct (stringify inner x) as [t|] eqn:E.
  - discriminate.
  - apply stringify_None in E. subst x. cbn [json_image app]. exact IH.
Qed.

Lemma json_image_Some ind v t :
  stringify ind v = Some t -> json_image v = Some (image_or_null v).
Proof.
  unfold image_or_null.
  destruct v; cbn [stringify json_image]; try discriminate; reflexivity.
Qed.

(** The members of a non-empty object, after the opening brace. *)
Lemma parse_members_block inner ind rest props :
  Forall (fun kx => round_trips (snd kx)) props ->
  spaces_only inner = true -> spaces_only ind = true ->
  members inner props <> [] ->
  forall fuel,
    String.length (join (separator inner) (members inner props)) + 1 < fuel ->
    parse_members fuel
      (newline ++ inner ++ join (separator inner) (members inner props)
         ++ newline ++ ind ++ String "}" rest)
    = Some (image_props props, rest).
Proof.
  intros Hall Hinner Hind.
  induction Hall as [|[k x] ps Hx Hps IH]; intros Hne fuel Hfuel;
    [contradiction|].
  cbn [snd] in Hx.
  unfold members, image_props in *. cbn [flat_map fst snd] in *.
  destruct (stringify inner x) as [t|] eqn:E.
  2:{ apply stringify_None in E. subst x. cbn [json_image app] in *.
      exact (IH Hne fuel Hfuel). }
  rewrite (json_image_Some inner x t E).
  fold (members inner ps) in *. fold (image_props ps) in *.
  cbn [app] in *. rewrite join_cons in *.
  destruct fuel as [|fuel]; [lia|].
  assert (Hws : spaces_only (newline ++ inner) = true) by exact Hinner.
  rewrite <- (append_assoc newline inner).
  rewrite (parse_members_spaces (S fuel) (newline ++ inner)%string _ Hws).
  set (tail := (match members inner ps with
                | [] => ""
                | _ :: _ => separator inner
                            ++ join (separator inner) (members inner ps)
                end ++ newline ++ ind ++ String "}" rest)%string).
  assert (Htail : number_end tail = true).
  { subst tail. destruct (members inner ps); reflexivity. }
  rewrite !length_append in Hfuel.
  assert (Htext :
    (((quote k ++ ": " ++ t)
        ++ match members inner ps with
           | [] => ""
           | _ :: _ => separator inner
                       ++ join (separator inner) (members inner ps)
           end) ++ newline ++ ind ++ String "}" rest
     = String dquote
         (escape k ++ String dquote (String ":" (String " " (t ++ tail)))))%string).
  { subst tail. unfold quote. rewrite !append_assoc. cbn [append].
    rewrite !append_assoc. reflexivity. }
  rewrite Htext. clear Htext.
  cbn [parse_members skip_space].
  change (is_json_space dquote) with false. cbv iota.
  rewrite Ascii.eqb_refl. rewrite parse_chars_escape.
  cbn [skip_space]. change (is_json_space ":"%char) with false. cbv iota.
  rewrite Ascii.eqb_refl.
  change (String " " (t ++ tail)) with (" " ++ (t ++ tail))%string.
  rewrite (parse_value_spaces fuel " " _ eq_refl).
  rewrite (Hx inner t tail fuel E Hinner ltac:(lia) Htail).
  subst tail.
  destruct (members inner ps) as [|m0 ms0] eqn:Hms.
  - rewrite (members_empty inner ps Hms). cbn [append].
    rewrite <- (append_assoc newline ind).
    rewrite (skip_space_spaces (newline ++ ind)%string _ Hind).
    reflexivity.
  - unfold separator at 1. rewrite !append_assoc. cbn [append skip_space].
    change (is_json_space ","%char) with false. cbv iota.
    rewrite Ascii.eqb_refl.
    rewrite length_append in Hfuel. unfold separator at 1 in Hfuel.
    rewrite length_append in Hfuel.
    cbn [append String.length newline] in Hfuel.
    rewrite (IH ltac:(discriminate) fuel); [reflexivity|]. lia.
Qed.

Lemma spaces_only_indent ind : spaces_only ind = true -> spaces_only (ind ++ "  ") = true.
Proof.
  induction ind as [|c ind IH]; [reflexivity|].
  cbn [spaces_only append]. intro H. apply andb_prop in H as [Hc Hi].
  rewrite Hc, (IH Hi). reflexivity.
Qed.

Lemma block_text opening closing ind ms rest :
  (block opening closing ind ms ++ rest
   = opening ++ newline ++ (ind ++ "  ")
       ++ join (separator (ind ++ "  ")) ms
       ++ newline ++ ind ++ closing ++ rest)%string.
Proof. unfold block, separator. rewrite !append_assoc. reflexivity. Qed.

Lemma block_length opening closing ind ms :
  String.length (join (separator (ind ++ "  ")) ms) + String.length opening
  < String.length (block opening closing ind ms).
Proof.
  unfold block, separator. rewrite !length_append. cbn [String.length newline].
  lia.
Qed.

Lemma value_head_append t s : value_head t = true -> value_head (t ++ s) = true.
Proof. destruct t as [|c t]; [discriminate|]. intro H. exact H. Qed.

Lemma value_head_split t :
  value_head t = true ->
  exists c r, t = String c r /\ is_json_space c = false /\
              Ascii.eqb c "]"%char = false /\ Ascii.eqb c "}"%char = false.
Proof.
  destruct t as [|c r]; [discriminate|]. cbn [value_head]. intro H.
  exists c, r. split; [reflexivity|].
  destruct (is_json_space c), (Ascii.eqb c "]"), (Ascii.eqb c "}");
    try discriminate H. repeat split.
Qed.

Lemma parse_value_array fuel ind rest items :
  Forall round_trips items ->
  spaces_only ind = true ->
  items <> [] ->
  String.length
    (block "[" "]" ind
       (map (fun x => or_null (stringify (ind ++ "  ") x)) items)) < S fuel ->
  parse_value (S fuel)
    (block "[" "]" ind
       (map (fun x => or_null (stringify (ind ++ "  ") x)) items) ++ rest)
  = Some (VArray (map image_or_null items), rest).
Proof.
  intros Hall Hind Hne Hfuel.
  pose proof (spaces_only_indent ind Hind) as Hinner.
  pose proof (parse_elements_block (ind ++ "  ") ind rest items Hall Hinner
                Hind Hne fuel) as Hp.
  pose proof (block_length "[" "]" ind
                (map (fun x => or_null (stringify (ind ++ "  ") x)) items))
    as Hlen.
  cbn [String.length] in Hlen.
  rewrite block_text.
  assert (Hhead : value_head
            (join (separator (ind ++ "  "))
               (map (fun x => or_null (stringify (ind ++ "  ") x)) items)
             ++ newline ++ ind ++ "]" ++ rest) = true).
  { apply value_head_append.
    destruct items as [|x xs]; [contradiction|]. cbn [map].
    rewrite join_cons. apply value_head_append, or_null_head. }
  remember (map (fun x => or_null (stringify (ind ++ "  ") x)) items) as ms.
  remember (join (separator (ind ++ "  ")) ms ++ newline ++ ind ++ "]" ++ rest)%string
    as body.
  change (join (separator (ind ++ "  ")) ms ++ newline ++ ind ++ String "]" rest)%string
    with (join (separator (ind ++ "  ")) ms ++ newline ++ ind ++ "]" ++ rest)%string in Hp.
  rewrite <- Heqbody in Hp.
  cbn [append parse_value skip_space].
  change (is_json_space "["%char) with false. cbv iota.
  change (Ascii.eqb "[" "n") with false.
  change (Ascii.eqb "[" "t") with false.
  change (Ascii.eqb "[" "f") with false.
  change (Ascii.eqb "[" dquote) with false.
  rewrite Ascii.eqb_refl. cbv iota zeta.
  rewrite Hp by lia.
  rewrite <- (append_assoc newline (ind ++ "  ")).
  rewrite (skip_space_spaces (newline ++ (ind ++ "  "))%string _ Hinner).
  rewrite (skip_space_head body Hhead).
  destruct (value_head_split body Hhead) as (c & r & -> & _ & Hc & _).
  rewrite Hc. reflexivity.
Qed.

Lemma members_head inner props m ms :
  members inner props = m :: ms -> value_head m = true.
Proof.
  unfold members. induction props as [|[k x] ps IH]; [discriminate|].
  cbn [flat_map fst snd]. destruct (stringify inner x); [|exact IH].
  intro H. injection H as <- _. reflexivity.
Qed.

Lemma parse_value_object fuel ind rest props :
  Forall (fun kx => round_trips (snd kx)) props ->
  spaces_only ind = true ->
  members (ind ++ "  ") props <> [] ->
  String.length (block "{" "}" ind (members (ind ++ "  ") props)) < S fuel ->
  parse_value (S fuel)
    (block "{" "}" ind (members (ind ++ "  ") props) ++ rest)
  = Some (VObject (image_props props), rest).
Proof.
  intros Hall Hind Hne Hfuel.
  pose proof (spaces_only_indent ind Hind) as Hinner.
  pose proof (parse_members_block (ind ++ "  ") ind rest props Hall Hinner
                Hind Hne fuel) as Hp.
  pose proof (block_length "{" "}" ind (members (ind ++ "  ") props)) as Hlen.
  cbn [String.length] in Hlen.
  rewrite block_text.
  assert (Hhead : value_head
            (join (separator (ind ++ "  ")) (members (ind ++ "  ") props)
             ++ newline ++ ind ++ "}" ++ rest) = true).
  { apply value_head_append.
    destruct (members (ind ++ "  ") props) as [|m ms] eqn:Hm;
      [contradiction|].
    rewrite join_cons. apply value_head_append.
    exact (members_head _ _ _ _ Hm). }
  remember (members (ind ++ "  ") props) as ms.
  remember (join (separator (ind ++ "  ")) ms ++ newline ++ ind ++ "}" ++ rest)%string
    as body.
  change (join (separator (ind ++ "  ")) ms ++ newline ++ ind ++ String "}" rest)%string
    with (join (separator (ind ++ "  ")) ms ++ newline ++ ind ++ "}" ++ rest)%string in Hp.
  rewrite <- Heqbody in Hp.
  cbn [append parse_value skip_space].
  change (is_json_space "{"%char) with false. cbv iota.
  change (Ascii.eqb "{" "n") with false.
  change (Ascii.eqb "{" "t") with false.
  change (Ascii.eqb "{" "f") with false.
  change (Ascii.eqb "{" dquote) with false.
  change (Ascii.eqb "{" "[") with false.
  rewrite Ascii.eqb_refl. cbv iota zeta.
  rewrite Hp by lia.
  rewrite <- (append_assoc newline (ind ++ "  ")).
  rewrite (skip_space_spaces (newline ++ (ind ++ "  "))%string _ Hinner).
  rewrite (skip_space_head body Hhead).
  destruct (value_head_split body Hhead) as (c & r & -> & _ & _ & Hc).
  rewrite Hc. reflexivity.
Qed.

Theorem stringify_round_trips v : round_trips v.
Proof.
  induction v as [ | |b|z|s|iso display|items IH|props IH]
    using Value_induction;
    intros ind t rest fuel Hs Hind Hfuel Hrest; cbn [stringify] in Hs.
  - discriminate Hs.
  - injection Hs as <-. destruct fuel; [lia|]. reflexivity.
  - injection Hs as <-. destruct fuel; [lia|]. destruct b; reflexivity.
  - injection Hs as <-. destruct fuel; [lia|].
    exact (parse_value_number fuel z rest Hrest).
  - injection Hs as <-. destruct fuel; [lia|].
    exact (parse_value_quote fuel s rest).
  - injection Hs as <-. destruct fuel; [lia|].
    exact (parse_value_quote fuel iso rest).
  - destruct items as [|x xs].
    + injection Hs as <-. destruct fuel; [lia|]. reflexivity.
    + injection Hs as <-. destruct fuel as [|fuel]; [lia|].
      exact (parse_value_array fuel ind rest (x :: xs) IH Hind
               ltac:(discriminate) Hfuel).
  - fold (members (ind ++ "  ") props) in Hs.
    destruct (members (ind ++ "  ") props) as [|m ms] eqn:Hm.
    + injection Hs as <-. destruct fuel; [lia|].
      unfold image_or_null. cbn [json_image].
      fold (image_props props).
      rewrite (members_empty _ props Hm). reflexivity.
    + injection Hs as <-. destruct fuel as [|fuel]; [lia|].
      rewrite <- Hm in *.
      exact (parse_value_object fuel ind rest props IH Hind
               ltac:(rewrite Hm; discriminate) Hfuel).
Qed.

Lemma JSON_parse_stringify v t :
  JSON_stringify v = Some t -> JSON_parse t = Ok (image_or_null v).
Proof.
  intro H. unfold JSON_parse.
  pose proof (stringify_round_trips v EmptyString t EmptyString
                (S (String.length t)) H eq_refl (Nat.lt_succ_diag_r _) eq_refl)
    as Hp.
  rewrite append_empty_r in Hp. rewrite Hp. reflexivity.
Qed.

Lemma is_json_image v : is_json v = true -> json_image v = Some v.
Proof.
  induction v as [ | |b|z|s|iso display|items IH|props IH]
    using Value_induction; cbn [is_json json_image]; intro H;
    try discriminate H; try reflexivity.
  - do 2 f_equal. induction IH as [|x xs Hx _ IHxs]; [reflexivity|].
    cbn [forallb] in H. apply andb_prop in H as [H1 H2].
    cbn [map]. rewrite (Hx H1), (IHxs H2). reflexivity.
  - do 2 f_equal. induction IH as [|[k x] ps Hx _ IHps]; [reflexivity|].
    cbn [forallb snd] in H. apply andb_prop in H as [H1 H2].
    cbn [flat_map fst snd] in *. rewrite (Hx H1), (IHps H2). reflexivity.
Qed.


Lemma stringify_object ind props :
  stringify ind (VObject props)
  = Some (match members (ind ++ "  ") props with
          | [] => "{}"
          | ms => block "{" "}" ind ms
          end).
Proof.
  cbn [stringify]. fold (members (ind ++ "  ") props).
  destruct (members (ind ++ "  ") props); reflexivity.
Qed.

Lemma lookup_report_content meta data now :
  let parsed := image_props [("metadata", meta); ("data", data);
                             ("generatedAt", VString now)] in
  lookup "metadata" parsed = json_image meta /\
  lookup "data" parsed = json_image data /\
  lookup "generatedAt" parsed = Some (VString now).
Proof.
  unfold image_props. cbn [flat_map fst snd].
  destruct (json_image meta), (json_image data); cbn; repeat split.
Qed.




(** * Further properties of the file processor *)

(** ** The checksum *)

Lemma join_empty_cons x l : join "" (x :: l) = (x ++ join "" l)%string.
Proof.
  destruct l as [|y l]; cbn [join].
  - symmetry. apply append_empty_r.
  - reflexivity.
Qed.

Lemma hex_digit_value n :
  (n < 16)%N ->
  is_hex_digit (hex_digit n) = true /\
  hex_value (hex_digit n) = Some (N.to_nat n).
Proof.
  intro H.
  assert (K : exists k, k < 16 /\ n = N.of_nat k).
  { exists (N.to_nat n). split; [lia|]. rewrite N2Nat.id. reflexivity. }
  destruct K as (k & Hk & ->).
  do 16 (destruct k as [|k]; [split; reflexivity|]). lia.
Qed.

Lemma hex_byte_value b r :
  (b < 256)%N ->
  all_hex (hex_byte b ++ r) = all_hex r /\
  unhex (hex_byte b ++ r) = option_map (cons b) (unhex r) /\
  String.length (hex_byte b ++ r) = 2 + String.length r.
Proof.
  intro H. unfold hex_byte. cbn [append all_hex unhex String.length].
  assert (H1 : (b / 16 < 16)%N) by (apply N.Div0.div_lt_upper_bound; lia).
  assert (H2 : (b mod 16 < 16)%N) by (apply N.mod_lt; lia).
  destruct (hex_digit_value _ H1) as (A1 & V1).
  destruct (hex_digit_value _ H2) as (A2 & V2).
  rewrite A1, A2, V1, V2. cbn [andb].
  split; [reflexivity|]. split; [|reflexivity].
  assert (E : N.of_nat (16 * N.to_nat (b / 16) + N.to_nat (b mod 16)) = b).
  { rewrite (N.div_mod b 16) at 3 by lia. lia. }
  rewrite E. destruct (unhex r); reflexivity.
Qed.

Lemma hex_text bytes :
  Forall (fun b => (b < 256)%N) bytes ->
  String.length (join "" (map hex_byte bytes)) = 2 * List.length bytes /\
  all_hex (join "" (map hex_byte bytes)) = true /\
  unhex (join "" (map hex_byte bytes)) = Some bytes.
Proof.
  induction 1 as [|b rest Hb _ IH]; [repeat split; reflexivity|].
  destruct IH as (L & A & U).
  cbn [map]. rewrite join_empty_cons.
  destruct (hex_byte_value b (join "" (map hex_byte rest)) Hb) as (A1 & U1 & L1).
  rewrite A1, U1, L1, A, U, L. cbn [List.length option_map].
  repeat split; try reflexivity. lia.
Qed.

(** X1.  [calculateChecksum] writes the digest in hexadecimal, two digits
    a byte: for a digest of bytes the text has twice as many digits as the
    digest has bytes, all of them among [0-9] and [a-f], and reading the
    digits back two by two gives the bytes of the digest.  When the digest
    is rejected, [calculateChecksum] throws what it was rejected with. *)
Theorem X1_calculateChecksum_hex host text st :
  (forall bytes,
      sha256 host text = Ok bytes ->
      Forall (fun b => (b < 256)%N) bytes ->
      exists digest,
        calculateChecksum host text st = (Ok digest, st) /\
        String.length digest = 2 * List.length bytes /\
        all_hex digest = true /\
        unhex digest = Some bytes) /\
  (forall e,
      sha256 host text = Throw e ->
      calculateChecksum host text st = (Throw e, st)).
Proof.
  split.
  - intros bytes D B. exists (join "" (map hex_byte bytes)).
    unfold calculateChecksum, bind, lift. rewrite D.
    split; [reflexivity|]. apply hex_text, B.
  - intros e D. unfold calculateChecksum, bind, lift. rewrite D. reflexivity.
Qed.

(** A digest of four bytes gives eight digits that read back as the four bytes. *)
Lemma X1_calculateChecksum_hex_witness :
  exists digest,
    calculateChecksum (digest_host sample_digest) "hello world" initial
      = (Ok digest, initial) /\
    String.length digest = 8 /\
    unhex digest = Some sample_digest.
Proof.
  destruct (proj1 (X1_calculateChecksum_hex (digest_host sample_digest)
                     "hello world" initial) sample_digest eq_refl)
    as (digest & E & L & _ & U).
  { unfold sample_digest. repeat constructor. }
  exists digest. split; [exact E|]. split; [exact L|exact U].
Defined.

(** ** The end of a run of [processFile] *)

Lemma outcome_progress_calls popts events :
  filter is_outcome (flat_map (progress_calls popts) events) = [].
Proof.
  induction events as [|ev rest IH]; [reflexivity|].
  cbn [flat_map]. rewrite filter_app, IH, app_nil_r.
  unfold progress_calls.
  destruct (lengthComputable ev); [destruct (onProgress popts)|]; reflexivity.
Qed.

Ltac outline_leaf :=
  hook_cbn; eexists;
  rewrite ?filter_app, ?outcome_progress_calls; hook_cbn;
  repeat split; reflexivity.

Lemma processFile_outline options host f st :
  exists st',
    processFile options host f st =
      (Ok (result_of (verdict options host f)), st') /\
    outcome_calls (events_of options host f) =
      match verdict options host f with
      | Processed pf => if onSuccess options then [OnSuccess pf] else []
      | Invalid msg =>
          if onError options then [OnError (validation_error f msg)] else []
      | Failed e =>
          if onError options then [OnError (processing_error f e)] else []
      end /\
    match verdict options host f with
    | Processed _ => progress st' = Num 100
    | Invalid _ => progress st' = Num 0
    | Failed _ => True
    end.
Proof.
  unfold outcome_calls, events_of, verdict, processFile, processFile_try,
    readContent, suspended, abortProcessing, signal_aborted,
    calculateChecksum, getAbortControllerRef.
  unfold try_finally, try_catch, bind.
  cbn [setIsProcessing setProgress setError setAbortControllerRef ret fst snd].
  rewrite !validateFile_first_objection.
  destruct (first_objection (validationOptions options) f rule_order)
    as [[r msg]|].
  - unfold report_error.
    destruct (abortDuring host f AtValidation), (onError options);
      outline_leaf.
  - destruct (readAsText host f (optEncoding (processingOptions options)))
      as [events result].
    cbn [snd].
    destruct (abortDuring host f AtValidation);
      hook_cbn;
      rewrite !forEach_onprogress;
      rewrite !(after_progress_eq _ events);
      hook_cbn;
      destruct (abortDuring host f AtRead), result as [text|];
      hook_cbn;
      try (destruct (onError options); outline_leaf);
      destruct (truthy_bool (calculateChecksumFlag (processingOptions options)));
      hook_cbn;
      try (destruct (sha256 host text) as [bytes|e];
           hook_cbn;
           try destruct (abortDuring host f AtChecksum);
           hook_cbn);
      destruct (onError options), (onSuccess options); outline_leaf.
Qed.


(** X5.  [processFile] leaves the progress at 100 when it returns an
    entry, also when the user aborted while the digest was computed, and at
    0 when the file fails validation. *)
Theorem X5_processFile_progress options host f st :
  exists r st',
    processFile options host f st = (Ok r, st') /\
    (r <> None -> progress st' = Num 100) /\
    (fst (validateFile options f st) = Ok false -> progress st' = Num 0).
Proof.
  destruct (processFile_outline options host f st) as (st' & E & _ & Hp).
  exists (result_of (verdict options host f)), st'.
  split; [exact E|]. split.
  - intro Hr. destruct (verdict options host f); cbn [result_of] in Hr;
      try (exfalso; apply Hr; reflexivity). exact Hp.
  - rewrite validateFile_first_objection. revert Hp. unfold verdict.
    destruct (first_objection (validationOptions options) f rule_order)
      as [[r msg]|]; [intros Hp _; exact Hp|discriminate].
Qed.


(** The file [setup.exe] fails validation: the progress stays at 0. *)
Lemma X5_processFile_progress_witness :
  exists st',
    processFile default_options sample_host setup_exe initial
      = (Ok None, st') /\
    progress st' = Num 0.
Proof.
  destruct (X5_processFile_progress default_options sample_host setup_exe
              initial) as (r & st' & E & _ & P).
  assert (R : r = None).
  { assert (K : fst (processFile default_options sample_host setup_exe
                       initial) = Ok r) by (rewrite E; reflexivity).
    vm_compute in K. injection K as <-. reflexivity. }
  subst r. exists st'. split; [exact E|]. apply P. vm_compute. reflexivity.
Defined.

(** ** Aborting *)

Lemma late_abort_same_cells options host f st :
  abortDuring host f AtValidation = false ->
  abortDuring host f AtRead = false ->
  fst (processFile options host f st)
    = fst (processFile options (without_abort host) f st) /\
  same_cells (snd (processFile options host f st))
             (snd (processFile options (without_abort host) f st)).
Proof.
  intros Hv Hr.
  unfold same_cells, without_abort, processFile, processFile_try,
    readContent, suspended, abortProcessing, signal_aborted,
    calculateChecksum, getAbortControllerRef.
  unfold try_finally, try_catch, bind.
  cbn [setIsProcessing setProgress setError setAbortControllerRef ret fst snd
       readAsText abortDuring sha256].
  rewrite Hv, Hr.
  rewrite !validateFile_first_objection.
  destruct (first_objection (validationOptions options) f rule_order)
    as [[r msg]|].
  - unfold report_error. destruct (onError options); hook_cbn;
      repeat split; reflexivity.
  - destruct (readAsText host f (optEncoding (processingOptions options)))
      as [events [text|]];
      hook_cbn;
      rewrite !forEach_onprogress;
      rewrite !(after_progress_eq _ events);
      hook_cbn.
    + destruct (truthy_bool (calculateChecksumFlag (processingOptions options)));
        hook_cbn;
        [|destruct (onSuccess options); hook_cbn; repeat split; reflexivity].
      destruct (sha256 host text) as [bytes|e]; hook_cbn;
        [|destruct (onError options); hook_cbn; repeat split; reflexivity].
      destruct (abortDuring host f AtChecksum), (onSuccess options); hook_cbn;
        repeat split; reflexivity.
    + destruct (onError options); hook_cbn; repeat split; reflexivity.
Qed.

Lemma verdict_aborted options host f text :
  fst (validateFile options f initial) = Ok true ->
  snd (readAsText host f (optEncoding (processingOptions options)))
    = Some text ->
  abortDuring host f AtValidation || abortDuring host f AtRead = true ->
  verdict options host f = Failed (JsError "Operation was aborted").
Proof.
  rewrite validateFile_first_objection. unfold verdict.
  destruct (first_objection (validationOptions options) f rule_order)
    as [[r msg]|]; [discriminate|].
  intros _ -> ->. reflexivity.
Qed.



(** ** An abort within a batch *)

Lemma verdict_without_abort options host g :
  abortDuring host g AtValidation = false ->
  abortDuring host g AtRead = false ->
  verdict options host g = verdict options (without_abort host) g.
Proof.
  intros Hv Hr. unfold verdict, without_abort.
  cbn [readAsText abortDuring sha256]. rewrite Hv, Hr. reflexivity.
Qed.

Lemma batch_entries_without_abort options host files :
  (forall g p, In g files -> abortDuring host g p = false) ->
  batch_entries options host files
  = batch_entries options (without_abort host) files.
Proof.
  unfold batch_entries. induction files as [|g rest IH]; intro H.
  - reflexivity.
  - cbn [flat_map].
    rewrite (verdict_without_abort options host g)
      by (apply H; left; reflexivity).
    rewrite IH; [reflexivity|].
    intros h p Hh. apply H. right. exact Hh.
Qed.

Lemma processFiles_batch_entries options host files st :
  exists st',
    processFiles options host files st
      = (Ok (batch_entries options host files), st') /\
    processedFiles st' = processedFiles st ++ batch_entries options host files.
Proof.
  destruct (processFiles_loop_spec options host [] files
              (List.length files) [] st (le_n _)) as (st' & E & F & _).
  exists st'. split; [exact E|exact F].
Qed.



(** ** Between the calls; the end of a batch *)

Lemma processFiles_loop_end options host pre rest :
  forall steps results st,
    List.length rest <= steps ->
    exists r st',
      processFiles_loop options host (pre ++ rest) steps
        (List.length pre) results st = (r, st') /\
      match rev rest with
      | [] => st' = st
      | f :: _ =>
          isProcessing st' = false /\
          abortControllerRef st' = None /\
          error st' = error_of f (verdict options host f) /\
          progress st' =
            overall_progress (List.length (pre ++ rest) - 1)
                             (List.length (pre ++ rest))
      end.
Proof.
  revert pre.
  induction rest as [|f rest IH]; intros pre steps results st Hsteps.
  - cbn [rev]. exists (Ok results), st. split; [|reflexivity].
    destruct steps as [|steps]; [reflexivity|].
    cbn [processFiles_loop]. rewrite app_nil_r, Nat.ltb_irrefl. reflexivity.
  - destruct steps as [|steps]; [cbn in Hsteps; lia|].
    cbn [processFiles_loop].
    assert (Hlt : (List.length pre <? List.length (pre ++ f :: rest)) = true).
    { apply Nat.ltb_lt. rewrite length_app. cbn. lia. }
    rewrite Hlt.
    assert (Hnth : nth_error (pre ++ f :: rest) (List.length pre) = Some f).
    { rewrite nth_error_app2 by lia. rewrite Nat.sub_diag. reflexivity. }
    rewrite Hnth. unfold bind at 1.
    destruct (processFile_spec options host f st)
      as (st1 & E1 & I1 & R1 & He1 & _).
    rewrite E1. unfold bind at 1. unfold setProgress at 1.
    set (st2 := {| isProcessing := isProcessing st1;
                   progress := _; error := error st1;
                   processedFiles := processedFiles st1;
                   abortControllerRef := abortControllerRef st1;
                   log := _ |}).
    assert (Hpre : pre ++ f :: rest = (pre ++ [f]) ++ rest)
      by (rewrite <- app_assoc; reflexivity).
    assert (Hlen : List.length pre + 1 = List.length (pre ++ [f]))
      by (rewrite length_app; reflexivity).
    rewrite Hpre, Hlen.
    destruct (IH (pre ++ [f]) steps
                (match result_of (verdict options host f) with
                 | Some r => results ++ [r]
                 | None => results
                 end) st2) as (r & st' & E & H).
    { cbn in Hsteps. lia. }
    exists r, st'. split; [exact E|].
    change (rev (f :: rest)) with (rev rest ++ [f]).
    destruct rest as [|g rest'].
    + cbn [rev app] in H |- *. subst st'.
      subst st2. cbn [isProcessing abortControllerRef error progress].
      repeat split; try assumption.
      unfold overall_progress. rewrite app_nil_r, <- Hlen.
      replace (List.length pre + 1 - 1 + 1) with (List.length pre + 1) by lia.
      reflexivity.
    + destruct (rev (g :: rest')) as [|h t] eqn:Erev.
      { apply (f_equal (@List.length _)) in Erev.
        rewrite length_rev in Erev. discriminate Erev. }
      cbn [app]. exact H.
Qed.

Lemma processFiles_idle options host files st :
  isProcessing st = false -> abortControllerRef st = None ->
  isProcessing (snd (processFiles options host files st)) = false /\
  abortControllerRef (snd (processFiles options host files st)) = None.
Proof.
  intros Hi Hr.
  destruct (processFiles_loop_end options host [] files (List.length files)
              [] st (le_n _)) as (r & st' & E & H).
  cbn [app List.length] in E. unfold processFiles. rewrite E. cbn [snd].
  destruct (rev files) as [|f rest].
  - subst st'. split; assumption.
  - destruct H as (H1 & H2 & _). split; assumption.
Qed.

Lemma fp_step_idle options host st st' :
  fp_step options host st st' ->
  isProcessing st = false /\ abortControllerRef st = None ->
  isProcessing st' = false /\ abortControllerRef st' = None.
Proof.
  intros Hstep [Hi Hr]. destruct Hstep as [f st|files st|f st|st|st].
  - destruct (processFile_spec options host f st) as (st' & E & I & R & _).
    rewrite E. split; assumption.
  - apply processFiles_idle; assumption.
  - rewrite validateFile_first_objection.
    destruct (first_objection _ f rule_order) as [[r msg]|]; cbn;
      split; assumption.
  - unfold abortProcessing, bind, getAbortControllerRef. rewrite Hr.
    cbn. split; assumption.
  - cbn. split; assumption.
Qed.

(** X2.  Between two calls of the hook's functions no work is in progress:
    in every state the file processor can reach, [isProcessing] is [false]
    and there is no abort controller, so that [abortProcessing] changes
    nothing. *)
Theorem X2_idle_between_calls options host st :
  fp_reachable options host st ->
  isProcessing st = false /\
  abortControllerRef st = None /\
  abortProcessing st = (Ok tt, st).
Proof.
  intro H.
  assert (K : isProcessing st = false /\ abortControllerRef st = None).
  { induction H as [|st st' _ IH Hstep]; [split; reflexivity|].
    exact (fp_step_idle options host st st' Hstep IH). }
  destruct K as [Hi Hr]. split; [exact Hi|]. split; [exact Hr|].
  unfold abortProcessing, bind, getAbortControllerRef. rewrite Hr. reflexivity.
Qed.

(** After a batch of two files the processor is idle, and [abortProcessing] changes nothing. *)
Lemma X2_idle_between_calls_witness :
  let st := snd (processFiles default_options sample_host
                   [notes_txt; setup_exe] initial) in
  isProcessing st = false /\ abortProcessing st = (Ok tt, st).
Proof.
  intro st.
  destruct (X2_idle_between_calls default_options sample_host st)
    as (Hi & _ & Ha).
  - apply (fp_reach_step default_options sample_host initial).
    + apply fp_reach_initial.
    + apply step_processFiles.
  - split; [exact Hi|exact Ha].
Defined.



(** ** Looking up and clearing *)

Lemma find_app_name (l : list ProcessedFile) pf wanted :
  find (fun f => String.eqb (fileName f) wanted) (l ++ [pf]) =
  match find (fun f => String.eqb (fileName f) wanted) l with
  | Some old => Some old
  | None => if String.eqb (fileName pf) wanted then Some pf else None
  end.
Proof.
  induction l as [|x l IH]; cbn [app find].
  - reflexivity.
  - destruct (String.eqb (fileName x) wanted); [reflexivity|exact IH].
Qed.





(** ** The rules of validation, at their edges *)

(** X9.  With no validation options a file validates exactly when its
    size is from 1 to 10485760 bytes, its MIME type is one of the five
    default types and its extension is one of the seven default
    extensions.  So a PDF file, whose extension is allowed, fails on its
    MIME type. *)
Theorem X9_default_rules options f st :
  validation options = None ->
  (fst (validateFile options f st) = Ok true <->
   (1 <= size f <= 10485760)%N /\
   In (type f) default_types /\
   In (extension_of (name f)) default_extensions).
Proof.
  intro Hv. rewrite validateFile_first_objection.
  unfold validationOptions. rewrite Hv.
  unfold rule_order, DEFAULT_VALIDATION.
  cbn [first_objection rule_applies rule_objection maxSize minSize
       allowedTypes allowedExtensions customValidator truthy_number].
  change (negb (10 * 1024 * 1024 =? 0)%Z) with true.
  change (negb (1 =? 0)%Z) with true. cbv iota.
  unfold size_exceeds, size_below.
  fold default_types. fold default_extensions.
  rewrite <- !includes_In.
  destruct (Z.ltb_spec (10 * 1024 * 1024) (Z.of_N (size f))) as [H1|H1].
  { cbn [fst]. split; [discriminate|]. intros [[_ H] _]. lia. }
  destruct (Z.ltb_spec (Z.of_N (size f)) 1) as [H2|H2].
  { cbn [fst]. split; [discriminate|]. intros [[H _] _]. lia. }
  destruct (includes default_types (type f)).
  2:{ cbn [fst]. split; [discriminate|]. intros (_ & H & _). discriminate H. }
  destruct (includes default_extensions (extension_of (name f))).
  2:{ cbn [fst]. split; [discriminate|]. intros (_ & _ & H). discriminate H. }
  cbn [fst]. split; [|reflexivity]. intros _.
  split; [lia|]. split; reflexivity.
Qed.

(** The file [notes.txt] validates; [report.pdf], of type [application/pdf], does not. *)
Lemma X9_default_rules_witness :
  fst (validateFile default_options notes_txt initial) = Ok true /\
  fst (validateFile default_options report_pdf initial) = Ok false.
Proof.
  split.
  - apply (proj2 (X9_default_rules default_options notes_txt initial eq_refl)).
    split; [vm_compute; split; discriminate|].
    split; vm_compute; tauto.
  - destruct (fst (validateFile default_options report_pdf initial))
      as [[|]|e] eqn:E; [|reflexivity|vm_compute in E; discriminate E].
    apply (proj1 (X9_default_rules default_options report_pdf initial eq_refl))
      in E.
    destruct E as (_ & H & _). vm_compute in H.
    repeat (destruct H as [H|H]; [discriminate H|]). destruct H.
Defined.



Lemma lower_char_idempotent c : lower_char (lower_char c) = lower_char c.
Proof.
  destruct c as [[] [] [] [] [] [] [] []]; reflexivity.
Qed.

Lemma toLowerCase_idempotent s : toLowerCase (toLowerCase s) = toLowerCase s.
Proof.
  induction s as [|c r IH]; [reflexivity|].
  cbn [toLowerCase]. rewrite lower_char_idempotent, IH. reflexivity.
Qed.

Lemma split_char_nonempty sep s : split_char sep s <> [].
Proof.
  destruct s as [|c r]; cbn [split_char]; [discriminate|].
  destruct (Ascii.eqb c sep); [discriminate|].
  destruct (split_char sep r); discriminate.
Qed.

Lemma extension_of_lower file_name :
  exists piece,
    pop (split_char "."%char file_name) = Some piece /\
    extension_of file_name = ("." ++ toLowerCase piece)%string.
Proof.
  unfold extension_of, pop.
  destruct (rev (split_char "."%char file_name)) as [|x l] eqn:E.
  - exfalso. apply (split_char_nonempty "."%char file_name).
    apply (f_equal (@rev _)) in E. rewrite rev_involutive in E. exact E.
  - exists x. split; reflexivity.
Qed.

(** X11.  The extension of a name without ['.'] is ['.'] and the whole
    name in lower case; the extension of a name that ends in ['.'] is
    ['.']; an extension is always in lower case; so an allow-list whose
    extensions all have a capital letter rejects every file. *)
Theorem X11_extension_matching :
  (forall file_name,
      free_of "."%char file_name = true ->
      extension_of file_name = ("." ++ toLowerCase file_name)%string) /\
  (forall stem, extension_of (stem ++ ".") = ".") /\
  (forall file_name,
      toLowerCase (extension_of file_name) = extension_of file_name) /\
  (forall options f st extensions,
      allowedExtensions (validationOptions options) = Some extensions ->
      (forall e, In e extensions -> toLowerCase e <> e) ->
      fst (validateFile options f st) = Ok false).
Proof.
  split; [exact extension_of_undotted|]. split; [|split].
  - intro stem.
    exact (extension_of_dotted stem EmptyString eq_refl).
  - intro file_name.
    destruct (extension_of_lower file_name) as (piece & _ & ->).
    cbn [append toLowerCase]. rewrite toLowerCase_idempotent. reflexivity.
  - intros options f st extensions Hx Hupper.
    rewrite validateFile_first_objection.
    destruct (first_objection (validationOptions options) f rule_order)
      as [[r msg]|] eqn:E; [reflexivity|].
    exfalso. rewrite first_objection_none in E.
    specialize (E ExtensionRule (rule_in_order _)).
    cbn [rule_applies rule_objection] in E. rewrite Hx in E.
    specialize (E eq_refl).
    destruct (includes extensions (extension_of (name f))) eqn:I;
      [|discriminate E].
    apply includes_In in I. apply (Hupper _ I).
    destruct (extension_of_lower (name f)) as (piece & _ & ->).
    cbn [append toLowerCase]. rewrite toLowerCase_idempotent. reflexivity.
Qed.

(** The extension of [Makefile] is [.makefile]; the extension [.TXT] in the allow-list rejects [notes.txt]. *)
Lemma X11_extension_matching_witness :
  extension_of "Makefile" = ".makefile" /\
  fst (validateFile upper_options notes_txt initial) = Ok false.
Proof.
  split.
  - exact (proj1 X11_extension_matching "Makefile" eq_refl).
  - apply (proj2 (proj2 (proj2 X11_extension_matching))
             upper_options notes_txt initial [".TXT"] eq_refl).
    intros e [<-|[]]. vm_compute. discriminate.
Defined.

Lemma word_starts_bound text :
  2 * word_starts true text <= String.length text + 1 /\
  2 * word_starts false text <= String.length text.
Proof.
  induction text as [|c r [IH1 IH2]]; [cbn; lia|].
  cbn [word_starts String.length].
  destruct (is_whitespace c); lia.
Qed.

Lemma count_newlines_bound text : count_newlines text <= String.length text.
Proof.
  induction text as [|c r IH]; [reflexivity|].
  cbn [count_newlines String.length]. destruct (Ascii.eqb c nl); lia.
Qed.

(** X12.  In every state the file processor can reach, every entry of the
    list has a character count equal to the length of its content, at most
    (characters + 1) / 2 words, and from 1 to characters + 1 lines; an
    entry without content has no word and one line. *)
Theorem X12_metrics_bounds options host st :
  fp_reachable options host st ->
  forall pf, In pf (processedFiles st) ->
    characterCount pf = String.length (content pf) /\
    2 * wordCount pf <= characterCount pf + 1 /\
    1 <= lineCount pf <= characterCount pf + 1 /\
    (characterCount pf = 0 -> wordCount pf = 0 /\ lineCount pf = 1).
Proof.
  intros Hreach pf Hin.
  pose proof (fp_reachable_vetted options host st Hreach) as V.
  rewrite Forall_forall in V.
  destruct (V pf Hin)
    as (f & text & _ & _ & _ & _ & Hc & _ & _ & _ & Hcc & Hw & Hl & _).
  rewrite Hc, Hcc, Hw, Hl, countWords_word_starts, countLines_newlines.
  pose proof (word_starts_bound text) as [B _].
  pose proof (count_newlines_bound text) as N.
  split; [reflexivity|]. split; [exact B|]. split; [lia|].
  intro Z. split; lia.
Qed.

(** The entry of [notes.txt] after a batch: two words in eleven characters, one line. *)
Lemma X12_metrics_bounds_witness :
  let st := snd (processFiles default_options sample_host
                   [notes_txt; setup_exe; notes_txt] initial) in
  let pf := entry_of (processingOptions default_options) notes_txt
              "hello world" None in
  In pf (processedFiles st) /\
  2 * wordCount pf <= characterCount pf + 1 /\
  1 <= lineCount pf <= characterCount pf + 1 /\
  wordCount pf = 2 /\ lineCount pf = 1.
Proof.
  intros st pf.
  assert (Hin : In pf (processedFiles st)) by (vm_compute; left; reflexivity).
  destruct (X12_metrics_bounds default_options sample_host st) with (pf := pf)
    as (_ & Hw & Hl & _).
  - apply (fp_reach_step default_options sample_host initial).
    + apply fp_reach_initial.
    + apply step_processFiles.
  - exact Hin.
  - split; [exact Hin|]. split; [exact Hw|]. split; [exact Hl|].
    split; vm_compute; reflexivity.
Defined.

(** ** Drag and drop, and the file input *)

Lemma processFiles_returns options host files st :
  exists r,
    processFiles options host files st
    = (Ok r, snd (processFiles options host files st)).
Proof.
  destruct (processFiles_loop_spec options host [] files
              (List.length files) [] st (le_n _)) as (st' & E & _).
  cbn [app List.length] in E. unfold processFiles. rewrite E.
  eexists. reflexivity.
Qed.





(** * Further properties of the report generator *)

(** ** File names *)

Lemma replace_char_app c by_ a b :
  replace_char c by_ (a ++ b) = (replace_char c by_ a ++ replace_char c by_ b)%string.
Proof.
  induction a as [|x a IH]; [reflexivity|].
  cbn [append replace_char]. rewrite IH.
  destruct (Ascii.eqb x c); [|reflexivity].
  rewrite append_assoc. reflexivity.
Qed.

Lemma replace_char_free c by_ s :
  free_of c s = true -> replace_char c by_ s = s.
Proof.
  induction s as [|x s IH]; [reflexivity|].
  cbn [free_of replace_char]. intro H. apply andb_prop in H as [H1 H2].
  apply negb_true_iff in H1. rewrite H1, (IH H2). reflexivity.
Qed.

Lemma free_of_app c a b :
  free_of c (a ++ b) = free_of c a && free_of c b.
Proof.
  induction a as [|x a IH]; [reflexivity|].
  cbn [append free_of]. rewrite IH, andb_assoc. reflexivity.
Qed.

Lemma free_of_replace c by_ s :
  free_of c by_ = true -> free_of c (replace_char c by_ s) = true.
Proof.
  intro Hby. induction s as [|x s IH]; [reflexivity|].
  cbn [replace_char]. destruct (Ascii.eqb x c) eqn:E.
  - rewrite free_of_app, Hby, IH. reflexivity.
  - cbn [free_of]. rewrite E, IH. reflexivity.
Qed.

Lemma free_of_replace_other c d by_ s :
  free_of c s = true -> free_of c by_ = true ->
  free_of c (replace_char d by_ s) = true.
Proof.
  intros Hs Hby. induction s as [|x s IH]; [reflexivity|].
  cbn [free_of] in Hs. apply andb_prop in Hs as [H1 H2].
  cbn [replace_char]. destruct (Ascii.eqb x d).
  - rewrite free_of_app, Hby, (IH H2). reflexivity.
  - cbn [free_of]. rewrite H1, (IH H2). reflexivity.
Qed.

Lemma free_of_substring c s : forall n m,
  free_of c s = true -> free_of c (substring n m s) = true.
Proof.
  induction s as [|x s IH]; intros n m H.
  - destruct n, m; reflexivity.
  - cbn [free_of] in H. apply andb_prop in H as [H1 H2].
    destruct n as [|n]; destruct m as [|m]; cbn [substring];
      try reflexivity; try (apply IH; exact H2).
    cbn [free_of]. rewrite H1. apply IH. exact H2.
Qed.

Lemma drop_last_app a b :
  drop_last (String.length b) (a ++ b) = a.
Proof.
  unfold drop_last. rewrite length_append.
  replace (String.length a + String.length b - String.length b)
    with (String.length a) by lia.
  induction a as [|x a IH]; cbn [append String.length substring].
  - destruct b; reflexivity.
  - rewrite IH. reflexivity.
Qed.

Lemma timestamp_free iso :
  free_of ":"%char (RG.timestamp_of iso) = true /\
  free_of "."%char (RG.timestamp_of iso) = true.
Proof.
  unfold RG.timestamp_of, drop_last. split; apply free_of_substring.
  - apply free_of_replace_other; [|reflexivity].
    apply free_of_replace. reflexivity.
  - apply free_of_replace. reflexivity.
Qed.

Lemma timestamp_of_iso date hh mm ss ms :
  free_of ":"%char date = true -> free_of "."%char date = true ->
  free_of ":"%char hh = true -> free_of "."%char hh = true ->
  free_of ":"%char mm = true -> free_of "."%char mm = true ->
  free_of ":"%char ss = true -> free_of "."%char ss = true ->
  free_of ":"%char ms = true -> free_of "."%char ms = true ->
  String.length ms = 3 ->
  RG.timestamp_of (iso_text date hh mm ss ms)
  = (date ++ "T" ++ hh ++ "-" ++ mm ++ "-" ++ ss)%string.
Proof.
  intros D1 D2 H1 H2 M1 M2 S1 S2 L1 L2 Len.
  unfold RG.timestamp_of, iso_text.
  rewrite !replace_char_app.
  rewrite (replace_char_free ":"%char "-" date D1),
    (replace_char_free ":"%char "-" hh H1),
    (replace_char_free ":"%char "-" mm M1),
    (replace_char_free ":"%char "-" ss S1),
    (replace_char_free ":"%char "-" ms L1).
  rewrite (replace_char_free "."%char "-" date D2),
    (replace_char_free "."%char "-" hh H2),
    (replace_char_free "."%char "-" mm M2),
    (replace_char_free "."%char "-" ss S2),
    (replace_char_free "."%char "-" ms L2).
  change (replace_char ":"%char "-" "T") with "T".
  change (replace_char ":"%char "-" ":") with "-".
  change (replace_char ":"%char "-" ".") with ".".
  change (replace_char ":"%char "-" "Z") with "Z".
  change (replace_char "."%char "-" "T") with "T".
  change (replace_char "."%char "-" "-") with "-".
  change (replace_char "."%char "-" ".") with "-".
  change (replace_char "."%char "-" "Z") with "Z".
  assert (E : forall a, (date ++ "T" ++ hh ++ "-" ++ mm ++ "-" ++ ss ++ a
           = (date ++ "T" ++ hh ++ "-" ++ mm ++ "-" ++ ss) ++ a)%string).
  { intro a. rewrite !append_assoc. reflexivity. }
  rewrite E.
  replace 5 with (String.length ("-" ++ ms ++ "Z")).
  - apply drop_last_app.
  - rewrite !length_append, Len. reflexivity.
Qed.

Lemma generateFilename_eq host options st :
  RG.generateFilename host options st
  = (Ok (filename_at host options (RG.dates st)),
     if RG.not_false (RG.includeTimestamp options) then tick st else st).
Proof.
  unfold RG.generateFilename, filename_at, bind, ret, RG.newDate, tick.
  destruct (RG.not_false (RG.includeTimestamp options)).
  - cbn [snd]. rewrite !append_assoc. reflexivity.
  - reflexivity.
Qed.

(** X15.  [generateFilename] ends the name with ['.'] and the format tag.
    With [includeTimestamp] equal to [false] the name is the base name,
    ['.'] and the tag, and no date is read; otherwise one date is read and
    the name is the base name, ['_'], the time stamp, ['.'] and the tag.
    The base name is [report] when no name, or the empty name, is given.
    The time stamp holds no [':'] and no ['.']; for an ISO text
    [date T hh:mm:ss.mmm Z] it is [date T hh-mm-ss]. *)
Theorem X15_generateFilename host options st :
  exists file_name st',
    RG.generateFilename host options st = (Ok file_name, st') /\
    (exists stem, file_name = (stem ++ "." ++ RG.format options)%string) /\
    (RG.includeTimestamp options = Some false ->
     st' = st /\
     file_name =
       (RG.or_string (RG.filename options) "report" ++ "."
        ++ RG.format options)%string) /\
    (RG.includeTimestamp options <> Some false ->
     RG.dates st' = S (RG.dates st) /\
     file_name =
       (RG.or_string (RG.filename options) "report" ++ "_"
        ++ RG.timestamp_of (RG.toISOString host (RG.dates st)) ++ "."
        ++ RG.format options)%string) /\
    free_of ":"%char (RG.timestamp_of (RG.toISOString host (RG.dates st))) = true /\
    free_of "."%char (RG.timestamp_of (RG.toISOString host (RG.dates st))) = true /\
    (forall date hh mm ss ms,
        RG.toISOString host (RG.dates st) = iso_text date hh mm ss ms ->
        free_of ":"%char (date ++ hh ++ mm ++ ss ++ ms) = true ->
        free_of "."%char (date ++ hh ++ mm ++ ss ++ ms) = true ->
        String.length ms = 3 ->
        RG.timestamp_of (RG.toISOString host (RG.dates st))
        = (date ++ "T" ++ hh ++ "-" ++ mm ++ "-" ++ ss)%string).
Proof.
  rewrite generateFilename_eq. eexists. eexists.
  split; [reflexivity|]. split; [|split; [|split; [|split; [|split]]]].
  - unfold filename_at. eexists. rewrite <- !append_assoc. reflexivity.
  - intro H. unfold filename_at. rewrite H. cbn [RG.not_false append].
    split; reflexivity.
  - intro H. assert (N : RG.not_false (RG.includeTimestamp options) = true).
    { destruct (RG.includeTimestamp options) as [[|]|]; try reflexivity.
      exfalso. apply H. reflexivity. }
    rewrite N. split; [reflexivity|]. unfold filename_at. rewrite N.
    rewrite !append_assoc. reflexivity.
  - apply timestamp_free.
  - apply timestamp_free.
  - intros date hh mm ss ms -> H1 H2 Len.
    rewrite !free_of_app in H1, H2.
    repeat (apply andb_prop in H1 as [? H1]).
    repeat (apply andb_prop in H2 as [? H2]).
    apply timestamp_of_iso; assumption.
Qed.

(** The sample clock gives [sales_2024-01-02T03-04-05.csv]; an empty name without time stamp gives [report.json]. *)
Lemma X15_generateFilename_witness :
  fst (RG.generateFilename sample_browser stamped_options RG.initial)
    = Ok "sales_2024-01-02T03-04-05.csv" /\
  RG.generateFilename sample_browser unstamped_options RG.initial
    = (Ok "report.json", RG.initial).
Proof.
  destruct (X15_generateFilename sample_browser stamped_options RG.initial)
    as (n1 & s1 & E1 & _ & _ & T1 & _ & _ & I1).
  destruct (X15_generateFilename sample_browser unstamped_options RG.initial)
    as (n2 & s2 & E2 & _ & F2 & _).
  split.
  - rewrite E1. cbn [fst]. f_equal.
    destruct T1 as [_ ->]; [discriminate|].
    rewrite (I1 "2024-01-02" "03" "04" "05" "678"); reflexivity.
  - rewrite E2. destruct (F2 eq_refl) as [-> ->]. reflexivity.
Defined.

(** ** One report, step by step *)

Lemma format_outcome_mime host data options n content mime :
  format_outcome host data options n = Ok (content, mime) ->
  mime = mime_of (RG.format options).
Proof.
  unfold format_outcome, RG.format_content, mime_of.
  destruct (String.eqb (RG.format options) "json").
  { unfold bind, RG.generateJSON, RG.newDate, ret. cbn. intro H.
    injection H as _ <-. reflexivity. }
  destruct (String.eqb (RG.format options) "csv").
  { unfold bind, lift, ret. cbn.
    destruct (RG.generateCSV data options); cbn; [|discriminate].
    intro H. injection H as _ <-. reflexivity. }
  destruct (String.eqb (RG.format options) "html").
  { unfold bind, lift, ret, RG.newDate. cbn.
    destruct (RG.generateHTML host data options _); cbn; [|discriminate].
    intro H. injection H as _ <-. reflexivity. }
  destruct (String.eqb (RG.format options) "txt").
  { unfold bind, lift, ret, RG.newDate. cbn.
    destruct (RG.generateText host data options _); cbn; [|discriminate].
    intro H. injection H as _ <-. reflexivity. }
  discriminate.
Qed.

Lemma generateReport_run host data options st :
  match format_outcome host data options (RG.dates st) with
  | Throw x =>
      exists st',
        RG.generateReport host data options st = (Ok None, st') /\
        RG.progress st' = Num 25 /\
        RG.generatedReports st' = RG.generatedReports st /\
        RG.objectUrls st' = RG.objectUrls st /\
        RG.timers st' = RG.timers st /\
        RG.error st' = Some (generation_error x)
  | Ok (content, mime) =>
      match RG.createObjectURL host (RG.urlsMade st)
              {| RG.blobText := content; RG.blobType := mime |} with
      | Throw x =>
          exists st',
            RG.generateReport host data options st = (Ok None, st') /\
            RG.progress st' = Num 90 /\
            RG.generatedReports st' = RG.generatedReports st /\
            RG.objectUrls st' = RG.objectUrls st /\
            RG.timers st' = RG.timers st /\
            RG.error st' = Some (generation_error x)
      | Ok url =>
          let rep := report_of host options st content mime url in
          exists st',
            RG.generateReport host data options st = (Ok (Some rep), st') /\
            RG.progress st' = Num 100 /\
            RG.generatedReports st' = RG.generatedReports st ++ [rep] /\
            RG.objectUrls st' = RG.objectUrls st ++ [url] /\
            RG.timers st' = RG.timers st ++ [url] /\
            RG.error st' = None /\
            In (RG.Click url (RG.reportFilename rep)) (RG.log st')
      end
  end.
Proof.
  unfold report_of, filename_date, RG.generateReport, RG.generateReport_try,
    RG.downloadBlob, RG.URL_createObjectURL.
  unfold try_finally, try_catch, bind.
  report_cbn.
  rewrite format_content_eq. report_cbn.
  destruct (format_outcome host data options (RG.dates st))
    as [[content mime]|x] eqn:F.
  - destruct (reads_clock (RG.format options)); unfold tick; report_cbn;
      rewrite generateFilename_eq; report_cbn;
      destruct (RG.not_false (RG.includeTimestamp options)) eqn:N;
      unfold tick; report_cbn;
      match goal with
      | |- context [RG.createObjectURL host ?k ?b] =>
          destruct (RG.createObjectURL host k b) as [url|x] eqn:U
      end; report_cbn.
    all: rewrite ?Nat.add_0_r, ?Nat.add_1_r;
      eexists; (split; [reflexivity|]); report_cbn;
      repeat split; try reflexivity.
    all: rewrite <- ?app_assoc; cbn [app]; find_in.
  - destruct (reads_clock (RG.format options)); unfold tick; report_cbn;
      eexists; (split; [reflexivity|]); report_cbn; repeat split; reflexivity.
Qed.

Lemma utf8_length_bounds s :
  String.length s <= utf8_length s <= 2 * String.length s.
Proof.
  induction s as [|c r IH]; [cbn; lia|].
  cbn [utf8_length String.length].
  destruct (nat_of_ascii c <? 128); lia.
Qed.

(** X16.  A [generateReport] that returns a report was asked for a
    supported format; the report has that format, the MIME type of the
    format, the file name [generateFilename] gives at that moment, and as
    size the length in bytes of the UTF-8 encoding of its text, between
    once and twice the number of its code units; the progress is 100, the
    object URL of the report is live, a timer waits to revoke it, and the
    download was started by a click with that URL and that file name.  A
    [generateReport] that returns [null] leaves the progress at 25 (the
    formatter threw or the format is not supported) or at 90 (no object
    URL), and made no object URL and no timer. *)
Theorem X16_generateReport_outcome host data options st :
  (forall rep st',
      RG.generateReport host data options st = (Ok (Some rep), st') ->
      supported (RG.format options) = true /\
      RG.reportFormat rep = RG.format options /\
      RG.blobType (RG.blob rep) = mime_of (RG.format options) /\
      RG.reportFilename rep
        = filename_at host options (filename_date options st) /\
      RG.size rep = utf8_length (RG.blobText (RG.blob rep)) /\
      String.length (RG.blobText (RG.blob rep)) <= RG.size rep
        <= 2 * String.length (RG.blobText (RG.blob rep)) /\
      RG.progress st' = Num 100 /\
      RG.objectUrls st' = RG.objectUrls st ++ [RG.downloadUrl rep] /\
      RG.timers st' = RG.timers st ++ [RG.downloadUrl rep] /\
      In (RG.Click (RG.downloadUrl rep) (RG.reportFilename rep)) (RG.log st')) /\
  (forall st',
      RG.generateReport host data options st = (Ok None, st') ->
      (RG.progress st' = Num 25 \/ RG.progress st' = Num 90) /\
      RG.objectUrls st' = RG.objectUrls st /\
      RG.timers st' = RG.timers st).
Proof.
  pose proof (generateReport_run host data options st) as R.
  destruct (format_outcome host data options (RG.dates st))
    as [[content mime]|x] eqn:F.
  - destruct (RG.createObjectURL host (RG.urlsMade st)
                {| RG.blobText := content; RG.blobType := mime |})
      as [url|x] eqn:U.
    + cbn zeta in R. destruct R as (st1 & E & P & _ & O & T & _ & C).
      split.
      * intros rep st' H. rewrite E in H. injection H as <- <-.
        cbn [report_of RG.blob RG.reportFilename RG.size RG.reportFormat
             RG.downloadUrl RG.blobText RG.blobType] in *.
        split; [exact (format_outcome_supported _ _ _ _ _ _ F)|].
        split; [reflexivity|].
        split; [exact (format_outcome_mime _ _ _ _ _ _ F)|].
        split; [reflexivity|]. split; [reflexivity|].
        split; [apply utf8_length_bounds|].
        repeat split; assumption.
      * intros st' H. rewrite E in H. discriminate H.
    + destruct R as (st1 & E & P & _ & O & T & _). split.
      * intros rep st' H. rewrite E in H. discriminate H.
      * intros st' H. rewrite E in H. injection H as <-.
        split; [right; exact P|]. split; assumption.
  - destruct R as (st1 & E & P & _ & O & T & _). split.
    + intros rep st' H. rewrite E in H. discriminate H.
    + intros st' H. rewrite E in H. injection H as <-.
      split; [left; exact P|]. split; assumption.
Qed.

(** A CSV report of the sample records. *)
Lemma X16_generateReport_outcome_witness :
  exists rep st',
    RG.generateReport sample_browser (VArray (map VObject sample_records))
      stamped_options RG.initial = (Ok (Some rep), st') /\
    RG.blobType (RG.blob rep) = "text/csv" /\
    RG.reportFilename rep = "sales_2024-01-02T03-04-05.csv" /\
    RG.progress st' = Num 100.
Proof.
  destruct (RG.generateReport sample_browser
              (VArray (map VObject sample_records)) stamped_options RG.initial)
    as [r st'] eqn:E.
  assert (K : exists rep, r = Ok (Some rep)).
  { assert (K : fst (RG.generateReport sample_browser
                       (VArray (map VObject sample_records)) stamped_options
                       RG.initial) = r) by (rewrite E; reflexivity).
    vm_compute in K. rewrite <- K. eexists. reflexivity. }
  destruct K as (rep & ->).
  destruct (proj1 (X16_generateReport_outcome sample_browser
                     (VArray (map VObject sample_records)) stamped_options
                     RG.initial) rep st' E)
    as (_ & _ & M & N & _ & _ & P & _).
  exists rep, st'. split; [reflexivity|].
  split; [rewrite M; reflexivity|]. split; [rewrite N; reflexivity|exact P].
Defined.

(** ** Object URLs and their timers *)

Lemma generateReport_urls host data options st :
  exists added,
    RG.objectUrls (snd (RG.generateReport host data options st))
      = RG.objectUrls st ++ added /\
    RG.timers (snd (RG.generateReport host data options st))
      = RG.timers st ++ added.
Proof.
  pose proof (generateReport_run host data options st) as R.
  destruct (format_outcome host data options (RG.dates st))
    as [[content mime]|x].
  - destruct (RG.createObjectURL host (RG.urlsMade st)
                {| RG.blobText := content; RG.blobType := mime |})
      as [url|x].
    + cbn zeta in R. destruct R as (st1 & E & _ & _ & O & T & _).
      rewrite E. exists [url]. split; assumption.
    + destruct R as (st1 & E & _ & _ & O & T & _).
      rewrite E. exists []. rewrite !app_nil_r. split; assumption.
  - destruct R as (st1 & E & _ & _ & O & T & _).
    rewrite E. exists []. rewrite !app_nil_r. split; assumption.
Qed.

Lemma generateMultipleReports_loop_urls host data formats baseOptions :
  forall steps i reports st,
    exists r st' added,
      RG.generateMultipleReports_loop host data formats baseOptions
        steps i reports st = (r, st') /\
      RG.objectUrls st' = RG.objectUrls st ++ added /\
      RG.timers st' = RG.timers st ++ added.
Proof.
  induction steps as [|steps IH]; intros i reports st.
  { exists (Ok reports), st, []. rewrite !app_nil_r. repeat split. }
  cbn [RG.generateMultipleReports_loop].
  destruct (i <? List.length formats);
    [|exists (Ok reports), st, []; rewrite !app_nil_r; repeat split].
  destruct (nth_error formats i) as [fmt|];
    [|exists (Ok reports), st, []; rewrite !app_nil_r; repeat split].
  unfold bind at 1.
  destruct (generateReport_urls host data (RG.with_format baseOptions fmt) st)
    as (a1 & O1 & T1).
  destruct (generateReport_spec host data (RG.with_format baseOptions fmt) st)
    as (r & st1 & calls & E & _).
  rewrite E in *. cbn [snd] in O1, T1. unfold bind at 1.
  unfold RG.setProgress at 1.
  match goal with
  | |- context [RG.generateMultipleReports_loop _ _ _ _ steps ?j ?rs ?s] =>
      destruct (IH j rs s) as (r2 & st2 & a2 & E2 & O2 & T2)
  end.
  cbn [RG.objectUrls RG.timers] in O2, T2.
  exists r2, st2, (a1 ++ a2). split; [exact E2|].
  rewrite O2, T2, O1, T1, !app_assoc. split; reflexivity.
Qed.

Lemma incl_filter_cons (url : string) live pending :
  incl live (url :: pending) ->
  incl (filter (fun u => negb (String.eqb u url)) live) pending.
Proof.
  intros H u Hu. apply filter_In in Hu as [Hin Hne].
  destruct (H u Hin) as [<-|K]; [|exact K].
  rewrite String.eqb_refl in Hne. discriminate Hne.
Qed.

Lemma fireTimer_eq st :
  snd (RG.fireTimer st) =
  match RG.timers st with
  | [] => st
  | url :: rest =>
      {| RG.isGenerating := RG.isGenerating st;
         RG.progress := RG.progress st;
         RG.error := RG.error st;
         RG.generatedReports := RG.generatedReports st;
         RG.objectUrls :=
           filter (fun u => negb (String.eqb u url)) (RG.objectUrls st);
         RG.timers := rest;
         RG.dates := RG.dates st;
         RG.urlsMade := RG.urlsMade st;
         RG.log := RG.log st ++ [RG.RevokeObjectURL url] |}
  end.
Proof.
  unfold RG.fireTimer. destruct (RG.timers st); reflexivity.
Qed.

Lemma rg_step_scheduled host st st' :
  rg_step host st st' ->
  incl (RG.objectUrls st) (RG.timers st) ->
  incl (RG.objectUrls st') (RG.timers st').
Proof.
  intros Hstep Hinv.
  destruct Hstep as [data options st|data formats baseOptions st|seen st|st].
  - destruct (generateReport_urls host data options st) as (a & -> & ->).
    apply incl_app_app; [exact Hinv|apply incl_refl].
  - destruct (generateMultipleReports_loop_urls host data formats baseOptions
                (List.length formats) 0 [] st) as (r & st' & a & E & O & T).
    unfold RG.generateMultipleReports. rewrite E. cbn [snd]. rewrite O, T.
    apply incl_app_app; [exact Hinv|apply incl_refl].
  - rewrite clearReports_eq. cbn [snd RG.objectUrls RG.timers].
    intros u Hu. apply filter_In in Hu as [Hu _]. exact (Hinv u Hu).
  - rewrite fireTimer_eq. destruct (RG.timers st) as [|url rest] eqn:T.
    + rewrite T. exact Hinv.
    + cbn [RG.objectUrls RG.timers]. apply incl_filter_cons. exact Hinv.
Qed.

Lemma fire_timers_all st :
  incl (RG.objectUrls st) (RG.timers st) ->
  forall n, List.length (RG.timers st) <= n ->
    RG.objectUrls (fire_timers n st) = [] /\
    RG.timers (fire_timers n st) = [] /\
    RG.generatedReports (fire_timers n st) = RG.generatedReports st.
Proof.
  intros Hinv n. revert st Hinv.
  induction n as [|n IH]; intros st Hinv Hn.
  - cbn [fire_timers]. destruct (RG.timers st) as [|u r] eqn:T;
      [|cbn in Hn; lia].
    split; [|split; reflexivity].
    destruct (RG.objectUrls st) as [|u l]; [reflexivity|].
    destruct (Hinv u (or_introl eq_refl)).
  - cbn [fire_timers]. rewrite fireTimer_eq.
    destruct (RG.timers st) as [|url rest] eqn:T.
    + apply IH; rewrite T; [exact Hinv|cbn; lia].
    + match goal with
      | |- context [fire_timers n ?s] =>
          destruct (IH s) as (A & B & C)
      end.
      * cbn [RG.objectUrls RG.timers]. apply incl_filter_cons.
        exact Hinv.
      * cbn [RG.timers]. cbn in Hn. lia.
      * split; [exact A|]. split; [exact B|]. rewrite C. reflexivity.
Qed.

(** X17.  In every state the report generator can reach, every live
    object URL has a timer that waits to revoke it; once the timers have
    run no object URL is live, though the registry still lists the reports
    with their URLs. *)
Theorem X17_urls_are_scheduled host st :
  rg_reachable host st ->
  incl (RG.objectUrls st) (RG.timers st) /\
  (forall n, List.length (RG.timers st) <= n ->
     RG.objectUrls (fire_timers n st) = [] /\
     RG.generatedReports (fire_timers n st) = RG.generatedReports st).
Proof.
  intro H.
  assert (K : incl (RG.objectUrls st) (RG.timers st)).
  { induction H as [|st st' _ IH Hstep]; [intros u []|].
    exact (rg_step_scheduled host st st' Hstep IH). }
  split; [exact K|]. intros n Hn.
  destruct (fire_timers_all st K n Hn) as (A & _ & C). split; assumption.
Qed.

(** After two reports two object URLs are live; after two timers none is, and the registry still has its two reports. *)
Lemma X17_urls_are_scheduled_witness :
  RG.objectUrls two_reports = ["blob:0"; "blob:1"] /\
  RG.objectUrls (fire_timers 2 two_reports) = [] /\
  List.length (RG.generatedReports (fire_timers 2 two_reports)) = 2.
Proof.
  assert (R : rg_reachable sample_browser two_reports).
  { unfold two_reports.
    eapply rg_reach_step; [|apply step_generateReport].
    eapply rg_reach_step; [|apply step_generateReport].
    apply rg_reach_initial. }
  destruct (X17_urls_are_scheduled sample_browser two_reports R) as (_ & F).
  destruct (F 2) as (A & C).
  - vm_compute. repeat constructor.
  - split; [vm_compute; reflexivity|]. split; [exact A|].
    rewrite C. vm_compute. reflexivity.
Defined.

(** ** Several reports *)

Lemma generateReport_format host data options st :
  exists r st',
    RG.generateReport host data options st = (Ok r, st') /\
    RG.isGenerating st' = false /\
    match r with
    | Some rep =>
        RG.generatedReports st' = RG.generatedReports st ++ [rep] /\
        RG.reportFormat rep = RG.format options /\
        supported (RG.format options) = true
    | None =>
        RG.generatedReports st' = RG.generatedReports st /\
        (supported (RG.format options) = false \/
         ~ never_fails host data options)
    end.
Proof.
  pose proof (generateReport_run host data options st) as R.
  destruct (generateReport_spec host data options st)
    as (r0 & st0 & calls & E0 & I0 & _).
  destruct (format_outcome host data options (RG.dates st))
    as [[content mime]|x] eqn:F.
  - destruct (RG.createObjectURL host (RG.urlsMade st)
                {| RG.blobText := content; RG.blobType := mime |})
      as [url|x] eqn:U.
    + cbn zeta in R. destruct R as (st1 & E & _ & G & _).
      rewrite E in E0. injection E0 as <- <-.
      eexists. exists st1. split; [exact E|]. split; [exact I0|].
      cbn [report_of RG.reportFormat].
      split; [exact G|]. split; [reflexivity|].
      exact (format_outcome_supported _ _ _ _ _ _ F).
    + destruct R as (st1 & E & _ & G & _).
      rewrite E in E0. injection E0 as <- <-.
      exists None, st1. split; [exact E|]. split; [exact I0|].
      split; [exact G|]. right. intros [_ Hu].
      destruct (Hu (RG.urlsMade st)
                   {| RG.blobText := content; RG.blobType := mime |})
        as (url & K).
      rewrite U in K. discriminate K.
  - destruct R as (st1 & E & _ & G & _).
    rewrite E in E0. injection E0 as <- <-.
    exists None, st1. split; [exact E|]. split; [exact I0|].
    split; [exact G|].
    destruct (supported (RG.format options)) eqn:S; [|left; reflexivity].
    right. intros [Hf _].
    destruct (Hf (RG.format options) (RG.dates st) S) as (c & m & K).
    assert (W : RG.with_format options (RG.format options) = options)
      by (destruct options; reflexivity).
    rewrite W, F in K. discriminate K.
Qed.

Lemma never_fails_with_format host data baseOptions fmt :
  never_fails host data baseOptions ->
  never_fails host data (RG.with_format baseOptions fmt).
Proof.
  intros [Hf Hu]. split; [|exact Hu].
  intros fmt' n S. exact (Hf fmt' n S).
Qed.

Lemma generateMultipleReports_loop_run host data baseOptions pre rest :
  forall steps reports st,
    List.length rest <= steps ->
    exists added st',
      RG.generateMultipleReports_loop host data (pre ++ rest) baseOptions
        steps (List.length pre) reports st
      = (Ok (reports ++ added), st') /\
      RG.generatedReports st' = RG.generatedReports st ++ added /\
      Forall (fun r => In (RG.reportFormat r) rest /\
                       supported (RG.reportFormat r) = true) added /\
      List.length added <= List.length rest /\
      (never_fails host data baseOptions ->
       map RG.reportFormat added = filter supported rest) /\
      match rev rest with
      | [] => st' = st
      | _ :: _ =>
          RG.isGenerating st' = false /\
          RG.progress st' =
            overall_progress (List.length (pre ++ rest) - 1)
                             (List.length (pre ++ rest))
      end.
Proof.
  revert pre.
  induction rest as [|fmt rest IH]; intros pre steps reports st Hsteps.
  - exists [], st. cbn [rev List.length filter map]. rewrite !app_nil_r.
    split; [|repeat split; try constructor].
    destruct steps as [|steps]; [reflexivity|].
    cbn [RG.generateMultipleReports_loop]. rewrite Nat.ltb_irrefl.
    reflexivity.
  - destruct steps as [|steps]; [cbn in Hsteps; lia|].
    cbn [RG.generateMultipleReports_loop].
    assert (Hlt : (List.length pre <? List.length (pre ++ fmt :: rest)) = true).
    { apply Nat.ltb_lt. rewrite length_app. cbn. lia. }
    rewrite Hlt.
    assert (Hnth : nth_error (pre ++ fmt :: rest) (List.length pre) = Some fmt).
    { rewrite nth_error_app2 by lia. rewrite Nat.sub_diag. reflexivity. }
    rewrite Hnth. unfold bind at 1.
    destruct (generateReport_format host data (RG.with_format baseOptions fmt)
                st) as (r & st1 & E1 & I1 & H1).
    rewrite E1. unfold bind at 1. unfold RG.setProgress at 1.
    set (st2 := {| RG.isGenerating := RG.isGenerating st1;
                   RG.progress := _; RG.error := RG.error st1;
                   RG.generatedReports := RG.generatedReports st1;
                   RG.objectUrls := RG.objectUrls st1;
                   RG.timers := RG.timers st1;
                   RG.dates := RG.dates st1;
                   RG.urlsMade := RG.urlsMade st1;
                   RG.log := _ |}).
    assert (Hpre : pre ++ fmt :: rest = (pre ++ [fmt]) ++ rest)
      by (rewrite <- app_assoc; reflexivity).
    assert (Hlen : List.length pre + 1 = List.length (pre ++ [fmt]))
      by (rewrite length_app; reflexivity).
    rewrite Hpre, Hlen.
    destruct (IH (pre ++ [fmt]) steps
                (match r with
                 | Some rep => reports ++ [rep]
                 | None => reports
                 end) st2) as (added & st' & E & G & F & L & N & P).
    { cbn in Hsteps. lia. }
    clear IH.
    exists (match r with Some rep => rep :: added | None => added end), st'.
    split; [|split; [|split; [|split; [|split]]]].
    + rewrite E. destruct r; rewrite <- ?app_assoc; reflexivity.
    + rewrite G. subst st2. cbn [RG.generatedReports].
      destruct r as [rep|].
      * destruct H1 as (G1 & _). rewrite G1, <- app_assoc. reflexivity.
      * destruct H1 as (G1 & _). rewrite G1. reflexivity.
    + assert (F' : Forall (fun r0 => In (RG.reportFormat r0) (fmt :: rest) /\
                                     supported (RG.reportFormat r0) = true)
                          added).
      { eapply Forall_impl; [|exact F]. cbn beta. intros a [A B].
        split; [right; exact A|exact B]. }
      destruct r as [rep|]; [|exact F'].
      destruct H1 as (_ & R1 & S1). cbn [RG.with_format RG.format] in R1, S1.
      constructor; [|exact F'].
      rewrite R1. split; [left; reflexivity|exact S1].
    + destruct r; cbn [List.length]; lia.
    + intro NF. specialize (N NF). cbn [filter].
      destruct r as [rep|].
      * destruct H1 as (_ & R1 & S1). cbn [RG.with_format RG.format] in R1, S1.
        rewrite S1. cbn [map]. rewrite R1, N. reflexivity.
      * destruct H1 as (_ & [S1|S1]).
        -- cbn [RG.with_format RG.format] in S1. rewrite S1. exact N.
        -- exfalso. apply S1. apply never_fails_with_format. exact NF.
    + change (rev (fmt :: rest)) with (rev rest ++ [fmt]).
      destruct rest as [|g rest'].
      * cbn [rev app] in P |- *. subst st'. subst st2.
        cbn [RG.isGenerating RG.progress]. split; [exact I1|].
        unfold overall_progress. rewrite app_nil_r, <- Hlen.
        replace (List.length pre + 1 - 1 + 1) with (List.length pre + 1)
          by lia.
        reflexivity.
      * destruct (rev (g :: rest')) as [|h t] eqn:Erev.
        { apply (f_equal (@List.length _)) in Erev.
          rewrite length_rev in Erev. discriminate Erev. }
        cbn [app]. exact P.
Qed.

(** X18.  [generateMultipleReports] always returns.  The reports it
    returns are the reports it appended to the registry, in that order;
    each has a format of the list that is one of [json], [csv], [html],
    [txt]; there are at most as many as formats; when nothing the host does
    fails, their formats are the supported formats of the list, in the
    order of the list.  An empty list of formats changes nothing; otherwise
    the generator is idle afterwards and the progress is 100. *)
Theorem X18_generateMultipleReports host data formats baseOptions st :
  exists reports st',
    RG.generateMultipleReports host data formats baseOptions st
      = (Ok reports, st') /\
    RG.generatedReports st' = RG.generatedReports st ++ reports /\
    (forall r, In r reports ->
       In (RG.reportFormat r) formats /\
       In (RG.reportFormat r) ["json"; "csv"; "html"; "txt"]) /\
    List.length reports <= List.length formats /\
    (never_fails host data baseOptions ->
     map RG.reportFormat reports = filter supported formats) /\
    (formats = [] -> st' = st) /\
    (formats <> [] ->
     RG.isGenerating st' = false /\
     js_eq (RG.progress st') (Num (inject_Z 100))).
Proof.
  destruct (generateMultipleReports_loop_run host data baseOptions [] formats
              (List.length formats) [] st (le_n _))
    as (added & st' & E & G & F & L & N & P).
  cbn [app List.length] in E, P.
  exists added, st'. split; [exact E|]. split; [exact G|].
  split; [|split; [exact L|split; [exact N|split]]].
  - intros r Hr. rewrite Forall_forall in F. destruct (F r Hr) as [A B].
    split; [exact A|].
    unfold supported in B.
    destruct (String.eqb_spec (RG.reportFormat r) "json") as [->|_];
      [cbn; tauto|].
    destruct (String.eqb_spec (RG.reportFormat r) "csv") as [->|_];
      [cbn; tauto|].
    destruct (String.eqb_spec (RG.reportFormat r) "html") as [->|_];
      [cbn; tauto|].
    destruct (String.eqb_spec (RG.reportFormat r) "txt") as [->|_];
      [cbn; tauto|]. discriminate B.
  - intros ->. exact P.
  - intro Hne. destruct (rev formats) as [|h t] eqn:R.
    + exfalso. apply Hne. apply (f_equal (@rev _)) in R.
      rewrite rev_involutive in R. exact R.
    + destruct P as [I Pr]. split; [exact I|]. rewrite Pr.
      apply overall_progress_last. destruct formats; [contradiction|cbn; lia].
Qed.

Lemma sample_browser_never_fails :
  never_fails sample_browser (VArray (map VObject sample_records))
    (plain_options "json").
Proof.
  split.
  - intros fmt n S. unfold supported in S.
    unfold format_outcome, RG.format_content.
    cbn [RG.with_format RG.format].
    destruct (String.eqb fmt "json"); [eexists; eexists; reflexivity|].
    destruct (String.eqb fmt "csv"); [eexists; eexists; reflexivity|].
    destruct (String.eqb fmt "html"); [eexists; eexists; reflexivity|].
    destruct (String.eqb fmt "txt"); [eexists; eexists; reflexivity|].
    discriminate S.
  - intros k b. eexists. reflexivity.
Qed.

(** The formats [json], [pdf], [csv] give a JSON report and a CSV report. *)
Lemma X18_generateMultipleReports_witness :
  exists reports,
    fst (RG.generateMultipleReports sample_browser
           (VArray (map VObject sample_records)) ["json"; "pdf"; "csv"]
           (plain_options "json") RG.initial) = Ok reports /\
    map RG.reportFormat reports = ["json"; "csv"].
Proof.
  destruct (X18_generateMultipleReports sample_browser
              (VArray (map VObject sample_records)) ["json"; "pdf"; "csv"]
              (plain_options "json") RG.initial)
    as (reports & st' & E & _ & _ & _ & N & _).
  exists reports. rewrite E. split; [reflexivity|].
  exact (N sample_browser_never_fails).
Defined.

(** ** CSV at its edges *)

Lemma Object_keys_nullish v :
  (exists e, Object_keys v = Throw e) <-> nullish v = true.
Proof.
  destruct v; cbn; split; intro H; try discriminate H; try reflexivity;
    try (eexists; reflexivity);
    destruct H as [e H]; discriminate H.
Qed.

Lemma get_not_nullish v key :
  nullish v = false -> exists x, get v key = Ok x.
Proof.
  destruct v; cbn; intro H; try discriminate H.
  - eexists; reflexivity.
  - eexists; reflexivity.
  - destruct (String.eqb key "length"); [eexists; reflexivity|].
    destruct (at_index_key key (code_units s)); eexists; reflexivity.
  - eexists; reflexivity.
  - destruct (String.eqb key "length"); [eexists; reflexivity|].
    destruct (at_index_key key items); eexists; reflexivity.
  - destruct (lookup key props); eexists; reflexivity.
Qed.

Lemma flatMap_keys_throws items :
  (exists e, RG.flatMap_keys items = Throw e) <-> existsb nullish items = true.
Proof.
  unfold RG.flatMap_keys.
  induction items as [|v rest IH]; cbn [map_result existsb].
  - cbn. split; [intros [e H]; discriminate H|discriminate].
  - destruct (Object_keys v) as [ks|e] eqn:K.
    + assert (N : nullish v = false).
      { destruct (nullish v) eqn:N; [|reflexivity].
        apply Object_keys_nullish in N. destruct N as [e N].
        rewrite K in N. discriminate N. }
      rewrite N. cbn [orb and_then].
      destruct (map_result Object_keys rest) as [kss|e] eqn:M;
        cbn [and_then] in *.
      * split; [intros [e H]; discriminate H|].
        intro H. apply IH in H. destruct H as [e H]. discriminate H.
      * split; [intros _; apply IH; exists e; reflexivity|].
        intros _. exists e. reflexivity.
    + assert (N : nullish v = true).
      { apply Object_keys_nullish. exists e. exact K. }
      rewrite N. cbn. split; [reflexivity|]. intros _. exists e. reflexivity.
Qed.

Lemma csv_cells_ok item keys :
  nullish item = false ->
  exists row, map_result (RG.csv_cell item) keys = Ok row.
Proof.
  intro N. induction keys as [|k keys [row IH]]; [exists []; reflexivity|].
  cbn [map_result]. unfold RG.csv_cell at 1.
  destruct (get_not_nullish item k N) as [x ->]. cbn [and_then].
  rewrite IH.
  destruct x; cbn [and_then]; try (eexists; reflexivity);
    match goal with
    | |- context [if ?b then _ else _] => destruct b
    end; cbn [and_then]; eexists; reflexivity.
Qed.

Lemma csv_push_rows_ok allKeys items :
  existsb nullish items = false ->
  forall csvRows, exists rows, RG.csv_push_rows allKeys items csvRows = Ok rows.
Proof.
  induction items as [|item rest IH]; intros N csvRows.
  - eexists. reflexivity.
  - cbn [existsb] in N. apply orb_false_elim in N as [N1 N2].
    cbn [RG.csv_push_rows].
    destruct (csv_cells_ok item allKeys N1) as [row ->]. cbn [and_then].
    apply IH. exact N2.
Qed.



Lemma flatMap_keys_keyless items :
  forallb keyless items = true -> RG.flatMap_keys items = Ok [].
Proof.
  unfold RG.flatMap_keys.
  induction items as [|v rest IH]; [reflexivity|].
  cbn [forallb map_result]. intro H. apply andb_prop in H as [H1 H2].
  unfold keyless in H1.
  destruct (Object_keys v) as [[|k ks]|e]; try discriminate H1.
  cbn [and_then]. specialize (IH H2).
  destruct (map_result Object_keys rest) as [kss|e]; cbn [and_then] in *;
    [|discriminate IH].
  injection IH as IH. cbn [concat app]. rewrite IH. reflexivity.
Qed.

Lemma csv_push_rows_no_columns items : forall rows,
  RG.csv_push_rows [] items rows
  = Ok (rows ++ repeat EmptyString (List.length items)).
Proof.
  induction items as [|v rest IH]; intro rows.
  - cbn. rewrite app_nil_r. reflexivity.
  - cbn [RG.csv_push_rows map_result and_then join List.length repeat].
    rewrite IH, <- app_assoc. reflexivity.
Qed.

Lemma join_newline_empty n :
  join newline (EmptyString :: repeat EmptyString n)
  = Formatters.repeat_string newline n.
Proof.
  induction n as [|n IH]; [reflexivity|].
  cbn [repeat]. rewrite join_cons. cbn [append Formatters.repeat_string].
  cbn [repeat] in IH. rewrite IH. reflexivity.
Qed.

(** X24.  For an array, not empty, of values without keys (numbers,
    booleans, dates, empty objects, empty arrays and empty texts)
    [generateCSV] returns nothing but one newline for each element: an
    empty header and an empty row for each element. *)
Theorem X24_generateCSV_no_columns items options :
  items <> [] ->
  forallb keyless items = true ->
  RG.generateCSV (VArray items) options
  = Ok (Formatters.repeat_string newline (List.length items)).
Proof.
  intros Hne Hk. unfold RG.generateCSV.
  destruct items as [|v rest]; [contradiction|].
  rewrite (flatMap_keys_keyless _ Hk). cbn [and_then].
  change (RG.unique []) with (@nil string).
  rewrite csv_push_rows_no_columns. cbn [and_then].
  change (join "," []) with EmptyString. cbn [app].
  rewrite join_newline_empty. reflexivity.
Qed.

(** An array of two numbers and a boolean gives three newlines. *)
Lemma X24_generateCSV_no_columns_witness :
  RG.generateCSV (VArray [VNumber 1; VNumber 2; VBool true])
    (plain_options "csv")
  = Ok (newline ++ newline ++ newline)%string.
Proof.
  apply (X24_generateCSV_no_columns [VNumber 1; VNumber 2; VBool true]
           (plain_options "csv")).
  - discriminate.
  - reflexivity.
Defined.

Lemma csv_field_encode v : csv_field v = csv_encode (value_text v).
Proof. destruct v; reflexivity. Qed.

Lemma needs_quotes_cons c t :
  needs_quotes (String c t) = false ->
  Ascii.eqb c ","%char = false /\ Ascii.eqb c dquote = false /\
  Ascii.eqb c nl = false /\ needs_quotes t = false.
Proof.
  unfold needs_quotes. cbn [contains_char]. intro H.
  apply orb_false_elim in H as [H H3].
  apply orb_false_elim in H as [H1 H2].
  apply orb_false_elim in H1 as [A1 B1].
  apply orb_false_elim in H2 as [A2 B2].
  apply orb_false_elim in H3 as [A3 B3].
  rewrite B1, B2, B3. repeat split; assumption.
Qed.

Lemma add_char_append cell c t :
  (add_char cell c ++ t = cell ++ String c t)%string.
Proof. unfold add_char. rewrite append_assoc. reflexivity. Qed.

Lemma read_plain t : forall rest cell row rows,
  needs_quotes t = false ->
  read_csv_from (t ++ rest) Plain cell row rows
  = read_csv_from rest Plain (cell ++ t) row rows.
Proof.
  induction t as [|c t IH]; intros rest cell row rows H.
  - cbn [append]. rewrite append_empty_r. reflexivity.
  - apply needs_quotes_cons in H as (H1 & H2 & H3 & H4).
    cbn [append read_csv_from]. rewrite H1, H2, H3.
    rewrite (IH _ _ _ _ H4), add_char_append. reflexivity.
Qed.

Lemma read_quoted_body t : forall rest cell row rows,
  read_csv_from
    (replace_char dquote (String dquote (String dquote "")) t
     ++ String dquote rest) Quoted cell row rows
  = read_csv_from rest AfterQuote (cell ++ t) row rows.
Proof.
  induction t as [|c t IH]; intros rest cell row rows.
  - cbn [replace_char append read_csv_from]. rewrite Ascii.eqb_refl.
    rewrite append_empty_r. reflexivity.
  - cbn [replace_char]. destruct (Ascii.eqb c dquote) eqn:E.
    + apply Ascii.eqb_eq in E. subst c.
      cbn [append read_csv_from]. rewrite Ascii.eqb_refl.
      change (Ascii.eqb dquote ","%char) with false.
      change (Ascii.eqb dquote nl) with false. cbv iota.
      rewrite IH, add_char_append. reflexivity.
    + cbn [append read_csv_from]. rewrite E.
      rewrite IH, add_char_append. reflexivity.
Qed.

Lemma read_after_quote rest cell row rows :
  ends_cell rest = true ->
  read_csv_from rest AfterQuote cell row rows
  = read_csv_from rest Plain cell row rows.
Proof.
  destruct rest as [|c r]; [reflexivity|].
  cbn [ends_cell read_csv_from]. intro H.
  destruct (Ascii.eqb c ","%char); [reflexivity|].
  destruct (Ascii.eqb c nl); [reflexivity|discriminate H].
Qed.

Lemma read_encoded t rest row rows :
  ends_cell rest = true ->
  read_csv_from (csv_encode t ++ rest) Plain EmptyString row rows
  = read_csv_from rest Plain t row rows.
Proof.
  intro H. unfold csv_encode. destruct (needs_quotes t) eqn:Q.
  - unfold quoted. cbn [append read_csv_from].
    change (Ascii.eqb dquote ","%char) with false.
    change (Ascii.eqb dquote nl) with false.
    rewrite Ascii.eqb_refl. cbv iota.
    rewrite append_assoc. cbn [append].
    rewrite read_quoted_body. cbn [append].
    apply read_after_quote. exact H.
  - rewrite (read_plain t rest EmptyString row rows Q). reflexivity.
Qed.

Lemma read_line cells : forall row rows,
  cells <> [] ->
  read_csv_from (csv_line cells) Plain EmptyString row rows
    = rows ++ [row ++ cells] /\
  (forall rest,
      read_csv_from (csv_line cells ++ String nl rest) Plain EmptyString
        row rows
      = read_csv_from rest Plain EmptyString [] (rows ++ [row ++ cells])).
Proof.
  unfold csv_line.
  induction cells as [|t cells IH]; intros row rows Hne; [contradiction|].
  cbn [map]. rewrite join_cons.
  destruct cells as [|t' cells'].
  - cbn [map]. rewrite append_empty_r. split.
    + rewrite <- (append_empty_r (csv_encode t)).
      rewrite read_encoded by reflexivity. reflexivity.
    + intro rest. rewrite read_encoded by reflexivity.
      cbn [read_csv_from].
      change (Ascii.eqb nl ","%char) with false.
      rewrite Ascii.eqb_refl. reflexivity.
  - assert (N : t' :: cells' <> []) by discriminate.
    destruct (IH (row ++ [t]) rows N) as [I1 I2].
    assert (E : map csv_encode (t' :: cells') <> []) by discriminate.
    destruct (map csv_encode (t' :: cells')) as [|x xs] eqn:M;
      [contradiction|]. rewrite <- M in *. clear E.
    split.
    + cbn [append]. rewrite read_encoded by reflexivity.
      cbn [read_csv_from]. rewrite Ascii.eqb_refl.
      rewrite I1, <- app_assoc. reflexivity.
    + intro rest. rewrite append_assoc. cbn [append].
      rewrite read_encoded by reflexivity.
      cbn [read_csv_from]. rewrite Ascii.eqb_refl.
      rewrite I2, <- app_assoc. reflexivity.
Qed.

Lemma read_lines lines : forall rows,
  lines <> [] -> Forall (fun cells => cells <> []) lines ->
  read_csv_from (join newline (map csv_line lines)) Plain EmptyString [] rows
  = rows ++ lines.
Proof.
  induction lines as [|cells lines IH]; intros rows Hne Hall; [contradiction|].
  inversion Hall as [|? ? Hc Hrest]; subst.
  cbn [map]. rewrite join_cons.
  destruct lines as [|cells' lines'].
  - cbn [map]. rewrite append_empty_r.
    exact (proj1 (read_line cells [] rows Hc)).
  - assert (E : map csv_line (cells' :: lines') <> []) by discriminate.
    destruct (map csv_line (cells' :: lines')) as [|x xs] eqn:M;
      [contradiction|]. rewrite <- M in *. clear E.
    unfold newline at 1. cbn [append].
    rewrite (proj2 (read_line cells [] rows Hc)).
    rewrite IH by (try discriminate; exact Hrest).
    cbn [app]. rewrite <- app_assoc. reflexivity.
Qed.

Lemma csv_encode_plain cols :
  Forall (fun k => needs_quotes k = false) cols ->
  map csv_encode cols = cols.
Proof.
  induction 1 as [|k cols Hk _ IH]; [reflexivity|].
  cbn [map]. unfold csv_encode at 1. rewrite Hk, IH. reflexivity.
Qed.



(** ** Statistics *)

Lemma count_of_set_count counts key n key' :
  RG.count_of (RG.set_count counts key n) key'
  = if String.eqb key key' then Some n else RG.count_of counts key'.
Proof.
  induction counts as [|[k m] rest IH]; cbn [RG.set_count RG.count_of].
  - reflexivity.
  - destruct (String.eqb_spec k key) as [->|N]; cbn [RG.count_of].
    + destruct (String.eqb key key'); reflexivity.
    + rewrite IH. destruct (String.eqb_spec k key') as [->|N'];
        [|reflexivity].
      destruct (String.eqb_spec key key') as [->|_];
        [contradiction|reflexivity].
Qed.

Lemma keys_set_count counts key n :
  map fst (RG.set_count counts key n)
  = if includes (map fst counts) key then map fst counts
    else map fst counts ++ [key].
Proof.
  unfold includes.
  induction counts as [|[k m] rest IH]; cbn [RG.set_count map fst existsb app].
  - reflexivity.
  - rewrite (String.eqb_sym key k).
    destruct (String.eqb k key); cbn [orb map fst]; [reflexivity|].
    rewrite IH. destruct (existsb (String.eqb key) (map fst rest));
      reflexivity.
Qed.

Lemma list_sum_cons a l : list_sum (a :: l) = a + list_sum l.
Proof. reflexivity. Qed.

Lemma sum_set_count counts key :
  list_sum (map snd (RG.set_count counts key
                       (RG.or_zero (RG.count_of counts key) + 1)))
  = list_sum (map snd counts) + 1.
Proof.
  induction counts as [|[k m] rest IH];
    cbn [RG.set_count RG.count_of map snd list_sum].
  - reflexivity.
  - destruct (String.eqb k key); cbn [map snd RG.or_zero];
      rewrite !list_sum_cons.
    + lia.
    + rewrite IH. lia.
Qed.

Lemma tally_spec (reports : list RG.GeneratedReport) :
  forall counts,
    let counts' :=
      fold_left
        (fun counts report =>
           RG.set_count counts (RG.reportFormat report)
             (RG.or_zero (RG.count_of counts (RG.reportFormat report)) + 1))
        reports counts in
    (forall fmt,
        RG.or_zero (RG.count_of counts' fmt)
        = RG.or_zero (RG.count_of counts fmt) + reports_of_format fmt reports) /\
    map fst counts'
    = fold_left (fun seen k => if includes seen k then seen else seen ++ [k])
                (map RG.reportFormat reports) (map fst counts) /\
    list_sum (map snd counts')
    = list_sum (map snd counts) + List.length reports.
Proof.
  unfold reports_of_format.
  induction reports as [|r rest IH]; intro counts; cbn zeta.
  - cbn [fold_left map filter List.length]. rewrite Nat.add_0_r.
    split; [intro; rewrite Nat.add_0_r; reflexivity|]. split; reflexivity.
  - cbn [fold_left map filter List.length].
    specialize (IH (RG.set_count counts (RG.reportFormat r)
                      (RG.or_zero (RG.count_of counts (RG.reportFormat r)) + 1))).
    cbn zeta in IH. destruct IH as (C & K & S).
    split; [|split].
    + intro fmt. rewrite C, count_of_set_count.
      destruct (String.eqb (RG.reportFormat r) fmt) eqn:E;
        cbn [RG.or_zero List.length].
      * apply String.eqb_eq in E. subst fmt. lia.
      * reflexivity.
    + rewrite K, keys_set_count. reflexivity.
    + rewrite S, sum_set_count. lia.
Qed.

Lemma fold_sizes (reports : list RG.GeneratedReport) :
  forall sum,
    fold_left (fun sum report => sum + RG.size report) reports sum
    = sum + sum_of_sizes reports.
Proof.
  unfold sum_of_sizes.
  induction reports as [|r rest IH]; intro sum; cbn [fold_left map].
  - cbn. lia.
  - rewrite IH, list_sum_cons. lia.
Qed.

Lemma packaged_supported host r :
  packaged host r ->
  In (RG.reportFormat r) ["json"; "csv"; "html"; "txt"].
Proof.
  intros (data & options & n & k & _ & _ & _ & -> & S).
  unfold supported in S.
  destruct (String.eqb_spec (RG.format options) "json") as [->|_];
    [cbn; tauto|].
  destruct (String.eqb_spec (RG.format options) "csv") as [->|_];
    [cbn; tauto|].
  destruct (String.eqb_spec (RG.format options) "html") as [->|_];
    [cbn; tauto|].
  destruct (String.eqb_spec (RG.format options) "txt") as [->|_];
    [cbn; tauto|]. discriminate S.
Qed.

(** X20.  For the registry of a state the report generator can reach,
    [getReportStats] counts the reports; [formatCounts] has one key for
    each format that occurs, in the order the formats first occur, each
    with the number of reports of that format, and no key for the others;
    the counts add up to the number of reports; and every key is one of
    [json], [csv], [html], [txt]. *)
Theorem X20_getReportStats_counts host st :
  rg_reachable host st ->
  let reports := RG.generatedReports st in
  let stats := RG.getReportStats reports in
  RG.totalReports stats = List.length reports /\
  (forall fmt,
      RG.or_zero (RG.count_of (RG.formatCounts stats) fmt)
      = reports_of_format fmt reports) /\
  (forall fmt,
      RG.count_of (RG.formatCounts stats) fmt = None <->
      reports_of_format fmt reports = 0) /\
  map fst (RG.formatCounts stats) = first_seen (map RG.reportFormat reports) /\
  NoDup (map fst (RG.formatCounts stats)) /\
  list_sum (map snd (RG.formatCounts stats)) = RG.totalReports stats /\
  (forall fmt, In fmt (map fst (RG.formatCounts stats)) ->
               In fmt ["json"; "csv"; "html"; "txt"]).
Proof.
  intros Hreach reports stats.
  pose proof (tally_spec reports []) as T. cbn zeta in T.
  destruct T as (C & K & S).
  change (fold_left _ reports []) with (RG.formatCounts stats) in C, K, S.
  cbn [RG.count_of RG.or_zero map fst snd] in C, K, S.
  change (list_sum []) with 0 in S. cbn [Nat.add] in C, S.
  fold (RG.unique (map RG.reportFormat reports)) in K.
  rewrite unique_first_seen in K.
  split; [reflexivity|]. split; [exact C|].
  split; [|split; [exact K|split; [|split]]].
  - intro fmt. split.
    + intro N. rewrite <- C, N. reflexivity.
    + intro Z. destruct (RG.count_of (RG.formatCounts stats) fmt) as [n|] eqn:N;
        [|reflexivity].
      exfalso.
      assert (In fmt (map fst (RG.formatCounts stats))).
      { clear - N. induction (RG.formatCounts stats) as [|[k m] rest IH];
          [discriminate N|].
        cbn [RG.count_of] in N. cbn [map fst In].
        destruct (String.eqb_spec k fmt) as [->|_]; [left; reflexivity|].
        right. exact (IH N). }
      rewrite K, first_seen_In, in_map_iff in H.
      destruct H as (r & Hr & Hin).
      unfold reports_of_format in Z.
      assert (F : In r (filter (fun r => String.eqb (RG.reportFormat r) fmt)
                          reports)).
      { apply filter_In. split; [exact Hin|]. rewrite Hr.
        apply String.eqb_refl. }
      destruct (filter _ reports); [destruct F|discriminate Z].
  - rewrite K. apply first_seen_NoDup.
  - exact S.
  - intros fmt Hin. rewrite K, first_seen_In, in_map_iff in Hin.
    destruct Hin as (r & <- & Hr).
    pose proof (rg_reachable_packaged host st Hreach) as P.
    rewrite Forall_forall in P. exact (packaged_supported host r (P r Hr)).
Qed.

Lemma three_reports_reachable : rg_reachable sample_browser three_reports.
Proof.
  unfold three_reports.
  eapply rg_reach_step; [|apply step_generateReport].
  eapply rg_reach_step; [|apply step_generateReport].
  eapply rg_reach_step; [|apply step_generateReport].
  apply rg_reach_initial.
Qed.

(** Two CSV reports and a JSON report. *)
Lemma X20_getReportStats_counts_witness :
  let stats := RG.getReportStats (RG.generatedReports three_reports) in
  RG.totalReports stats = 3 /\
  RG.formatCounts stats = [("csv", 2); ("json", 1)] /\
  list_sum (map snd (RG.formatCounts stats)) = 3.
Proof.
  intro stats.
  destruct (X20_getReportStats_counts sample_browser three_reports
              three_reports_reachable) as (T & _ & _ & _ & _ & S & _).
  fold stats in T, S.
  split; [rewrite T; vm_compute; reflexivity|].
  split; [vm_compute; reflexivity|].
  rewrite S, T. vm_compute. reflexivity.
Defined.

Lemma sum_of_sizes_bounds reports lo hi :
  (forall r, In r reports -> lo <= RG.size r <= hi) ->
  lo * List.length reports <= sum_of_sizes reports <= hi * List.length reports.
Proof.
  unfold sum_of_sizes.
  induction reports as [|r rest IH]; intro H; [cbn; lia|].
  cbn [map List.length]. rewrite list_sum_cons.
  pose proof (H r (or_introl eq_refl)).
  assert (K : forall r0, In r0 rest -> lo <= RG.size r0 <= hi)
    by (intros r0 Hr0; apply H; right; exact Hr0).
  specialize (IH K). nia.
Qed.

Lemma quotient_spec a b :
  0 < b ->
  exists q,
    RG.quotient a b = Num q /\
    (q * inject_Z (Z.of_nat b) == inject_Z (Z.of_nat a))%Q /\
    (forall lo hi, lo * b <= a <= hi * b ->
       (inject_Z (Z.of_nat lo) <= q <= inject_Z (Z.of_nat hi))%Q).
Proof.
  intro Hb. unfold RG.quotient.
  destruct (Nat.eqb_spec b 0) as [->|_]; [lia|].
  eexists. split; [reflexivity|].
  assert (Pb : (0 < inject_Z (Z.of_nat b))%Q).
  { change 0%Q with (inject_Z 0). rewrite <- Zlt_Qlt. lia. }
  split.
  - field. intro Z. rewrite Z in Pb. apply (Qlt_irrefl 0). exact Pb.
  - intros lo hi [L H]. split.
    + apply Qle_shift_div_l; [exact Pb|].
      rewrite <- inject_Z_mult, <- Zle_Qle. lia.
    + apply Qle_shift_div_r; [exact Pb|].
      rewrite <- inject_Z_mult, <- Zle_Qle. lia.
Qed.



(** ** The text and the table formatters *)

Lemma concat_empty_cons x l :
  String.concat "" (x :: l) = (x ++ String.concat "" l)%string.
Proof.
  destruct l as [|y l]; cbn [String.concat].
  - symmetry. apply append_empty_r.
  - reflexivity.
Qed.

Lemma fold_text_entry entries content :
  fold_left Formatters.text_entry entries content
  = (content ++ String.concat "" (map text_line entries))%string.
Proof.
  revert content. induction entries as [|e rest IH]; intro content.
  - cbn. symmetry. apply append_empty_r.
  - cbn [fold_left map]. rewrite IH, concat_empty_cons.
    unfold Formatters.text_entry, text_line.
    rewrite !append_assoc. reflexivity.
Qed.

Lemma text_records_records (records : list Record_) :
  forall index content,
    Formatters.text_records (map VObject records) index content
    = Ok (content ++ text_blocks (index + 1) records)%string.
Proof.
  induction records as [|r rest IH]; intros index content.
  - cbn. rewrite append_empty_r. reflexivity.
  - cbn [map Formatters.text_records Formatters.Object_entries and_then
         text_blocks].
    rewrite fold_text_entry, IH. unfold text_block.
    replace (index + 1 + 1) with (S (index + 1)) by lia.
    rewrite !append_assoc. reflexivity.
Qed.

Lemma Object_entries_nullish v :
  nullish v = false -> exists entries, Formatters.Object_entries v = Ok entries.
Proof.
  destruct v; cbn; intro H; try discriminate H; eexists; reflexivity.
Qed.

Lemma text_records_throws items :
  forall index content,
    (exists e, Formatters.text_records items index content = Throw e)
    <-> existsb nullish items = true.
Proof.
  induction items as [|v rest IH]; intros index content.
  - cbn. split; [intros [e H]; discriminate H|discriminate].
  - cbn [Formatters.text_records existsb].
    destruct (nullish v) eqn:N.
    + cbn [orb]. split; [reflexivity|]. intros _.
      destruct v; try discriminate N; eexists; reflexivity.
    + cbn [orb]. destruct (Object_entries_nullish v N) as [entries ->].
      cbn [and_then]. apply IH.
Qed.

Lemma repeat_string_length c n :
  String.length (Formatters.repeat_string (String c EmptyString) n) = n.
Proof.
  induction n as [|n IH]; [reflexivity|].
  cbn [Formatters.repeat_string append String.length]. rewrite IH.
  reflexivity.
Qed.



Lemma join_empty_concat l : join "" l = String.concat "" l.
Proof.
  induction l as [|x l IH]; [reflexivity|].
  destruct l as [|y l]; [reflexivity|].
  cbn [join String.concat] in *. rewrite IH. reflexivity.
Qed.

Lemma map_result_Ok {A B} (f : A -> Result B) (g : A -> B) l :
  (forall x, In x l -> f x = Ok (g x)) ->
  map_result f l = Ok (map g l).
Proof.
  induction l as [|x l IH]; intro H; [reflexivity|].
  cbn [map_result map]. rewrite (H x (or_introl eq_refl)). cbn [and_then].
  rewrite IH by (intros y Hy; apply H; right; exact Hy). reflexivity.
Qed.

Lemma map_result_throws {A B} (f : A -> Result B) l e :
  map_result f l = Throw e -> exists x, In x l /\ f x = Throw e.
Proof.
  induction l as [|x l IH]; [discriminate|].
  cbn [map_result]. destruct (f x) as [y|e'] eqn:F; cbn [and_then].
  - destruct (map_result f l) as [ys|e'] eqn:M; cbn [and_then];
      [discriminate|].
    intro H. injection H as ->. destruct (IH eq_refl) as (z & Hz & Fz).
    exists z. split; [right; exact Hz|exact Fz].
  - intro H. injection H as ->. exists x. split; [left; reflexivity|exact F].
Qed.

Lemma table_cell_record (r : Record_) key :
  Formatters.table_cell (VObject r) key
  = Ok ("<td>" ++ cell_text (property r key) ++ "</td>")%string.
Proof.
  unfold Formatters.table_cell, property, cell_text. cbn [get].
  destruct (lookup key r); reflexivity.
Qed.

Lemma table_row_record cols (r : Record_) :
  Formatters.table_row cols (VObject r) = Ok (html_row cols r).
Proof.
  unfold Formatters.table_row, html_row.
  rewrite (map_result_Ok _
             (fun k => "<td>" ++ cell_text (property r k) ++ "</td>")%string)
    by (intros k _; apply table_cell_record).
  cbn [and_then]. rewrite join_empty_concat. reflexivity.
Qed.

Lemma get_throws v key e : get v key = Throw e -> nullish v = true.
Proof.
  destruct v; cbn; intro H; try reflexivity; try discriminate H.
  - destruct (String.eqb key "length"); [discriminate H|].
    destruct (at_index_key key (code_units s)); discriminate H.
  - destruct (String.eqb key "length"); [discriminate H|].
    destruct (at_index_key key items); discriminate H.
  - destruct (lookup key props); discriminate H.
Qed.

Lemma table_row_throws keys item e :
  Formatters.table_row keys item = Throw e -> nullish item = true.
Proof.
  unfold Formatters.table_row.
  destruct (map_result (Formatters.table_cell item) keys) as [cells|x] eqn:M;
    [discriminate|].
  intros _. apply map_result_throws in M. destruct M as (k & _ & C).
  unfold Formatters.table_cell in C.
  destruct (get item k) as [v|y] eqn:G; [discriminate C|].
  exact (get_throws item k y G).
Qed.

Lemma html_row_agree cols a b :
  (forall k, In k cols -> cell_text (property a k) = cell_text (property b k)) ->
  html_row cols a = html_row cols b.
Proof.
  intro H. unfold html_row. do 3 f_equal.
  apply map_ext_in. intros k Hk. rewrite (H k Hk). reflexivity.
Qed.



Lemma prefix_step (a x b t r : string) :
  x = (b ++ t ++ r)%string -> (a ++ x = (a ++ b) ++ t ++ r)%string.
Proof. intros ->. rewrite append_assoc. reflexivity. Qed.

Lemma document_around metadata styling now :
  exists before after,
    forall table,
      Formatters.document metadata styling now table
      = (before ++ table ++ after)%string.
Proof.
  unfold Formatters.document. eexists. eexists. intro table.
  repeat lazymatch goal with
         | |- (table ++ _)%string = _ => fail
         | |- (_ ++ _)%string = _ => apply prefix_step
         end.
  exact (eq_refl : (table ++ _ = EmptyString ++ table ++ _)%string).
Qed.

Lemma is_dark_themed theme p :
  theme <> Some "dark" ->
  Formatters.is_dark (Formatters.merged_styling (Some (themed theme p)))
  = false.
Proof.
  intro H. unfold Formatters.is_dark. cbn.
  destruct theme as [t|]; [|reflexivity].
  destruct (String.eqb_spec t "dark") as [->|_]; [|reflexivity].
  exfalso. apply H. reflexivity.
Qed.

Lemma css_themed theme p :
  theme <> Some "dark" ->
  Formatters.css (Formatters.merged_styling (Some (themed theme p)))
  = Formatters.css (Formatters.merged_styling (Some (themed (Some "light") p))).
Proof.
  intro H. unfold Formatters.css.
  rewrite (is_dark_themed theme p H).
  rewrite (is_dark_themed (Some "light") p) by discriminate.
  reflexivity.
Qed.

(** X26.  [generateHTML] puts the data into the data section of the
    document and nowhere else: the document is a text, then what
    [renderDataAsTable] returns for the data, then a text, and the two
    texts are the same for all data; [generateHTML] throws what
    [renderDataAsTable] throws.  Every theme but [dark], also [minimal] and
    [undefined], gives the document of the theme [light].  An empty title,
    and no metadata, give the title [Report]. *)
Theorem X26_generateHTML metadata given now :
  (exists before after,
      forall data,
        Formatters.generateHTML data metadata given now
        = match Formatters.renderDataAsTable data with
          | Ok table => Ok (before ++ table ++ after)%string
          | Throw e => Throw e
          end) /\
  (forall data p theme,
      theme <> Some "dark" ->
      Formatters.generateHTML data metadata (Some (themed theme p)) now
      = Formatters.generateHTML data metadata
          (Some (themed (Some "light") p)) now) /\
  (forall data m,
      Formatters.title m = EmptyString ->
      Formatters.generateHTML data (Some m) given now
      = Formatters.generateHTML data (Some (retitled "Report" m)) given now) /\
  (forall data,
      Formatters.generateHTML data None given now
      = Formatters.generateHTML data (Some (retitled "Report" untitled))
          given now).
Proof.
  split; [|split; [|split]].
  - destruct (document_around metadata (Formatters.merged_styling given) now)
      as (before & after & D).
    exists before, after. intro data. unfold Formatters.generateHTML.
    destruct (Formatters.renderDataAsTable data) as [table|e];
      cbn [and_then]; [rewrite D|]; reflexivity.
  - intros data p theme H. unfold Formatters.generateHTML, Formatters.document.
    rewrite (css_themed theme p H). reflexivity.
  - intros data m T. unfold Formatters.generateHTML, Formatters.document,
      Formatters.title_or_report, Formatters.description_paragraph,
      Formatters.author_paragraph, Formatters.version_paragraph.
    cbn [retitled Formatters.title Formatters.description Formatters.author
         Formatters.version is_empty].
    rewrite T. reflexivity.
  - intro data. reflexivity.
Qed.

(** The theme [minimal] gives the document of the theme [light]; an array
    of [null] throws. *)
Lemma X26_generateHTML_witness :
  Formatters.generateHTML (VArray (map VObject stock_records)) None
    (Some (themed (Some "minimal") plain_styling)) "1/2/2024"
  = Formatters.generateHTML (VArray (map VObject stock_records)) None
      (Some (themed (Some "light") plain_styling)) "1/2/2024" /\
  exists e,
    Formatters.generateHTML (VArray [VNull]) None None "1/2/2024" = Throw e.
Proof.
  split.
  - apply (proj1 (proj2 (X26_generateHTML None None "1/2/2024"))).
    discriminate.
  - destruct (proj1 (X26_generateHTML None None "1/2/2024"))
      as (before & after & H).
    rewrite H. eexists. reflexivity.
Defined.

(** * Options that are never read *)

Lemma unused_processing_options im cs options :
  validationOptions (with_unused_processing im cs options)
    = validationOptions options /\
  optEncoding (processingOptions (with_unused_processing im cs options))
    = optEncoding (processingOptions options) /\
  calculateChecksumFlag
    (processingOptions (with_unused_processing im cs options))
    = calculateChecksumFlag (processingOptions options) /\
  onProgress (processingOptions (with_unused_processing im cs options))
    = onProgress (processingOptions options).
Proof.
  unfold validationOptions, processingOptions, with_unused_processing.
  cbn [validation processing optEncoding calculateChecksumFlag onProgress
       pEncoding pCalculateChecksum pOnProgress].
  destruct (processing options) as [p|]; repeat split; reflexivity.
Qed.

Lemma validateFile_unused im cs options f st :
  validateFile (with_unused_processing im cs options) f st
  = validateFile options f st.
Proof.
  rewrite !validateFile_first_objection.
  destruct (unused_processing_options im cs options) as (V & _).
  rewrite V. unfold report_error. reflexivity.
Qed.

Lemma onprogress_unused im cs options :
  onprogress (processingOptions (with_unused_processing im cs options))
  = onprogress (processingOptions options).
Proof.
  destruct (unused_processing_options im cs options) as (_ & _ & _ & P).
  unfold onprogress. rewrite P. reflexivity.
Qed.

Lemma processFile_unused im cs options host f st :
  processFile (with_unused_processing im cs options) host f st
  = processFile options host f st.
Proof.
  destruct (unused_processing_options im cs options) as (_ & E & C & _).
  unfold processFile, processFile_try, readContent.
  rewrite onprogress_unused, E, C.
  assert (V : validateFile (with_unused_processing im cs options) f
              = validateFile options f).
  { unfold validateFile.
    rewrite (proj1 (unused_processing_options im cs options)). reflexivity. }
  rewrite V. reflexivity.
Qed.

Lemma processFiles_loop_unused im cs options host files :
  forall steps i results st,
    processFiles_loop (with_unused_processing im cs options) host files
      steps i results st
    = processFiles_loop options host files steps i results st.
Proof.
  induction steps as [|steps IH]; intros i results st; [reflexivity|].
  cbn [processFiles_loop].
  destruct (i <? List.length files); [|reflexivity].
  destruct (nth_error files i) as [f|]; [|reflexivity].
  unfold bind at 1 3. rewrite processFile_unused.
  destruct (processFile options host f st) as [[r|e] st1]; [|reflexivity].
  unfold bind. destruct (setProgress _ st1) as [[u|e] st2]; [|reflexivity].
  apply IH.
Qed.

(** X27.  Options that change nothing.  The keys [includeMetadata] and
    [chunkSize] of the processing options are never read: [processFile],
    [processFiles] and [validateFile] give the same result, the same state
    and the same calls whatever they hold.  For the formats [json] and
    [csv] the keys [template] and [compression] of the report options,
    which are never read, and the key [styling] change nothing in
    [generateReport]. *)
Theorem X27_unused_options :
  (forall im cs options host f st,
      processFile (with_unused_processing im cs options) host f st
      = processFile options host f st) /\
  (forall im cs options host files st,
      processFiles (with_unused_processing im cs options) host files st
      = processFiles options host files st) /\
  (forall im cs options f st,
      validateFile (with_unused_processing im cs options) f st
      = validateFile options f st) /\
  (forall t c s host data options st,
      RG.format options = "json" \/ RG.format options = "csv" ->
      RG.generateReport host data (with_unused_report t c s options) st
      = RG.generateReport host data options st).
Proof.
  split; [intros; apply processFile_unused|].
  split; [intros; apply processFiles_loop_unused|].
  split; [intros; apply validateFile_unused|].
  intros t c s host data options st H.
  unfold RG.generateReport, RG.generateReport_try.
  assert (F : RG.format_content host data (with_unused_report t c s options)
              = RG.format_content host data options).
  { unfold RG.format_content. cbn [with_unused_report RG.format].
    destruct H as [H|H]; rewrite H; reflexivity. }
  rewrite F. reflexivity.
Qed.

(** A chunk size of one byte and a template change nothing. *)
Lemma X27_unused_options_witness :
  processFile
    (with_unused_processing (Some (Some false)) (Some (Some 1%Z))
       default_options) sample_host notes_txt initial
  = processFile default_options sample_host notes_txt initial /\
  RG.generateReport sample_browser (VArray (map VObject sample_records))
    (with_unused_report (Some "fancy") (Some true) None (plain_options "csv"))
    RG.initial
  = RG.generateReport sample_browser (VArray (map VObject sample_records))
      (plain_options "csv") RG.initial.
Proof.
  split.
  - apply (proj1 X27_unused_options).
  - apply (proj2 (proj2 (proj2 X27_unused_options))). right. reflexivity.
Defined.
